(** * Multilingual sentiment pipeline: a shallow embedding of the analysis core

    The development embeds the text-analysis services of the repository
    (app/services/ollama_service.py, optimized_sentiment_service.py,
    sentiment_service.py, tokenization_service.py and chunking_service.py)
    and proves properties of them.

    Conventions.
    - A Python [str] is a [string]: a sequence of code points below 256
      (Rocq's [ascii] is an 8-bit character).  The character classes below
      are Python's on that range, which is closed under every string
      operation the services perform.
    - A Python [float] is a rational or one of the three special values;
      a decimal literal stands for the rational it is written as.
    - A Python [dict] is an association list in insertion order.
    - What the services cannot decide themselves (the remote model, the
      MD5 digest, the built-in [hash], [json.loads]) is a field of the
      [Runtime] class. *)

From Stdlib Require Import ZArith QArith String Ascii List Lia Bool Arith.
From Stdlib Require Import DecimalString Permutation.
From stdpp Require Import base list sorting.
Import ListNotations.

Set Warnings "-register-all".

Local Open Scope string_scope.
Local Open Scope list_scope.
Local Open Scope nat_scope.

(* ===================================================================== *)
(** ** Python strings *)
(* ===================================================================== *)

Module Py.

Definition chars := list ascii.

Definition code (c : ascii) : nat := nat_of_ascii c.

Definition between (lo hi n : nat) : bool := (lo <=? n) && (n <=? hi).

(** [str.isspace] of one character; the regular-expression class [\s] is
    the same set. *)
Definition isspace (c : ascii) : bool :=
  let n := code c in
  between 9 13 n || between 28 32 n || (n =? 133) || (n =? 160).

Definition isupper_char (c : ascii) : bool :=
  let n := code c in
  between 65 90 n || between 192 214 n || between 216 222 n.

Definition islower_char (c : ascii) : bool :=
  let n := code c in
  between 97 122 n || (n =? 170) || (n =? 181) || (n =? 186)
  || between 223 246 n || between 248 255 n.

Definition isalpha_char (c : ascii) : bool := isupper_char c || islower_char c.

Definition lower_char (c : ascii) : ascii :=
  if isupper_char c then ascii_of_nat (code c + 32) else c.

(** [word.isupper()]: no lowercase character and at least one uppercase. *)
Definition isupper (w : chars) : bool :=
  forallb (fun c => negb (islower_char c)) w && existsb isupper_char w.

(** [word.isalpha()]: not empty and every character alphabetic. *)
Definition isalpha (w : chars) : bool :=
  negb (Nat.eqb (length w) 0) && forallb isalpha_char w.

(** [word.capitalize()] where it is called: on a word whose first
    character is an uppercase letter, which title-casing leaves alone;
    the rest is lowercased. *)
Definition capitalize (w : chars) : chars :=
  match w with
  | [] => []
  | c :: r => c :: map lower_char r
  end.

Fixpoint lstrip (s : chars) : chars :=
  match s with
  | [] => []
  | c :: r => if isspace c then lstrip r else s
  end.

Definition rstrip (s : chars) : chars := rev (lstrip (rev s)).

Definition strip (s : chars) : chars := rstrip (lstrip s).

Definition at_space (s : chars) : bool :=
  match s with
  | [] => true
  | c :: _ => isspace c
  end.

(** [s.split()]: the maximal runs of non-whitespace characters. *)
Fixpoint split (s : chars) : list chars :=
  match s with
  | [] => []
  | c :: r =>
      if isspace c then split r
      else match split r with
           | w :: ws => if at_space r then [c] :: w :: ws else (c :: w) :: ws
           | [] => [[c]]
           end
  end.

(** [sep.join(ws)]. *)
Fixpoint join (sep : chars) (ws : list chars) : chars :=
  match ws with
  | [] => []
  | [w] => w
  | w :: ws' => w ++ sep ++ join sep ws'
  end.

Fixpoint startswith (p s : chars) : bool :=
  match p, s with
  | [], _ => true
  | a :: p', b :: s' => Ascii.eqb a b && startswith p' s'
  | _ :: _, [] => false
  end.

(** [p in s]. *)
Fixpoint contains (p s : chars) : bool :=
  startswith p s ||
  match s with
  | [] => false
  | _ :: r => contains p r
  end.

Definition endswith (p s : chars) : bool := startswith (rev p) (rev s).

(** [re.sub(pattern, repl, s)] for a pattern that never matches the
    empty string.  [matcher s] says whether the pattern matches at the
    start of [s] and, if so, how many characters the match takes and what
    replaces it; the scan resumes after the match. *)
Fixpoint re_sub (matcher : chars -> option (nat * chars)) (skip : nat) (s : chars) : chars :=
  match s with
  | [] => []
  | c :: r =>
      match skip with
      | S k => re_sub matcher k r
      | O => match matcher s with
             | Some (n, repl) => repl ++ re_sub matcher (n - 1) r
             | None => c :: re_sub matcher 0 r
             end
      end
  end.

(** The length of the whitespace run [s] starts with. *)
Fixpoint ws_run (s : chars) : nat :=
  match s with
  | c :: r => if isspace c then S (ws_run r) else 0
  | [] => 0
  end.

(** [s.split(sep)] for a one-character separator. *)
Fixpoint split_on (sep : ascii) (s : chars) : list chars :=
  match s with
  | [] => [[]]
  | c :: r =>
      match split_on sep r with
      | l :: ls => if Ascii.eqb c sep then [] :: l :: ls else (c :: l) :: ls
      | [] => [[c]]
      end
  end.

(** The suffix of [s] that starts at the first [c]; empty when there is
    none. *)
Fixpoint from_first (c : ascii) (s : chars) : chars :=
  match s with
  | [] => []
  | x :: r => if Ascii.eqb x c then s else from_first c r
  end.

Definition chars_eqb (a b : chars) : bool :=
  Nat.eqb (length a) (length b) && startswith a b.

(** The longest prefix of [s] whose characters satisfy [p]. *)
Fixpoint take_while (p : ascii -> bool) (s : chars) : chars :=
  match s with
  | c :: r => if p c then c :: take_while p r else []
  | [] => []
  end.

Fixpoint drop_while (p : ascii -> bool) (s : chars) : chars :=
  match s with
  | c :: r => if p c then drop_while p r else s
  | [] => []
  end.

(** [s.strip(c)] for one character [c]. *)
Definition strip_char (c : ascii) (s : chars) : chars :=
  rev (drop_while (Ascii.eqb c) (rev (drop_while (Ascii.eqb c) s))).

(** [s.split(sep, 1)] when [sep] occurs in [s]: what is before the first
    occurrence and what is after it.  The first part is
    [s.split(sep)[0]] and its length is [s.find(sep)]. *)
Fixpoint split_once (sep s : chars) {struct s} : option (chars * chars) :=
  if startswith sep s then Some ([], skipn (length sep) s)
  else match s with
       | [] => None
       | c :: r => match split_once sep r with
                   | Some (before, after) => Some (c :: before, after)
                   | None => None
                   end
       end.

(** [s[1:-1]]. *)
Definition inner (s : chars) : chars := tl (removelast s).

(** [s.replace(old, new)] for a non-empty [old]. *)
Definition replace (old new s : chars) : chars :=
  re_sub (fun t => if startswith old t then Some (length old, new) else None) 0 s.

Definition of_str (s : string) : chars := list_ascii_of_string s.
Definition to_str (s : chars) : string := string_of_list_ascii s.

(** The same operations on [string]. *)
Definition str_lower (s : string) : string := to_str (map lower_char (of_str s)).
Definition str_strip (s : string) : string := to_str (strip (of_str s)).
Definition str_in (p s : string) : bool := contains (of_str p) (of_str s).
Definition str_len (s : string) : nat := String.length s.

(** *** Floats *)

Inductive float : Type :=
| Fin (q : Q)
| PosInf
| NegInf
| NaN.

(** [a < b]; every comparison with NaN is false. *)
Definition flt (a b : float) : bool :=
  match a, b with
  | NaN, _ | _, NaN => false
  | Fin x, Fin y => if Qlt_le_dec x y then true else false
  | NegInf, NegInf => false
  | NegInf, _ => true
  | _, NegInf => false
  | PosInf, _ => false
  | Fin _, PosInf => true
  end.

Definition fle (a b : float) : bool :=
  match a, b with
  | NaN, _ | _, NaN => false
  | Fin x, Fin y => if Qlt_le_dec y x then false else true
  | NegInf, _ => true
  | _, NegInf => false
  | _, PosInf => true
  | PosInf, Fin _ => false
  end.

(** [min(a, b)] keeps [a] unless [b < a]; [max(a, b)] keeps [a] unless
    [b > a]. *)
Definition py_min (a b : float) : float := if flt b a then b else a.
Definition py_max (a b : float) : float := if flt a b then b else a.

End Py.

(* ===================================================================== *)
(** ** app/models/review_models.py *)
(* ===================================================================== *)

Inductive SentimentLabel : Type := POSITIVE | NEGATIVE | NEUTRAL.

(** A result of sentiment analysis: [Tuple[SentimentLabel, float]]. *)
Definition outcome : Type := SentimentLabel * Py.float.

Definition f_0_0  : Py.float := Py.Fin 0.
Definition f_0_5  : Py.float := Py.Fin (5 # 10).
Definition f_0_6  : Py.float := Py.Fin (6 # 10).
Definition f_0_65 : Py.float := Py.Fin (65 # 100).
Definition f_0_7  : Py.float := Py.Fin (7 # 10).
Definition f_0_75 : Py.float := Py.Fin (75 # 100).
Definition f_0_9  : Py.float := Py.Fin (9 # 10).
Definition f_0_95 : Py.float := Py.Fin (95 # 100).

(** The closed interval [0.5, 0.95]. *)
Definition in_confidence_range (c : Py.float) : Prop :=
  Py.fle f_0_5 c = true /\ Py.fle c f_0_95 = true.

Module Models.

(** [SentimentLabel.value]. *)
Definition value (label : SentimentLabel) : string :=
  match label with
  | POSITIVE => "positive"
  | NEGATIVE => "negative"
  | NEUTRAL => "neutral"
  end.

(** [TextChunk]. *)
Record TextChunk : Type := {
  chunk_id : Z;
  text : string;
  start_index : Z;
  end_index : Z;
  language : option string
}.

(** The language of a chunk as the services read it.  They format it
    into cache keys and compare it with language codes, so that [None]
    reads as the text [None], a language without patterns. *)
Definition language_name (chunk : TextChunk) : string :=
  match language chunk with
  | Some l => l
  | None => "None"
  end.

(** The dictionary [get_sentiment_statistics] returns. *)
Record sentiment_statistics : Type := {
  positive_count : nat;
  negative_count : nat;
  neutral_count : nat;
  total : nat
}.

End Models.

Module Fallback.

Definition positive_words : list string :=
  ["good"; "great"; "excellent"; "amazing"; "love"; "perfect"; "wonderful"; "fantastic"].

Definition negative_words : list string :=
  ["bad"; "terrible"; "awful"; "hate"; "horrible"; "worst"; "disappointing"].

(** [sum(1 for word in words if word in text_lower)]. *)
Definition count_in (words : list string) (text_lower : string) : nat :=
  length (List.filter (fun word => Py.str_in word text_lower) words).

(** [OllamaService._fallback_sentiment]. *)
Definition _fallback_sentiment (text : string) : outcome :=
  let text_lower := Py.str_lower text in
  let positive_count := count_in positive_words text_lower in
  let negative_count := count_in negative_words text_lower in
  if negative_count <? positive_count then (POSITIVE, f_0_7)
  else if positive_count <? negative_count then (NEGATIVE, f_0_7)
  else (NEUTRAL, f_0_6).

End Fallback.

(* ===================================================================== *)
(** ** Python dictionaries, JSON values, exceptions *)
(* ===================================================================== *)

(** A [dict] with string keys.  Iteration order is insertion order:
    assigning to a key that is present keeps its place, a new key goes
    last. *)
Module Dict.
Section Dict.
Context {V : Type}.

Definition t : Type := list (string * V).

Definition empty : t := [].

Fixpoint get (k : string) (d : t) : option V :=
  match d with
  | [] => None
  | (k', v) :: r => if String.eqb k k' then Some v else get k r
  end.

(** [k in d]. *)
Definition mem (k : string) (d : t) : bool :=
  match get k d with Some _ => true | None => false end.

(** [d[k] = v]. *)
Fixpoint set (k : string) (v : V) (d : t) : t :=
  match d with
  | [] => [(k, v)]
  | (k', v') :: r =>
      if String.eqb k k' then (k, v) :: r else (k', v') :: set k v r
  end.

(** [del d[k]]; the services only delete keys they have just listed. *)
Fixpoint del (k : string) (d : t) : t :=
  match d with
  | [] => []
  | (k', v') :: r => if String.eqb k k' then r else (k', v') :: del k r
  end.

Definition keys (d : t) : list string := map fst d.

Definition len (d : t) : nat := length d.

(** [d.get(k, default)]. *)
Definition get_default (k : string) (default : V) (d : t) : V :=
  match get k d with Some v => v | None => default end.
End Dict.
Arguments t : clear implicits.
End Dict.

Inductive json : Type :=
| JNull
| JBool (b : bool)
| JInt (z : Z)
| JFloat (f : Py.float)
| JStr (s : string)
| JList (l : list json)
| JDict (d : list (string * json)).

Inductive exn : Type :=
| KeyError
| AttributeError
| TypeError
| ValueError
| OverflowError
| IndexError
| ZeroDivisionError
| JSONDecodeError
| RemoteError (msg : string).    (* raised by [client.chat]; [msg] is [str(e)] *)

Inductive result (A : Type) : Type :=
| Ok (a : A)
| Raise (e : exn).
Arguments Ok {A} a.
Arguments Raise {A} e.

(** Computations that read and write a state [S] and may raise.  The
    state reached when an exception is raised is kept: what was written
    before the exception stays written. *)
Definition M (S A : Type) : Type := S -> result A * S.

Definition ret {S A} (a : A) : M S A := fun s => (Ok a, s).

Definition raise {S A} (e : exn) : M S A := fun s => (Raise e, s).

Definition bind {S A B} (m : M S A) (f : A -> M S B) : M S B :=
  fun s =>
    match m s with
    | (Ok a, s') => f a s'
    | (Raise e, s') => (Raise e, s')
    end.

(** [try: body / except Exception as e: handler(e)]. *)
Definition try_except {S A} (body : M S A) (handler : exn -> M S A) : M S A :=
  fun s =>
    match body s with
    | (Ok a, s') => (Ok a, s')
    | (Raise e, s') => handler e s'
    end.

Definition gets {S A} (f : S -> A) : M S A := fun s => (Ok (f s), s).

Definition modify {S} (f : S -> S) : M S unit := fun s => (Ok tt, f s).

Definition lift_result {S A} (r : result A) : M S A := fun s => (r, s).

Definition and_then {A B} (r : result A) (f : A -> result B) : result B :=
  match r with
  | Ok a => f a
  | Raise e => Raise e
  end.

(** [[f(x) for x in xs]] where [f] may raise. *)
Fixpoint map_r {A B} (f : A -> result B) (xs : list A) : result (list B) :=
  match xs with
  | [] => Ok []
  | x :: r => and_then (f x) (fun y => and_then (map_r f r) (fun ys => Ok (y :: ys)))
  end.

Declare Scope py_scope.
Delimit Scope py_scope with py.
Notation "x <- m ;; k" := (bind m (fun x => k))
  (at level 100, m at next level, right associativity) : py_scope.
Notation "m ;;; k" := (bind m (fun _ => k))
  (at level 100, right associativity) : py_scope.

(** [for x in xs: body(x)], stopping at the first exception. *)
Fixpoint for_each {S A} (body : A -> M S unit) (xs : list A) : M S unit :=
  match xs with
  | [] => ret tt
  | x :: r => bind (body x) (fun _ => for_each body r)
  end.

(** [[f(x) for x in xs]] where [f] has effects. *)
Fixpoint map_m {S A B} (f : A -> M S B) (xs : list A) : M S (list B) :=
  match xs with
  | [] => ret []
  | x :: r => bind (f x) (fun y => bind (map_m f r) (fun ys => ret (y :: ys)))
  end.

(* ===================================================================== *)
(** ** The remote model and the run-time library *)
(* ===================================================================== *)

(** [response['message']]: both fields may be missing. *)
Record message : Type := {
  content : option string;
  thinking : option string
}.

(** What [client.chat] returned; [None] when it is falsy or has no
    ['message']. *)
Definition response : Type := option message.

Inductive chat_result : Type :=
| ChatRaises (err : string)        (* [str] of the exception *)
| ChatReturns (r : response).

(** The prompt of a remote call, by the operation that built it and the
    values it formatted in. *)
Inductive request : Type :=
| SentimentPrompt (text : string)
| BatchSentimentPrompt (texts : list string)
| TranslationPrompt (source_lang target_lang text : string).

(** The two thread pools of the services. *)
Inductive pool : Type := TokenizerPool | ClassifierPool.

Class Runtime : Type := {
  (** [hashlib.md5(text.encode('utf-8')).hexdigest()] *)
  md5_hexdigest : string -> string;
  (** the built-in [hash] on strings, and on [None] *)
  py_hash : string -> Z;
  py_hash_none : Z;
  (** [str(n)] of an integer *)
  str_of_int : Z -> string;
  (** [json.loads]; it raises [JSONDecodeError] on malformed text *)
  json_loads : string -> result json;
  (** [float(s)] of a string; [None] is [ValueError] *)
  float_of_str : string -> option Py.float;
  (** [float(n)] of an integer; [None] is [OverflowError] *)
  float_of_int : Z -> option Py.float;
  (** the answer of the remote model to the [n]-th call made so far *)
  chat : nat -> request -> chat_result;
  (** whether [_initialize_client], run after [n] calls, leaves a client *)
  client_created : nat -> bool;
  (** the order in which the futures of a thread pool complete, by their
      position in the pool: which pool, the offset of the sub-batch it
      serves, the number of its futures *)
  completion_order : pool -> nat -> nat -> list nat
}.

(** A thread pool, serialised: the futures run one at a time in the
    order they complete, and the waiting thread handles each result as
    soon as its future is done.  [acc] is the local state of the
    [for future in as_completed(...)] loop. *)
Fixpoint as_completed {S A R} (tasks : list (M S A))
    (handle : nat -> result A -> R -> M S R) (order : list nat) (acc : R) : M S R :=
  match order with
  | [] => ret acc
  | j :: rest =>
      match nth_error tasks j with
      | Some task =>
          fun s => let '(r, s') := task s in
                   bind (handle j r acc) (fun acc' => as_completed tasks handle rest acc') s'
      | None => as_completed tasks handle rest acc
      end
  end.

(** [l[i:i+n]]. *)
Definition slice {A} (i n : nat) (l : list A) : list A := firstn n (skipn i l).

(** [range(0, n, step)] for a positive [step]. *)
Definition range_step (n step : nat) : list nat :=
  map (fun k => k * step) (seq 0 ((n + step - 1) / step)).


(* ===================================================================== *)
(** ** app/services/ollama_service.py *)
(* ===================================================================== *)

Module Ollama.

(** The dictionary [translate_text] returns. *)
Record translation : Type := {
  original_text : string;
  translated_text : string;
  source_language : string;
  was_translated : bool;
  error : option string
}.

Record OllamaService : Type := {
  client : bool;                          (* [self.client is not None] *)
  sentiment_cache : Dict.t outcome;
  translation_cache : Dict.t translation;
  max_cache_size : nat;
  last_response : response;               (* [self._last_response] *)
  remote_calls : list request             (* the calls of [client.chat], oldest first *)
}.

Definition with_client (b : bool) (svc : OllamaService) : OllamaService :=
  {| client := b;
     sentiment_cache := sentiment_cache svc;
     translation_cache := translation_cache svc;
     max_cache_size := max_cache_size svc;
     last_response := last_response svc;
     remote_calls := remote_calls svc |}.

Definition with_sentiment_cache (d : Dict.t outcome) (svc : OllamaService) : OllamaService :=
  {| client := client svc;
     sentiment_cache := d;
     translation_cache := translation_cache svc;
     max_cache_size := max_cache_size svc;
     last_response := last_response svc;
     remote_calls := remote_calls svc |}.

Definition with_translation_cache (d : Dict.t translation) (svc : OllamaService) : OllamaService :=
  {| client := client svc;
     sentiment_cache := sentiment_cache svc;
     translation_cache := d;
     max_cache_size := max_cache_size svc;
     last_response := last_response svc;
     remote_calls := remote_calls svc |}.

Definition with_last_response (r : response) (svc : OllamaService) : OllamaService :=
  {| client := client svc;
     sentiment_cache := sentiment_cache svc;
     translation_cache := translation_cache svc;
     max_cache_size := max_cache_size svc;
     last_response := r;
     remote_calls := remote_calls svc |}.

Definition with_call (req : request) (svc : OllamaService) : OllamaService :=
  {| client := client svc;
     sentiment_cache := sentiment_cache svc;
     translation_cache := translation_cache svc;
     max_cache_size := max_cache_size svc;
     last_response := last_response svc;
     remote_calls := remote_calls svc ++ [req] |}.

(** [OllamaService.__init__], given whether a client could be made. *)
Definition new_service (has_client : bool) : OllamaService :=
  {| client := has_client;
     sentiment_cache := Dict.empty;
     translation_cache := Dict.empty;
     max_cache_size := 1000;
     last_response := None;
     remote_calls := [] |}.

(** [OllamaService._manage_cache_size]. *)
Definition _manage_cache_size {V} (max_size : nat) (cache_dict : Dict.t V) : Dict.t V :=
  if max_size <=? Dict.len cache_dict then
    let remove_count := max_size / 10 in
    let oldest_keys := firstn remove_count (Dict.keys cache_dict) in
    fold_left (fun d key => Dict.del key d) oldest_keys cache_dict
  else cache_dict.

(** [str(e)]; only the text of a remote error is ever inspected. *)
Definition exn_str (e : exn) : string :=
  match e with
  | RemoteError msg => msg
  | KeyError => "KeyError"
  | AttributeError => "AttributeError"
  | TypeError => "TypeError"
  | ValueError => "ValueError"
  | OverflowError => "OverflowError"
  | IndexError => "IndexError"
  | ZeroDivisionError => "ZeroDivisionError"
  | JSONDecodeError => "JSONDecodeError"
  end.

Definition is_auth_error (chat_error : exn) : bool :=
  Py.str_in "unauthorized" (Py.str_lower (exn_str chat_error))
  || Py.str_in "401" (exn_str chat_error).

Definition label_of (sentiment_str : string) : SentimentLabel :=
  if String.eqb sentiment_str "positive" then POSITIVE
  else if String.eqb sentiment_str "negative" then NEGATIVE
  else NEUTRAL.

(** [max(0.5, min(0.95, confidence))]. *)
Definition clamp (confidence : Py.float) : Py.float :=
  Py.py_max f_0_5 (Py.py_min f_0_95 confidence).

(** [d[key]] on a field that may be missing. *)
Definition getitem {A} (field : option A) : result A :=
  match field with
  | Some a => Ok a
  | None => Raise KeyError
  end.

(** [result_data.get(key, default)]: only a dictionary has [get]. *)
Definition json_get (result_data : json) (key : string) (default : json) : result json :=
  match result_data with
  | JDict d => Ok (Dict.get_default key default d)
  | _ => Raise AttributeError
  end.

(** [value.lower()]: only a string has [lower]. *)
Definition json_lower (value : json) : result string :=
  match value with
  | JStr s => Ok (Py.str_lower s)
  | _ => Raise AttributeError
  end.

(** [for result_data in results_json]: the items a JSON value yields
    when iterated. *)
Definition json_iter (results_json : json) : result (list json) :=
  match results_json with
  | JList l => Ok l
  | JDict d => Ok (map (fun kv => JStr (fst kv)) d)
  | JStr s => Ok (map (fun c => JStr (String c EmptyString)) (Py.of_str s))
  | _ => Raise TypeError
  end.

(** [text[:n]]. *)
Definition str_prefix (n : nat) (text : string) : string :=
  Py.to_str (firstn n (Py.of_str text)).

(** Stable sort of [(index, result)] pairs by index:
    [cached_results.sort(key=lambda x: x[0])]. *)
Fixpoint insert_by_index {A} (x : nat * A) (l : list (nat * A)) : list (nat * A) :=
  match l with
  | [] => [x]
  | y :: r => if fst y <=? fst x then y :: insert_by_index x r else x :: l
  end.

Definition sort_by_index {A} (l : list (nat * A)) : list (nat * A) :=
  fold_left (fun acc x => insert_by_index x acc) l [].

(** *** Finding JSON in a reply *)

Definition backticks : Py.chars := Py.of_str "```".
Definition backticks_json : Py.chars := Py.of_str "```json".

(** [re.sub(r'```json\s*', '', content)]. *)
Definition strip_json_fences (content : Py.chars) : Py.chars :=
  Py.re_sub (fun t => if Py.startswith backticks_json t
                      then Some (7 + Py.ws_run (skipn 7 t), [])
                      else None) 0 content.

(** [re.sub(r'```\s*$', '', content)]: a fence with nothing but
    whitespace after it, up to the end. *)
Definition strip_closing_fence (content : Py.chars) : Py.chars :=
  Py.re_sub (fun t => if Py.startswith backticks t && forallb Py.isspace (skipn 3 t)
                      then Some (length t, [])
                      else None) 0 content.

(** [re.findall(r'\[.*\]', text, re.DOTALL)[0]]: from the first opening
    bracket to the last closing bracket after it. *)
Definition first_array_span (text : Py.chars) : option Py.chars :=
  match Py.from_first "["%char text with
  | [] => None
  | _ :: body =>
      match rev (Py.from_first "]"%char (rev body)) with
      | [] => None
      | upto => Some ("["%char :: upto)
      end
  end.

(** Read backwards: a closing bracket, whitespace, a closing brace. *)
Definition closes_object_array (reversed : Py.chars) : bool :=
  match reversed with
  | c :: r => Ascii.eqb c "]" &&
              match Py.lstrip r with
              | c' :: _ => Ascii.eqb c' "}"
              | [] => false
              end
  | [] => false
  end.

Fixpoint from_last_close (reversed : Py.chars) : Py.chars :=
  match reversed with
  | [] => []
  | _ :: r => if closes_object_array reversed then reversed else from_last_close r
  end.

(** The match of [\[\s*\{.*\}\s*\]] at the start of [text], if any. *)
Definition object_array_at (text : Py.chars) : option Py.chars :=
  match text with
  | c :: r =>
      if Ascii.eqb c "[" then
        match Py.lstrip r with
        | c' :: body =>
            if Ascii.eqb c' "{" then
              match rev (from_last_close (rev body)) with
              | [] => None
              | upto => Some (c :: firstn (Py.ws_run r) r ++ c' :: upto)
              end
            else None
        | [] => None
        end
      else None
  | [] => None
  end.

(** [re.findall(r'\[\s*\{.*\}\s*\]', text, re.DOTALL)[0]]. *)
Fixpoint first_object_array (text : Py.chars) : option Py.chars :=
  match text with
  | [] => None
  | _ :: r =>
      match object_array_at text with
      | Some m => Some m
      | None => first_object_array r
      end
  end.

(** The last resort of [_extract_json_from_response]: the lines from the
    last line that opens an array up to the first later line that closes
    one. *)
Fixpoint scan_lines (in_array : bool) (json_lines : list Py.chars) (lines : list Py.chars)
  : list Py.chars :=
  match lines with
  | [] => json_lines
  | raw :: rest =>
      let line := Py.strip raw in
      if Py.startswith (Py.of_str "[") line then scan_lines true [line] rest
      else if in_array then
        if Py.endswith (Py.of_str "]") line then json_lines ++ [line]
        else scan_lines in_array (json_lines ++ [line]) rest
      else scan_lines in_array json_lines rest
  end.

Definition newline : ascii := "010"%char.
Definition quote : ascii := "034"%char.
Definition apostrophe : ascii := "039"%char.

(** *** Finding a translation in a reply *)

(** [re.findall] of a double quote, a non-empty run without double
    quotes, a double quote: the runs, in order. *)
Fixpoint quoted_matches (skip : nat) (line : Py.chars) : list Py.chars :=
  match line with
  | [] => []
  | c :: r =>
      match skip with
      | S k => quoted_matches k r
      | O =>
          if Ascii.eqb c quote then
            let run := Py.take_while (fun x => negb (Ascii.eqb x quote)) r in
            if (1 <=? length run) && (length run <? length r)
            then run :: quoted_matches (length run + 1) r
            else quoted_matches 0 r
          else quoted_matches 0 r
      end
  end.

Definition lower (s : Py.chars) : Py.chars := map Py.lower_char s.

Definition not_a_translation : list Py.chars :=
  [Py.of_str "translation"; Py.of_str "translate";
   Py.of_str "portugu" ++ ["234"%char] ++ Py.of_str "s"; Py.of_str "english"].

(** The inner loop over [quoted_matches]: the first match that is not
    the source text, is longer than five characters and names none of
    the words above. *)
Definition pick_quoted (text : Py.chars) (matches : list Py.chars) : option Py.chars :=
  List.find (fun m => negb (Py.chars_eqb m text) && (5 <? length m)
                      && negb (existsb (fun word => Py.contains word (lower m))
                                       not_a_translation))
            matches.

(** The loop over the lines of the thinking field.  A quoted match only
    leaves the inner loop, so a later line may replace it; a
    [translation:] line ends the scan. *)
Fixpoint scan_thinking (text translated : Py.chars) (lines : list Py.chars) : Py.chars :=
  match lines with
  | [] => translated
  | raw :: rest =>
      let line := Py.strip raw in
      if Py.contains [quote] line
         && (negb (Py.contains (Py.of_str "translation") (lower line))
             || negb (Py.contains (Py.of_str "translate") (lower line)))
      then match pick_quoted text (quoted_matches 0 line) with
           | Some m => scan_thinking text m rest
           | None => scan_thinking text translated rest
           end
      else if Py.contains (Py.of_str "translation:") (lower line) then
        match Py.split_once (Py.of_str "translation:") line with
        | Some (_, after) =>
            let candidate := Py.strip (Py.strip_char quote (Py.strip after)) in
            if negb (Nat.eqb (length candidate) 0) && negb (Py.chars_eqb candidate text)
            then candidate
            else scan_thinking text translated rest
        | None => scan_thinking text translated rest
        end
      else scan_thinking text translated rest
  end.

(** The last sentence of the thinking field that could be a
    translation. *)
Definition last_sentence (text thinking : Py.chars) : Py.chars :=
  match List.find (fun sentence =>
                     negb (Nat.eqb (length sentence) 0) && (10 <? length sentence)
                     && negb (Py.contains (Py.of_str "translation") (lower sentence))
                     && negb (Py.contains (Py.of_str "portuguese") (lower sentence))
                     && negb (Py.chars_eqb sentence text))
                  (map Py.strip (rev (Py.split_on "."%char thinking))) with
  | Some sentence => sentence
  | None => []
  end.

Definition unquote (q : ascii) (text : Py.chars) : Py.chars :=
  if Py.startswith [q] text && Py.endswith [q] text then Py.inner text else text.

Definition artifacts_to_remove : list Py.chars :=
  [quote :: Py.of_str " Provide only";
   Py.of_str " Provide only";
   Py.of_str " Provide ONLY";
   quote :: Py.of_str " ONLY";
   Py.of_str " no explanations";
   Py.of_str " no additional text";
   Py.of_str " without any";
   Py.of_str " Translation:"].

(** The loop over the artifacts: the first one that occurs in the last
    fifth of the text cuts the text there.  [pos > len * 0.8] is read
    over the rationals. *)
Fixpoint remove_artifact (artifacts : list Py.chars) (text : Py.chars) : Py.chars :=
  match artifacts with
  | [] => text
  | artifact :: rest =>
      match Py.split_once artifact text with
      | Some (before, _) =>
          if 8 * length text <? 10 * length before then Py.strip before
          else remove_artifact rest text
      | None => remove_artifact rest text
      end
  end.

(** [OllamaService._clean_translation]. *)
Definition _clean_translation (text0 : Py.chars) : Py.chars :=
  let text := Py.strip text0 in
  let text := unquote quote text in
  let text := unquote apostrophe text in
  let text := if Py.startswith (Py.of_str "translation:") (lower text)
              then Py.strip (skipn 12 text) else text in
  remove_artifact artifacts_to_remove text.

(** What [translate_text] makes of a reply that has a message: the
    translation and whether there is one. *)
Definition translation_of_message (text : string) (msg : message) : string * bool :=
  let content := Py.strip (Py.of_str (default "" (content msg))) in
  let thinking := Py.strip (Py.of_str (default "" (thinking msg))) in
  let translated_text :=
    match content, thinking with
    | [], _ :: _ =>
        match scan_thinking (Py.of_str text) [] (Py.split_on newline thinking) with
        | [] => last_sentence (Py.of_str text) thinking
        | found => found
        end
    | _, _ => content
    end in
  let translated_text :=
    match translated_text with
    | [] => []
    | _ => _clean_translation translated_text
    end in
  match translated_text with
  | [] => (text, false)
  | _ => (Py.to_str translated_text, true)
  end.

Section WithRuntime.
Context `{RT : Runtime}.
Local Open Scope py_scope.

(** [OllamaService._get_cache_key]. *)
Definition _get_cache_key (text operation : string) : string :=
  let text_hash := md5_hexdigest text in
  operation ++ "_" ++ text_hash.

(** [OllamaService._initialize_client]: the client it leaves is the
    environment's business. *)
Definition _initialize_client : M OllamaService unit :=
  modify (fun svc => with_client (client_created (length (remote_calls svc))) svc).

(** [self.client.chat(...)]: without a client the attribute access
    raises; otherwise the call is recorded and the environment answers. *)
Definition client_chat (req : request) : M OllamaService response :=
  fun svc =>
    if client svc then
      match chat (length (remote_calls svc)) req with
      | ChatReturns r => (Ok r, with_call req svc)
      | ChatRaises err => (Raise (RemoteError err), with_call req svc)
      end
    else (Raise AttributeError, svc).

(** [float(value)]. *)
Definition py_float (value : json) : result Py.float :=
  match value with
  | JFloat f => Ok f
  | JInt z => match float_of_int z with Some f => Ok f | None => Raise OverflowError end
  | JBool b => Ok (Py.Fin (if b then 1 else 0))
  | JStr s => match float_of_str s with Some f => Ok f | None => Raise ValueError end
  | JNull | JList _ | JDict _ => Raise TypeError
  end.

(** The body both parsers share: the label and the clamped confidence
    of one JSON result. *)
Definition parse_result (result_data : json) : result outcome :=
  and_then (json_get result_data "sentiment" (JStr "neutral")) (fun s =>
  and_then (json_lower s) (fun sentiment_str =>
  and_then (json_get result_data "confidence" (JFloat f_0_7)) (fun c =>
  and_then (py_float c) (fun confidence =>
  Ok (label_of sentiment_str, clamp confidence))))).

(** [self._manage_cache_size(self.sentiment_cache);
     self.sentiment_cache[cache_key] = result]. *)
Definition store_sentiment (cache_key : string) (r : outcome) : M OllamaService unit :=
  modify (fun svc =>
    with_sentiment_cache
      (Dict.set cache_key r (_manage_cache_size (max_cache_size svc) (sentiment_cache svc)))
      svc).

(** [OllamaService.analyze_sentiment]. *)
Definition analyze_sentiment (text : string) : M OllamaService outcome :=
  try_except
    (let cache_key := _get_cache_key text "sentiment" in
     cache <- gets sentiment_cache ;;
     match Dict.get cache_key cache with
     | Some cached => ret cached
     | None =>
       has_client <- gets client ;;
       if negb has_client then ret (Fallback._fallback_sentiment text)
       else
         answered <-
           try_except
             (r <- client_chat (SentimentPrompt text) ;; ret (Some r))
             (fun chat_error =>
                if is_auth_error chat_error then
                  _initialize_client ;;;
                  try_except
                    (r <- client_chat (SentimentPrompt text) ;; ret (Some r))
                    (fun _ => ret None)
                else ret None) ;;
         match answered with
         | None => ret (Fallback._fallback_sentiment text)
         | Some (Some msg) =>
             raw <- lift_result (getitem (content msg)) ;;
             let content := Py.str_strip raw in
             match json_loads content with
             | Ok parsed =>
                 r <- lift_result (parse_result parsed) ;;
                 store_sentiment cache_key r ;;;
                 ret r
             | Raise JSONDecodeError =>
                 let content_lower := Py.str_lower content in
                 let r := if Py.str_in "positive" content_lower then (POSITIVE, f_0_75)
                          else if Py.str_in "negative" content_lower then (NEGATIVE, f_0_75)
                          else (NEUTRAL, f_0_65) in
                 store_sentiment cache_key r ;;;
                 ret r
             | Raise e => raise e
             end
         | Some None =>
             let r := Fallback._fallback_sentiment text in
             store_sentiment cache_key r ;;;
             ret r
         end
     end)
    (fun _ => ret (Fallback._fallback_sentiment text)).

(** One rung of the ladder: [json.loads] accepts the candidate, or the
    next rung is tried. *)
Definition try_candidate (candidate : option Py.chars) (next : result string) : result string :=
  match candidate with
  | None => next
  | Some c =>
      match json_loads (Py.to_str c) with
      | Ok _ => Ok (Py.to_str c)
      | Raise JSONDecodeError => next
      | Raise e => Raise e
      end
  end.

(** [for pattern in json_patterns: ...] over one text. *)
Definition try_patterns (text : Py.chars) (next : result string) : result string :=
  try_candidate (first_array_span text)
    (try_candidate (first_object_array text) next).

(** [OllamaService._extract_json_from_response]. *)
Definition _extract_json_from_response (content0 : string) : M OllamaService string :=
  last <- gets last_response ;;
  let content := strip_closing_fence (strip_json_fences (Py.of_str content0)) in
  let line_scan : result string :=
    match scan_lines false [] (Py.split_on newline content) with
    | [] => Ok ""
    | json_lines =>
        let potential_json := Py.to_str (Py.join [newline] json_lines) in
        match json_loads potential_json with
        | Ok _ => Ok potential_json
        | Raise JSONDecodeError => Ok ""
        | Raise e => Raise e
        end
    end in
  let from_thinking : result string :=
    match last with
    | Some msg =>
        match thinking msg with
        | Some t => if String.eqb t "" then line_scan
                    else try_patterns (Py.of_str t) line_scan
        | None => line_scan
        end
    | None => line_scan
    end in
  lift_result (try_patterns content from_thinking).

Definition is_parse_error (e : exn) : bool :=
  match e with
  | JSONDecodeError | KeyError | ValueError => true
  | _ => false
  end.

(** [results] padded with neutral results up to [n], then [results[:n]]. *)
Definition pad_results (n : nat) (results : list outcome) : list outcome :=
  firstn n (results ++ repeat (NEUTRAL, f_0_6) (n - length results)).

(** The [try] block of [_batch_sentiment_api_call]: the results read
    from the reply to one batch prompt, or [None] when the call or the
    reading failed. *)
Definition batch_reply (texts : list string) : M OllamaService (option (list outcome)) :=
  try_except
    (response <- client_chat (BatchSentimentPrompt (map (str_prefix 500) texts)) ;;
     modify (with_last_response response) ;;;
     match response with
     | Some msg =>
         try_except
           (raw <- lift_result (getitem (content msg)) ;;
            json_content <- _extract_json_from_response (Py.str_strip raw) ;;
            if String.eqb json_content "" then raise ValueError
            else
              results_json <- lift_result (json_loads json_content) ;;
              items <- lift_result (json_iter results_json) ;;
              results <- lift_result (map_r parse_result items) ;;
              ret (Some (pad_results (length texts) results)))
           (fun e => if is_parse_error e then ret None else raise e)
     | None => ret None
     end)
    (fun _ => ret None).

(** [OllamaService._batch_sentiment_api_call]: when the batch reply
    gives nothing, one [analyze_sentiment] per text. *)
Definition _batch_sentiment_api_call (texts : list string) : M OllamaService (list outcome) :=
  parsed <- batch_reply texts ;;
  match parsed with
  | Some results => ret results
  | None =>
      map_m (fun text => try_except (analyze_sentiment text)
                                    (fun _ => ret (NEUTRAL, f_0_6))) texts
  end.

(** The first loop of [batch_analyze_sentiment]: what is cached, with
    its index, and what is not. *)
Fixpoint partition_cached (cache : Dict.t outcome) (i : nat) (texts : list string)
  : list (nat * outcome) * list (nat * string) :=
  match texts with
  | [] => ([], [])
  | text :: rest =>
      let '(cached, uncached) := partition_cached cache (S i) rest in
      match Dict.get (_get_cache_key text "sentiment") cache with
      | Some r => ((i, r) :: cached, uncached)
      | None => (cached, (i, text) :: uncached)
      end
  end.

(** [OllamaService.batch_analyze_sentiment]. *)
Definition batch_analyze_sentiment (texts : list string) : M OllamaService (list outcome) :=
  match texts with
  | [] => ret []
  | _ =>
      cache <- gets sentiment_cache ;;
      let '(cached_results, uncached) := partition_cached cache 0 texts in
      let uncached_indices := map fst uncached in
      let uncached_texts := map snd uncached in
      has_client <- gets client ;;
      fresh <-
        (if negb (Nat.eqb (length uncached_texts) 0) && has_client then
           batch_results <- _batch_sentiment_api_call uncached_texts ;;
           for_each (fun tr => store_sentiment (_get_cache_key (fst tr) "sentiment") (snd tr))
                    (combine uncached_texts batch_results) ;;;
           ret (combine uncached_indices batch_results)
         else
           ret (combine uncached_indices (map Fallback._fallback_sentiment uncached_texts))) ;;
      ret (map snd (sort_by_index (cached_results ++ fresh)))
  end.

(** [self._manage_cache_size(self.translation_cache);
     self.translation_cache[cache_key] = result]. *)
Definition store_translation (cache_key : string) (r : translation) : M OllamaService unit :=
  modify (fun svc =>
    with_translation_cache
      (Dict.set cache_key r (_manage_cache_size (max_cache_size svc) (translation_cache svc)))
      svc).

Definition translation_key (text source_lang target_lang : string) : string :=
  _get_cache_key (source_lang ++ "_" ++ target_lang ++ "_" ++ text) "translation".

Definition untranslated (text source_lang : string) (err : option string) : translation :=
  {| original_text := text;
     translated_text := text;
     source_language := source_lang;
     was_translated := false;
     error := err |}.

(** [OllamaService.translate_text]. *)
Definition translate_text (text source_lang target_lang : string) : M OllamaService translation :=
  let cache_key := translation_key text source_lang target_lang in
  try_except
    (cache <- gets translation_cache ;;
     match Dict.get cache_key cache with
     | Some cached => ret cached
     | None =>
       if String.eqb source_lang target_lang then
         let r := untranslated text source_lang None in
         store_translation cache_key r ;;;
         ret r
       else
         has_client <- gets client ;;
         if negb has_client then
           ret (untranslated text source_lang (Some "Translation service not available"))
         else
           response <- client_chat (TranslationPrompt source_lang target_lang text) ;;
           match response with
           | Some msg =>
               let '(translated, translated_p) := translation_of_message text msg in
               let r := {| original_text := text;
                           translated_text := translated;
                           source_language := source_lang;
                           was_translated := translated_p;
                           error := None |} in
               store_translation cache_key r ;;;
               ret r
           | None =>
               let r := untranslated text source_lang (Some "Translation failed") in
               store_translation cache_key r ;;;
               ret r
           end
     end)
    (fun e =>
       let r := untranslated text source_lang (Some (exn_str e)) in
       store_translation cache_key r ;;;
       ret r).

End WithRuntime.
End Ollama.

(* ===================================================================== *)
(** ** app/services/tokenization_service.py *)
(* ===================================================================== *)

Module Tokenization.

Definition space : ascii := " "%char.
Definition quote : ascii := "034"%char.
Definition apostrophe : ascii := "039"%char.

(** The text of the triple-quoted literal in [_basic_text_cleaning]. *)
Definition stray_literal : Py.chars :=
  Py.of_str ", " ++ [quote; apostrophe; quote] ++ Py.of_str ").replace(".

(** [TokenizationService._basic_text_cleaning].  The zero-width
    characters, the dashes and the mis-encoded punctuation it also
    replaces are code points above 255. *)
Definition _basic_text_cleaning (text : Py.chars) : Py.chars :=
  let text := Py.join [space] (Py.split text) in
  let text := Py.replace [quote] [quote] (Py.replace [quote] [quote] text) in
  let text := Py.replace stray_literal [apostrophe] text in
  Py.strip text.

(** The contractions pattern at the start of [t]; the replacement is
    the match without its apostrophe. *)
Definition contraction_at (t : Py.chars) : option (nat * Py.chars) :=
  if Py.startswith (Py.of_str "n't") t then Some (3, Py.of_str "nt")
  else if Py.startswith (Py.of_str "'re") t then Some (3, Py.of_str "re")
  else if Py.startswith (Py.of_str "'ve") t then Some (3, Py.of_str "ve")
  else if Py.startswith (Py.of_str "'ll") t then Some (3, Py.of_str "ll")
  else if Py.startswith (Py.of_str "'d") t then Some (2, Py.of_str "d")
  else if Py.startswith (Py.of_str "'s") t then Some (2, Py.of_str "s")
  else None.

Definition guillemet_left : ascii := "171"%char.
Definition guillemet_right : ascii := "187"%char.
Definition inverted_question : ascii := "191"%char.
Definition inverted_exclamation : ascii := "161"%char.

(** [TokenizationService._apply_language_specific_optimization].  The
    German low quote and the Hindi danda are code points above 255. *)
Definition _apply_language_specific_optimization (text : Py.chars) (language : string)
  : Py.chars :=
  if String.eqb language "en" then Py.re_sub contraction_at 0 text
  else if String.eqb language "fr" then
    Py.replace [guillemet_right] [quote] (Py.replace [guillemet_left] [quote] text)
  else if String.eqb language "de" then Py.replace [quote] [quote] text
  else if String.eqb language "es" then
    Py.replace [inverted_exclamation] [] (Py.replace [inverted_question] [] text)
  else text.

Definition one_of (set : string) (c : ascii) : bool :=
  existsb (Ascii.eqb c) (Py.of_str set).

Definition is_eyes (c : ascii) : bool := one_of ":-=" c.
Definition is_mouth (c : ascii) : bool := one_of ")([]DPpOo/\|" c.
Definition is_mark (c : ascii) : bool := one_of "!?" c.
Definition is_dot (c : ascii) : bool := Ascii.eqb c ".".
Definition is_punct (c : ascii) : bool := one_of ".!?,;:" c.

(** The emoticon pattern: it is padded with a space on each side. *)
Definition emoticon_at (t : Py.chars) : option (nat * Py.chars) :=
  match t with
  | a :: b :: _ => if is_eyes a && is_mouth b then Some (2, [space; a; b; space]) else None
  | _ => None
  end.

(** Two or more of [!] and [?]: the last of them, twice. *)
Definition marks_at (t : Py.chars) : option (nat * Py.chars) :=
  let run := Py.take_while is_mark t in
  if 2 <=? length run then Some (length run, [List.last run space; List.last run space]) else None.

(** Three or more dots: three dots. *)
Definition dots_at (t : Py.chars) : option (nat * Py.chars) :=
  let run := Py.take_while is_dot t in
  if 3 <=? length run then Some (length run, Py.of_str "...") else None.

(** The body of the loop over the words. *)
Definition emphasize (word : Py.chars) : Py.chars :=
  if (2 <? length word) && Py.isupper word && Py.isalpha word
  then Py.capitalize word ++ Py.of_str "!"
  else word.

(** [TokenizationService._apply_sentiment_preprocessing]. *)
Definition _apply_sentiment_preprocessing (text : Py.chars) : Py.chars :=
  let text := Py.re_sub emoticon_at 0 text in
  let text := Py.re_sub marks_at 0 text in
  let text := Py.re_sub dots_at 0 text in
  Py.join [space] (map emphasize (Py.split text)).

(** Whitespace and then a punctuation mark: the mark alone. *)
Definition space_before_punct_at (t : Py.chars) : option (nat * Py.chars) :=
  let k := Py.ws_run t in
  if 1 <=? k then
    match skipn k t with
    | p :: _ => if is_punct p then Some (k + 1, [p]) else None
    | [] => None
    end
  else None.

(** A punctuation mark and the whitespace after it: the mark and one
    space. *)
Definition punct_at (t : Py.chars) : option (nat * Py.chars) :=
  match t with
  | p :: r => if is_punct p then Some (1 + Py.ws_run r, [p; space]) else None
  | [] => None
  end.

(** [TokenizationService._normalize_tokens]. *)
Definition _normalize_tokens (text : Py.chars) : Py.chars :=
  let text := Py.re_sub space_before_punct_at 0 text in
  let text := Py.re_sub punct_at 0 text in
  let text := Py.join [space] (Py.split text) in
  Py.strip text.

(** [TokenizationService._apply_tokenization_pipeline]. *)
Definition _apply_tokenization_pipeline (text language : string) : string :=
  let text := _basic_text_cleaning (Py.of_str text) in
  let text := _apply_language_specific_optimization text language in
  let text := _apply_sentiment_preprocessing text in
  let text := _normalize_tokens text in
  Py.to_str text.

Record TokenizationService : Type := {
  cache : Dict.t string;
  max_cache_size : nat
}.

(** [TokenizationService.__init__]. *)
Definition new_service : TokenizationService :=
  {| cache := Dict.empty; max_cache_size := 2000 |}.

(** [TokenizationService._cache_result]. *)
Definition _cache_result (key result : string) : M TokenizationService unit :=
  modify (fun svc =>
    let d := cache svc in
    let d := if max_cache_size svc <=? Dict.len d
             then fold_left (fun d old_key => Dict.del old_key d) (firstn 100 (Dict.keys d)) d
             else d in
    {| cache := Dict.set key result d; max_cache_size := max_cache_size svc |}).

Section WithRuntime.
Context `{RT : Runtime}.
Local Open Scope py_scope.

(** [TokenizationService._get_cache_key]; the [lru_cache] in front of it
    does not change what it returns. *)
Definition _get_cache_key (text operation : string) : string :=
  let text_hash := md5_hexdigest text in
  operation ++ ":" ++ Ollama.str_prefix 16 text_hash.

(** [TokenizationService.optimize_text_for_analysis]. *)
Definition optimize_text_for_analysis (text language : string) : M TokenizationService string :=
  let cache_key := _get_cache_key text ("optimize_" ++ language) in
  d <- gets cache ;;
  match Dict.get cache_key d with
  | Some cached => ret cached
  | None =>
      let optimized_text := _apply_tokenization_pipeline text language in
      _cache_result cache_key optimized_text ;;;
      ret optimized_text
  end.

(** [TokenizationService._process_batch_parallel] for the sub-batch at
    [offset]. *)
Definition _process_batch_parallel (offset : nat) (texts languages : list string)
  : M TokenizationService (list (option string)) :=
  let tasks := map (fun tl => optimize_text_for_analysis (fst tl) (snd tl))
                   (combine texts languages) in
  as_completed tasks
    (fun index r results =>
       match r with
       | Ok optimized => ret (<[index := Some optimized]> results)
       | Raise _ => ret (<[index := nth_error texts index]> results)
       end)
    (completion_order TokenizerPool offset (length tasks))
    (replicate (length texts) None).

Definition batch_size : nat := 16.

(** [TokenizationService.batch_optimize_texts]; an empty [languages]
    stands for [None] as well. *)
Definition batch_optimize_texts (texts languages : list string)
  : M TokenizationService (list (option string)) :=
  let languages := match languages with
                   | [] => repeat "en" (length texts)
                   | _ => languages
                   end in
  batches <- map_m (fun i => _process_batch_parallel i (slice i batch_size texts)
                                                     (slice i batch_size languages))
                   (range_step (length texts) batch_size) ;;
  ret (concat batches).

End WithRuntime.
End Tokenization.

(* ===================================================================== *)
(** ** app/services/optimized_sentiment_service.py *)
(* ===================================================================== *)

Module Optimized.

Record statistics : Type := {
  total_texts_processed : nat;
  cache_hits : nat;
  api_calls_saved : nat
}.

Record OptimizedSentimentService : Type := {
  ollama_service : Ollama.OllamaService;
  tokenization_service : Tokenization.TokenizationService;
  batch_size : nat;
  stats : statistics
}.

Definition with_ollama (o : Ollama.OllamaService) (svc : OptimizedSentimentService) :=
  {| ollama_service := o;
     tokenization_service := tokenization_service svc;
     batch_size := batch_size svc;
     stats := stats svc |}.

Definition with_tokenization (t : Tokenization.TokenizationService)
    (svc : OptimizedSentimentService) :=
  {| ollama_service := ollama_service svc;
     tokenization_service := t;
     batch_size := batch_size svc;
     stats := stats svc |}.

Definition with_stats (st : statistics) (svc : OptimizedSentimentService) :=
  {| ollama_service := ollama_service svc;
     tokenization_service := tokenization_service svc;
     batch_size := batch_size svc;
     stats := st |}.

(** [OptimizedSentimentService.__init__], given whether the gateway got
    a client.  [max_workers] bounds how many futures run at a time,
    which a serialised pool does not show. *)
Definition new_service (has_client : bool) : OptimizedSentimentService :=
  {| ollama_service := Ollama.new_service has_client;
     tokenization_service := Tokenization.new_service;
     batch_size := 16;
     stats := {| total_texts_processed := 0; cache_hits := 0; api_calls_saved := 0 |} |}.

(** Run a computation of the gateway, or of the tokenizer, inside the
    service. *)
Definition on_ollama {A} (m : M Ollama.OllamaService A) : M OptimizedSentimentService A :=
  fun svc => let '(r, o) := m (ollama_service svc) in (r, with_ollama o svc).

Definition on_tokenization {A} (m : M Tokenization.TokenizationService A)
  : M OptimizedSentimentService A :=
  fun svc => let '(r, t) := m (tokenization_service svc) in (r, with_tokenization t svc).

(** [self.ollama_service.sentiment_cache[cache_key] = result]: no size
    management on this path. *)
Definition write_through (cache_key : string) (r : outcome) : M OptimizedSentimentService unit :=
  modify (fun svc =>
    with_ollama (Ollama.with_sentiment_cache
                   (Dict.set cache_key r (Ollama.sentiment_cache (ollama_service svc)))
                   (ollama_service svc)) svc).

Definition count_cache_hits (n : nat) : M OptimizedSentimentService unit :=
  modify (fun svc =>
    with_stats {| total_texts_processed := total_texts_processed (stats svc);
                  cache_hits := cache_hits (stats svc) + n;
                  api_calls_saved := api_calls_saved (stats svc) |} svc).

Definition count_calls_saved (n : nat) : M OptimizedSentimentService unit :=
  modify (fun svc =>
    with_stats {| total_texts_processed := total_texts_processed (stats svc);
                  cache_hits := cache_hits (stats svc);
                  api_calls_saved := api_calls_saved (stats svc) + n |} svc).

Definition count_processed (n : nat) : M OptimizedSentimentService unit :=
  modify (fun svc =>
    with_stats {| total_texts_processed := total_texts_processed (stats svc) + n;
                  cache_hits := cache_hits (stats svc);
                  api_calls_saved := api_calls_saved (stats svc) |} svc).

Section WithRuntime.
Context `{RT : Runtime}.
Local Open Scope py_scope.

(** The key the service caches under: the language and the built-in
    hash of the optimised text, which is [None] where the tokenizer left
    a slot unfilled. *)
Definition cache_key_of (language : string) (optimized_text : option string) : string :=
  "sentiment_" ++ language ++ "_"
  ++ str_of_int (match optimized_text with
                 | Some t => py_hash t
                 | None => py_hash_none
                 end).

Section WithGateway.

(** [self.ollama_service.analyze_sentiment]: the gateway's classify
    operation, which a test may replace. *)
Variable classify : string -> M Ollama.OllamaService outcome.

(** A future of the classifier pool.  Without a text there is nothing
    to lowercase and the call raises. *)
Definition submit (text : option string) : M OptimizedSentimentService outcome :=
  match text with
  | Some t => on_ollama (classify t)
  | None => raise AttributeError
  end.

(** [OptimizedSentimentService.analyze_sentiment_optimized]. *)
Definition analyze_sentiment_optimized_with (text language : string)
  : M OptimizedSentimentService outcome :=
  optimized_text <- on_tokenization (Tokenization.optimize_text_for_analysis text language) ;;
  let cache_key := cache_key_of language (Some optimized_text) in
  d <- gets (fun svc => Ollama.sentiment_cache (ollama_service svc)) ;;
  match Dict.get cache_key d with
  | Some cached_result => count_cache_hits 1 ;;; ret cached_result
  | None =>
      r <- on_ollama (classify optimized_text) ;;
      write_through cache_key r ;;;
      count_processed 1 ;;;
      ret r
  end.

(** The loop over one sub-batch's futures: a result is stored at the
    future's own index and written through to the cache; an exception
    becomes a neutral result with confidence 0.0. *)
Definition handle_future (batch_texts : list (option string)) (batch_languages : list string)
    (local_index : nat) (r : result outcome) (batch_results : list (option outcome))
  : M OptimizedSentimentService (list (option outcome)) :=
  match r with
  | Ok sentiment_result =>
      let batch_results := <[local_index := Some sentiment_result]> batch_results in
      match nth_error batch_languages local_index, nth_error batch_texts local_index with
      | Some language, Some text =>
          write_through (cache_key_of language text) sentiment_result ;;;
          ret batch_results
      | _, _ => ret (<[local_index := Some (NEUTRAL, f_0_0)]> batch_results)
      end
  | Raise _ => ret (<[local_index := Some (NEUTRAL, f_0_0)]> batch_results)
  end.

(** Store the results of the sub-batch at [i] in the main array. *)
Definition store_batch {A} (i : nat) (batch_results : list A) (results : list A) : list A :=
  fold_left (fun acc jr => <[i + fst jr := snd jr]> acc)
            (combine (seq 0 (length batch_results)) batch_results) results.

(** The loop of [_process_uncached_batch] over the sub-batches: each
    gets a thread pool of its own, which is drained before the next
    sub-batch starts. *)
Fixpoint sub_batches (batch_size : nat) (texts : list (option string))
    (languages : list string) (offsets : list nat) (results : list (option outcome))
  : M OptimizedSentimentService (list (option outcome)) :=
  match offsets with
  | [] => ret results
  | i :: rest =>
      let batch_texts := slice i batch_size texts in
      let batch_languages := slice i batch_size languages in
      batch_results <-
        as_completed (map submit batch_texts)
          (handle_future batch_texts batch_languages)
          (completion_order ClassifierPool i (length batch_texts))
          (replicate (length batch_texts) None) ;;
      sub_batches batch_size texts languages rest (store_batch i batch_results results)
  end.

(** [OptimizedSentimentService._process_uncached_batch]; a step of zero
    is an error of [range]. *)
Definition _process_uncached_batch_with (texts : list (option string))
    (languages : list string) (original_indices : list nat)
  : M OptimizedSentimentService (list (option outcome)) :=
  size <- gets batch_size ;;
  let batch_size := Nat.min size (length texts) in
  if Nat.eqb batch_size 0 then raise ValueError
  else sub_batches batch_size texts languages
                   (range_step (length texts) batch_size)
                   (replicate (length texts) None).

(** The loop that sorts the indices into cached and uncached. *)
Fixpoint partition_cached (d : Dict.t outcome) (i : nat)
    (pairs : list (option string * string)) : list (nat * outcome) * list nat :=
  match pairs with
  | [] => ([], [])
  | (optimized_text, language) :: rest =>
      let '(cached_results, uncached_indices) := partition_cached d (S i) rest in
      match Dict.get (cache_key_of language optimized_text) d with
      | Some r => ((i, r) :: cached_results, uncached_indices)
      | None => (cached_results, i :: uncached_indices)
      end
  end.

(** [[xs[i] for i in indices]]. *)
Definition pick {A} (xs : list A) (indices : list nat) : result (list A) :=
  map_r (fun i => match nth_error xs i with
                  | Some x => Ok x
                  | None => Raise IndexError
                  end) indices.

(** [OptimizedSentimentService.batch_analyze_optimized]; an empty
    [languages] stands for [None] as well.  A slot of the result that
    holds [None] was never assigned. *)
Definition batch_analyze_optimized_with (texts languages : list string)
  : M OptimizedSentimentService (list (option outcome)) :=
  let languages := match languages with
                   | [] => repeat "en" (length texts)
                   | _ => languages
                   end in
  optimized_texts <- on_tokenization (Tokenization.batch_optimize_texts texts languages) ;;
  d <- gets (fun svc => Ollama.sentiment_cache (ollama_service svc)) ;;
  let '(cached_results, uncached_indices) :=
    partition_cached d 0 (combine optimized_texts languages) in
  count_cache_hits (length cached_results) ;;;
  count_calls_saved (length cached_results) ;;;
  let results := replicate (length texts) None in
  let results := fold_left (fun acc ir => <[fst ir := Some (snd ir)]> acc)
                           cached_results results in
  results <-
    match uncached_indices with
    | [] => ret results
    | _ =>
        uncached_texts <- lift_result (pick optimized_texts uncached_indices) ;;
        uncached_languages <- lift_result (pick languages uncached_indices) ;;
        uncached_results <-
          _process_uncached_batch_with uncached_texts uncached_languages uncached_indices ;;
        ret (fold_left (fun acc ir => <[fst ir := snd ir]> acc)
                       (combine uncached_indices uncached_results) results)
    end ;;
  count_processed (length texts) ;;;
  (* the closing log line divides the elapsed time by [len(texts)] *)
  if Nat.eqb (length texts) 0 then raise ZeroDivisionError
  else ret results.

(** [OptimizedSentimentService.parallel_analyze].  A [TextChunk] always
    has a [language], so that the default of [getattr] is not used. *)
Definition parallel_analyze_with (chunks : list Models.TextChunk)
  : M OptimizedSentimentService (list (option outcome)) :=
  match chunks with
  | [] => ret []
  | _ =>
      let texts := map Models.text chunks in
      let languages := map Models.language_name chunks in
      batch_analyze_optimized_with texts languages
  end.

End WithGateway.

(** [OptimizedSentimentService.get_sentiment_statistics]. *)
Definition get_sentiment_statistics (sentiments : list outcome) : Models.sentiment_statistics :=
  let count (v : string) :=
    length (List.filter (fun so => String.eqb (Models.value (fst so)) v) sentiments) in
  {| Models.positive_count := count "positive";
     Models.negative_count := count "negative";
     Models.neutral_count := count "neutral";
     Models.total := length sentiments |}.

(** The service as it is wired: the gateway is [OllamaService]. *)
Definition analyze_sentiment_optimized :=
  analyze_sentiment_optimized_with Ollama.analyze_sentiment.

Definition parallel_analyze :=
  parallel_analyze_with Ollama.analyze_sentiment.

Definition _process_uncached_batch :=
  _process_uncached_batch_with Ollama.analyze_sentiment.

Definition batch_analyze_optimized :=
  batch_analyze_optimized_with Ollama.analyze_sentiment.

End WithRuntime.
End Optimized.

(* ===================================================================== *)
(** ** app/services/sentiment_service.py *)
(* ===================================================================== *)

Module Sentiment.

Record SentimentService : Type := {
  ollama_service : Ollama.OllamaService
}.

(** [SentimentService.__init__]. *)
Definition new_service (has_client : bool) : SentimentService :=
  {| ollama_service := Ollama.new_service has_client |}.

Definition on_ollama {A} (m : M Ollama.OllamaService A) : M SentimentService A :=
  fun svc => let '(r, o) := m (ollama_service svc) in (r, {| ollama_service := o |}).

Definition max_length : nat := 500.

(** [SentimentService._preprocess_text]. *)
Definition _preprocess_text (text : string) : string :=
  match text with
  | EmptyString => ""
  | _ =>
      let text := Py.strip (Py.of_str text) in
      let text := Py.join [Tokenization.space] (Py.split text) in
      Py.to_str (if max_length <? length text
                 then firstn max_length text ++ Py.of_str "..."
                 else text)
  end.

Section WithRuntime.
Context `{RT : Runtime}.

(** [SentimentService.analyze_sentiment]. *)
Definition analyze_sentiment (text : string) : M SentimentService outcome :=
  let cleaned_text := _preprocess_text text in
  if String.eqb cleaned_text "" then ret (NEUTRAL, f_0_0)
  else on_ollama (Ollama.analyze_sentiment cleaned_text).



(** [SentimentService.parallel_analyze]. *)
Definition parallel_analyze (chunks : list Models.TextChunk)
  : M SentimentService (list outcome) :=
  match chunks with
  | [] => ret []
  | _ =>
      let texts := map Models.text chunks in
      try_except
        (on_ollama (Ollama.batch_analyze_sentiment texts))
        (fun _ => map_m (fun chunk => analyze_sentiment (Models.text chunk)) chunks)
  end.

End WithRuntime.

(** [SentimentService.get_sentiment_statistics]. *)
Definition get_sentiment_statistics (sentiments : list outcome) : Models.sentiment_statistics :=
  let count (v : string) :=
    length (List.filter (fun so => String.eqb (Models.value (fst so)) v) sentiments) in
  {| Models.positive_count := count "positive";
     Models.negative_count := count "negative";
     Models.neutral_count := count "neutral";
     Models.total := length sentiments |}.

End Sentiment.

(* ===================================================================== *)
(** ** app/services/chunking_service.py *)
(* ===================================================================== *)

Module Chunking.

(** One entry of the list [chunk_text] returns.  Only the chunks of a
    long text carry a ["chunk_size"]. *)
Record chunk : Type := {
  chunk_id : nat;
  text : string;
  start_index : Z;
  end_index : Z;
  chunk_number : nat;
  total_chunks : nat;
  chunk_size_entry : option nat
}.

Record ChunkingService : Type := {
  chunk_size : Z;
  overlap : Z;
  min_chunk_size : Z
}.

(** [ChunkingService.__init__]. *)
Definition new_service (chunk_size overlap : Z) : ChunkingService :=
  {| chunk_size := chunk_size; overlap := overlap; min_chunk_size := 50 |}.

(** A piece of the text with the indices where it starts and ends. *)
Definition piece : Type := Py.chars * Z * Z.

Definition len (s : Py.chars) : Z := Z.of_nat (length s).

Definition nonempty (s : Py.chars) : bool := negb (Nat.eqb (length s) 0).

(** [re.sub(r'\s+', ' ', text)]. *)
Definition collapse_whitespace (text : Py.chars) : Py.chars :=
  Py.re_sub (fun t => let k := Py.ws_run t in
                      if 1 <=? k then Some (k, [" "%char]) else None) 0 text.

(** [ChunkingService._clean_text]; encoding to ASCII with [ignore]
    drops the code points from 128 on. *)
Definition _clean_text (text : Py.chars) : Py.chars :=
  let text := collapse_whitespace text in
  let text := List.filter (fun c => Py.code c <? 128) text in
  Py.strip text.

(** *** Sentences *)

Definition ends_sentence (prev : option ascii) : bool :=
  match prev with
  | Some c => Tokenization.one_of ".!?" c
  | None => false
  end.

Definition starts_capital (s : Py.chars) : bool :=
  match s with
  | c :: _ => Py.between 65 90 (Py.code c)
  | [] => false
  end.

(** [re.split(sentence_pattern, text)].  After a character of [.!?] the
    pattern matches a run of whitespace that a capital letter follows,
    or else the empty string at the end of the text or before its final
    newline.  [prev] is the character before [s], [skip] what is left of
    the match being skipped, [part] the part read so far. *)
Fixpoint split_sentences (prev : option ascii) (skip : nat) (s part : Py.chars)
  : list Py.chars :=
  match s with
  | [] => if ends_sentence prev then [part; []] else [part]
  | c :: r =>
      match skip with
      | S k => split_sentences (Some c) k r part
      | O =>
          if ends_sentence prev then
            let k := Py.ws_run s in
            if (1 <=? k) && starts_capital (skipn k s)
            then part :: split_sentences (Some c) (k - 1) r []
            else if Ascii.eqb c "010" && Nat.eqb (length r) 0
                 then [part; [c]]
                 else split_sentences (Some c) 0 r (part ++ [c])
          else split_sentences (Some c) 0 r (part ++ [c])
      end
  end.

(** The first index at which [sub] occurs in [s], counted from
    [offset]. *)
Fixpoint find_from (sub s : Py.chars) (offset : nat) : option nat :=
  if Py.startswith sub s then Some offset
  else match s with
       | [] => None
       | _ :: r => find_from sub r (S offset)
       end.

(** [text.find(sub, start)]. *)
Definition find (sub text : Py.chars) (start : Z) : Z :=
  let start := if (start <? 0)%Z then Z.max 0 (start + len text) else start in
  if (len text <? start)%Z then (-1)%Z
  else match find_from sub (skipn (Z.to_nat start) text) (Z.to_nat start) with
       | Some i => Z.of_nat i
       | None => (-1)%Z
       end.

(** The loop of [_split_into_sentences] over the parts. *)
Fixpoint locate_sentences (text : Py.chars) (parts : list Py.chars) (current_pos : Z)
  : list piece :=
  match parts with
  | [] => []
  | part :: rest =>
      if nonempty part && nonempty (Py.strip part) then
        let part := Py.strip part in
        let start_idx := find part text current_pos in
        let end_idx := (start_idx + len part)%Z in
        (part, start_idx, end_idx) :: locate_sentences text rest end_idx
      else locate_sentences text rest current_pos
  end.

(** [ChunkingService._split_into_sentences]. *)
Definition _split_into_sentences (text : Py.chars) : list piece :=
  let parts := split_sentences None 0 text [] in
  match locate_sentences text parts 0 with
  | [] => [(text, 0%Z, len text)]
  | sentences => sentences
  end.

(** The variables of the loop of [_chunk_by_sentences]. *)
Record gathering : Type := {
  chunks : list piece;
  current_chunk : list Py.chars;
  current_length : Z;
  current_start : Z
}.

(** The body of that loop. *)
Definition gather (self : ChunkingService) (st : gathering) (sentence : piece) : gathering :=
  let '(sentence, start_idx, _) := sentence in
  let sentence_length := len sentence in
  let st :=
    if (chunk_size self <? current_length st + sentence_length)%Z
       && negb (Nat.eqb (length (current_chunk st)) 0)
    then
      let chunk_text := Py.join [Tokenization.space] (current_chunk st) in
      let chunks := chunks st ++ [(chunk_text, current_start st, start_idx)] in
      if (0 <? overlap self)%Z && (1 <? length (current_chunk st)) then
        let last := List.last (current_chunk st) [] in
        {| chunks := chunks;
           current_chunk := [last];
           current_length := len last;
           current_start := (start_idx - len last)%Z |}
      else
        {| chunks := chunks;
           current_chunk := [];
           current_length := 0;
           current_start := start_idx |}
    else st in
  {| chunks := chunks st;
     current_chunk := current_chunk st ++ [sentence];
     current_length := (current_length st + (sentence_length + 1))%Z;
     current_start := current_start st |}.

(** [ChunkingService._chunk_by_sentences]. *)
Definition _chunk_by_sentences (self : ChunkingService) (text : Py.chars) : list piece :=
  let sentences := _split_into_sentences text in
  let st := fold_left (gather self) sentences
              {| chunks := []; current_chunk := []; current_length := 0; current_start := 0 |} in
  if negb (Nat.eqb (length (current_chunk st)) 0) then
    chunks st ++ [(Py.join [Tokenization.space] (current_chunk st), current_start st, len text)]
  else chunks st.

(** *** Characters *)

(** [text[i]]. *)
Definition py_index (text : Py.chars) (i : Z) : result ascii :=
  let j := if (i <? 0)%Z then (i + len text)%Z else i in
  if (0 <=? j)%Z && (j <? len text)%Z
  then Ok (nth (Z.to_nat j) text " "%char)
  else Raise IndexError.

(** [text[start:stop]]. *)
Definition py_slice (text : Py.chars) (start stop : Z) : Py.chars :=
  let clamp i := if (i <? 0)%Z then Z.max 0 (i + len text) else Z.min i (len text) in
  let start := clamp start in
  let stop := clamp stop in
  firstn (Z.to_nat (stop - start)) (skipn (Z.to_nat start) text).

(** The characters a chunk may end after: the literal holds a space,
    five punctuation marks, a backslash and the letter n. *)
Definition is_break (c : ascii) : bool := Tokenization.one_of " .,;!?\n" c.

(** [for i in range(end, stop, -1)] with [count] indices left: the end
    of the chunk when a break is found. *)
Fixpoint find_break (text : Py.chars) (i : Z) (count : nat) : result (option Z) :=
  match count with
  | O => Ok None
  | S n =>
      match py_index text i with
      | Ok c => if is_break c then Ok (Some (i + 1)%Z) else find_break text (i - 1)%Z n
      | Raise e => Raise e
      end
  end.

(** The [while] loop of [_chunk_by_characters]; [None] when [fuel]
    iterations do not end it. *)
Fixpoint chunk_loop (fuel : nat) (self : ChunkingService) (text : Py.chars)
    (start : Z) (chunks : list piece) : option (result (list piece)) :=
  match fuel with
  | O => None
  | S fuel =>
      let text_length := len text in
      if (start <? text_length)%Z then
        let end_ := Z.min (start + chunk_size self) text_length in
        let found :=
          if (end_ <? text_length)%Z then
            let stop := Z.max (start + min_chunk_size self) (end_ - 50) in
            find_break text end_ (Z.to_nat (end_ - stop))
          else Ok None in
        match found with
        | Raise e => Some (Raise e)
        | Ok found =>
            let end_ := match found with Some e => e | None => end_ end in
            let chunk_text := Py.strip (py_slice text start end_) in
            let chunks := if nonempty chunk_text then chunks ++ [(chunk_text, start, end_)]
                          else chunks in
            if (end_ <? text_length)%Z
            then chunk_loop fuel self text (end_ - overlap self)%Z chunks
            else Some (Ok chunks)
        end
      else Some (Ok chunks)
  end.

(** [ChunkingService._chunk_by_characters]. *)
Definition _chunk_by_characters (fuel : nat) (self : ChunkingService) (text : Py.chars)
  : option (result (list piece)) :=
  chunk_loop fuel self text 0 [].

(** The metadata loop at the end of [chunk_text]. *)
Fixpoint with_metadata (total : nat) (i : nat) (chunks : list piece) : list chunk :=
  match chunks with
  | [] => []
  | (chunk_text, start_idx, end_idx) :: rest =>
      {| chunk_id := i;
         text := Py.to_str chunk_text;
         start_index := start_idx;
         end_index := end_idx;
         chunk_number := i + 1;
         total_chunks := total;
         chunk_size_entry := Some (length chunk_text) |}
      :: with_metadata total (S i) rest
  end.

(** [ChunkingService.chunk_text].  [fuel] bounds the iterations of the
    loop over the characters; the result is [None] when they do not end
    it. *)
Definition chunk_text (fuel : nat) (self : ChunkingService) (text0 : string)
    (preserve_sentences : bool) : option (result (list chunk)) :=
  if String.eqb text0 ""
     || (Z.of_nat (String.length (Py.str_strip text0)) <? min_chunk_size self)%Z then
    Some (Ok [ {| chunk_id := 0;
                  text := Py.str_strip text0;
                  start_index := 0;
                  end_index := Z.of_nat (String.length text0);
                  chunk_number := 1;
                  total_chunks := 1;
                  chunk_size_entry := None |} ])
  else
    let text := _clean_text (Py.of_str text0) in
    let chunks := if preserve_sentences then Some (Ok (_chunk_by_sentences self text))
                  else _chunk_by_characters fuel self text in
    match chunks with
    | Some (Ok chunks) => Some (Ok (with_metadata (length chunks) 0 chunks))
    | Some (Raise e) => Some (Raise e)
    | None => None
    end.

(** [ChunkingService.chunk_batch]; it calls [chunk_text] with its
    default, [preserve_sentences=True]. *)
Fixpoint chunk_batch (fuel : nat) (self : ChunkingService) (texts : list string)
  : option (result (list (list chunk))) :=
  match texts with
  | [] => Some (Ok [])
  | text :: rest =>
      match chunk_text fuel self text true with
      | Some (Ok chunks) =>
          match chunk_batch fuel self rest with
          | Some (Ok results) => Some (Ok (chunks :: results))
          | Some (Raise e) => Some (Raise e)
          | None => None
          end
      | Some (Raise e) => Some (Raise e)
      | None => None
      end
  end.

(** The dictionary [get_chunk_statistics] returns. *)
Module Statistics.
Record t : Type := {
  total_chunks : nat;
  avg_chunk_size : Py.float;
  min_chunk_size : nat;
  max_chunk_size : nat;
  total_characters : nat
}.
End Statistics.

(** [ChunkingService.get_chunk_statistics]. *)
Definition get_chunk_statistics (chunks : list chunk) : Statistics.t :=
  match chunks with
  | [] =>
      {| Statistics.total_chunks := 0;
         Statistics.avg_chunk_size := Py.Fin 0;
         Statistics.min_chunk_size := 0;
         Statistics.max_chunk_size := 0;
         Statistics.total_characters := 0 |}
  | first :: rest =>
      let sizes := map (fun chunk => String.length (text chunk)) chunks in
      let first_size := String.length (text first) in
      let rest_sizes := map (fun chunk => String.length (text chunk)) rest in
      {| Statistics.total_chunks := length chunks;
         Statistics.avg_chunk_size :=
           Py.Fin (Z.of_nat (list_sum sizes) # Pos.of_nat (length sizes));
         Statistics.min_chunk_size := fold_left Nat.min rest_sizes first_size;
         Statistics.max_chunk_size := fold_left Nat.max rest_sizes first_size;
         Statistics.total_characters := list_sum sizes |}
  end.

End Chunking.

(* ===================================================================== *)
(** ** A runtime to run the services on *)
(* ===================================================================== *)

(** The services are proved correct for every [Runtime].  To run them
    on concrete inputs one is needed: here the digest is the text
    itself, the hash reads the text as a number in base 256, the remote
    model follows a script, and JSON is read by the parser below. *)
Module Reference.

Definition is_json_space (c : ascii) : bool :=
  let n := Py.code c in (n =? 32) || (n =? 9) || (n =? 10) || (n =? 13).

Definition is_digit (c : ascii) : bool := Py.between 48 57 (Py.code c).

Definition digit_value (c : ascii) : Z := Z.of_nat (Py.code c - 48).

Definition digits_value (ds : Py.chars) : Z :=
  fold_left (fun acc d => (acc * 10 + digit_value d)%Z) ds 0%Z.

(** The characters of a string literal after its opening quote, and
    what follows the closing quote. *)
Fixpoint read_string (s : Py.chars) : option (Py.chars * Py.chars) :=
  match s with
  | [] => None
  | c :: r =>
      if Ascii.eqb c "034" then Some ([], r)
      else if Py.code c <? 32 then None
      else if Ascii.eqb c "\" then
        match r with
        | e :: r' =>
            let unescaped :=
              if Ascii.eqb e "n" then Some "010"%char
              else if Ascii.eqb e "t" then Some "009"%char
              else if Ascii.eqb e "r" then Some "013"%char
              else if Ascii.eqb e "b" then Some "008"%char
              else if Ascii.eqb e "f" then Some "012"%char
              else if Ascii.eqb e "034" || Ascii.eqb e "\" || Ascii.eqb e "/" then Some e
              else None in
            match unescaped, read_string r' with
            | Some x, Some (body, rest) => Some (x :: body, rest)
            | _, _ => None
            end
        | [] => None
        end
      else match read_string r with
           | Some (body, rest) => Some (c :: body, rest)
           | None => None
           end
  end.

(** A number: an integer when it has neither fraction nor exponent. *)
Definition read_number (s : Py.chars) : option (json * Py.chars) :=
  let '(negative, s1) := match s with
                         | c :: r => if Ascii.eqb c "-" then (true, r) else (false, s)
                         | [] => (false, s)
                         end in
  let int_digits := Py.take_while is_digit s1 in
  let s2 := Py.drop_while is_digit s1 in
  let well_formed := match int_digits with
                     | [] => false
                     | [_] => true
                     | d :: _ => negb (Ascii.eqb d "0")
                     end in
  if negb well_formed then None
  else
    let sign (z : Z) := if negative then Z.opp z else z in
    let '(frac_digits, s3, has_frac, frac_ok) :=
      match s2 with
      | c :: r => if Ascii.eqb c "."
                  then (Py.take_while is_digit r, Py.drop_while is_digit r, true,
                        negb (Nat.eqb (length (Py.take_while is_digit r)) 0))
                  else ([], s2, false, true)
      | [] => ([], s2, false, true)
      end in
    if negb frac_ok then None
    else
      let mantissa := sign (digits_value (int_digits ++ frac_digits)) in
      let scale := Z.to_pos (10 ^ Z.of_nat (length frac_digits)) in
      match s3 with
      | c :: r =>
          if Ascii.eqb c "e" || Ascii.eqb c "E" then
            let '(exp_negative, r1) :=
              match r with
              | x :: r' => if Ascii.eqb x "-" then (true, r')
                           else if Ascii.eqb x "+" then (false, r') else (false, r)
              | [] => (false, r)
              end in
            let exp_digits := Py.take_while is_digit r1 in
            match exp_digits with
            | [] => None
            | _ =>
                let e := digits_value exp_digits in
                let q := if exp_negative
                         then Qmake mantissa (scale * Z.to_pos (10 ^ e))
                         else Qmake (mantissa * 10 ^ e) scale in
                Some (JFloat (Py.Fin q), Py.drop_while is_digit r1)
            end
          else if has_frac then Some (JFloat (Py.Fin (Qmake mantissa scale)), s3)
          else Some (JInt mantissa, s3)
      | [] =>
          if has_frac then Some (JFloat (Py.Fin (Qmake mantissa scale)), s3)
          else Some (JInt mantissa, s3)
      end.

Definition read_literal (s : Py.chars) : option (json * Py.chars) :=
  let after (word : string) := skipn (String.length word) s in
  if Py.startswith (Py.of_str "true") s then Some (JBool true, after "true")
  else if Py.startswith (Py.of_str "false") s then Some (JBool false, after "false")
  else if Py.startswith (Py.of_str "null") s then Some (JNull, after "null")
  else if Py.startswith (Py.of_str "NaN") s then Some (JFloat Py.NaN, after "NaN")
  else if Py.startswith (Py.of_str "Infinity") s then Some (JFloat Py.PosInf, after "Infinity")
  else if Py.startswith (Py.of_str "-Infinity") s
  then Some (JFloat Py.NegInf, after "-Infinity")
  else read_number s.

Fixpoint read_value (fuel : nat) (s : Py.chars) {struct fuel} : option (json * Py.chars) :=
  match fuel with
  | O => None
  | S fuel' =>
      match Py.drop_while is_json_space s with
      | [] => None
      | c :: r =>
          if Ascii.eqb c "[" then
            match Py.drop_while is_json_space r with
            | c' :: r' => if Ascii.eqb c' "]" then Some (JList [], r')
                          else read_items fuel' r []
            | [] => None
            end
          else if Ascii.eqb c "{" then
            match Py.drop_while is_json_space r with
            | c' :: r' => if Ascii.eqb c' "}" then Some (JDict [], r')
                          else read_members fuel' r []
            | [] => None
            end
          else if Ascii.eqb c "034" then
            match read_string r with
            | Some (body, rest) => Some (JStr (Py.to_str body), rest)
            | None => None
            end
          else read_literal (c :: r)
      end
  end
with read_items (fuel : nat) (s : Py.chars) (acc : list json) {struct fuel}
  : option (json * Py.chars) :=
  match fuel with
  | O => None
  | S fuel' =>
      match read_value fuel' s with
      | Some (v, r) =>
          match Py.drop_while is_json_space r with
          | c :: r' =>
              if Ascii.eqb c "," then read_items fuel' r' (acc ++ [v])
              else if Ascii.eqb c "]" then Some (JList (acc ++ [v]), r')
              else None
          | [] => None
          end
      | None => None
      end
  end
with read_members (fuel : nat) (s : Py.chars) (acc : list (string * json)) {struct fuel}
  : option (json * Py.chars) :=
  match fuel with
  | O => None
  | S fuel' =>
      match Py.drop_while is_json_space s with
      | q :: r =>
          if Ascii.eqb q "034" then
            match read_string r with
            | Some (key, r1) =>
                match Py.drop_while is_json_space r1 with
                | colon :: r2 =>
                    if Ascii.eqb colon ":" then
                      match read_value fuel' r2 with
                      | Some (v, r3) =>
                          let acc' := Dict.set (Py.to_str key) v acc in
                          match Py.drop_while is_json_space r3 with
                          | c :: r4 =>
                              if Ascii.eqb c "," then read_members fuel' r4 acc'
                              else if Ascii.eqb c "}" then Some (JDict acc', r4)
                              else None
                          | [] => None
                          end
                      | None => None
                      end
                    else None
                | [] => None
                end
            | None => None
            end
          else None
      | [] => None
      end
  end.

(** [json.loads] on the JSON texts the parser reads. *)
Definition parse_json (text : string) : result json :=
  let s := Py.of_str text in
  match read_value (S (length s)) s with
  | Some (v, rest) =>
      match Py.drop_while is_json_space rest with
      | [] => Ok v
      | _ => Raise JSONDecodeError
      end
  | None => Raise JSONDecodeError
  end.

(** The text as a number in base 256, after a leading one. *)
Definition base256 (text : string) : Z :=
  fold_left (fun acc c => (acc * 256 + Z.of_nat (Py.code c))%Z) (Py.of_str text) 1%Z.

Definition decimal (z : Z) : string := NilZero.string_of_int (Z.to_int z).

(** [float(s)] of a string that is a JSON number. *)
Definition parse_float (s : string) : option Py.float :=
  match read_number (Py.of_str s) with
  | Some (JFloat f, []) => Some f
  | Some (JInt z, []) => Some (Py.Fin (inject_Z z))
  | _ => None
  end.

(** A runtime whose model gives the scripted answers in turn and then
    times out, and whose thread pools complete in the order [order]
    gives for their size. *)
Definition runtime (answers : list chat_result) (order : nat -> list nat) : Runtime :=
  {| md5_hexdigest := fun text => text;
     py_hash := base256;
     py_hash_none := 0%Z;
     str_of_int := decimal;
     json_loads := parse_json;
     float_of_str := parse_float;
     float_of_int := fun z => Some (Py.Fin (inject_Z z));
     chat := fun n _ => nth n answers (ChatRaises "timed out");
     client_created := fun _ => true;
     completion_order := fun _ _ n => order n |}.

(** Futures that complete in the order they were submitted, and in the
    opposite order. *)
Definition in_order (n : nat) : list nat := seq 0 n.
Definition reversed (n : nat) : list nat := rev (seq 0 n).

(** A gateway put in place of [OllamaService], as a test would: it
    cannot classify a text that mentions a crash, and answers the
    others from the keyword lists. *)
Definition flaky_gateway (text : string) : M Ollama.OllamaService outcome :=
  if Py.str_in "crash" text then raise (RemoteError "connection reset")
  else ret (Fallback._fallback_sentiment text).

(** A reply of the model with [text] as its content. *)
Definition reply (text : string) : chat_result :=
  ChatReturns (Some {| content := Some text; thinking := None |}).

Definition dq : string := String "034"%char EmptyString.
Definition nl : string := String "010"%char EmptyString.

(** The JSON array of the scenario and the reply that wraps it in a
    code fence. *)
Definition positive_array : string :=
  "[{" ++ dq ++ "sentiment" ++ dq ++ ":" ++ dq ++ "positive" ++ dq ++ ","
  ++ dq ++ "confidence" ++ dq ++ ":0.9}]".

Definition fenced_reply : string :=
  "```json" ++ nl ++ positive_array ++ nl ++ "```".


(** The texts [0], [1], ... below [n], all different. *)
Definition numbered (n : nat) : list string :=
  map (fun k => decimal (Z.of_nat k)) (seq 0 n).

(** A reply of the model with [label] and [confidence] in the JSON
    object the prompt asks for. *)
Definition verdict (label confidence : string) : chat_result :=
  reply ("{" ++ dq ++ "sentiment" ++ dq ++ ": " ++ dq ++ label ++ dq ++ ", "
         ++ dq ++ "confidence" ++ dq ++ ": " ++ confidence ++ "}").

Definition reported (confidence : string) : chat_result := verdict "positive" confidence.

(** Twenty texts; the ones at 3 and 11 are the same string. *)
Definition repeated_batch : list string :=
  <[3 := "good value"]> (<[11 := "good value"]> (numbered 20)).

(** The model times out eleven times and then answers. *)
Definition late_answer : list chat_result :=
  repeat (ChatRaises "timed out") 11 ++ [verdict "negative" "0.9"].

End Reference.

(* ===================================================================== *)
(** ** Vocabulary of the statements *)
(* ===================================================================== *)

(** From a state that satisfies [P], the computation ends with a result
    and a state that satisfy [Q]. *)
Definition triple {S A} (P : S -> Prop) (m : M S A) (Q : result A -> S -> Prop) : Prop :=
  forall s, P s -> Q (fst (m s)) (snd (m s)).

(** An outcome whose confidence lies in [0.5, 0.95]. *)
Definition good_outcome (r : outcome) : Prop := in_confidence_range (snd r).

(** A sentiment cache that holds such outcomes only. *)
Definition cache_in_range (d : Dict.t outcome) : Prop :=
  Forall (fun kv => good_outcome (snd kv)) d.

(** What the orchestrator stores for a future: its result, or Neutral
    with confidence 0.0 when it raised. *)
Definition settle (r : result outcome) : outcome :=
  match r with
  | Ok o => o
  | Raise _ => (NEUTRAL, f_0_0)
  end.

(** Every thread pool handles each of its futures once. *)
Definition fair_scheduler `{RT : Runtime} : Prop :=
  forall p offset n, Permutation (completion_order p offset n) (seq 0 n).

(** [r] is what the orchestrator stores for a future that ran
    [classify] on [text], from a gateway that satisfied [P]. *)
Definition settled (classify : string -> M Ollama.OllamaService outcome)
    (P : Ollama.OllamaService -> Prop) (text : string) (r : outcome) : Prop :=
  exists gateway, P gateway /\ r = settle (fst (classify text gateway)).

(** [o] is what the tokenizer can return for [text] in [language]. *)
Definition optimized_from `{RT : Runtime} (text language o : string) : Prop :=
  exists tokenizer,
    fst (Tokenization.optimize_text_for_analysis text language tokenizer) = Ok o.

(** The languages a batch runs with: English throughout when none are
    given. *)
Definition effective_languages (texts languages : list string) : list string :=
  match languages with
  | [] => repeat "en" (length texts)
  | _ => languages
  end.

(** The number of characters of [s] that are not whitespace. *)
Fixpoint nonspace (s : Py.chars) : nat :=
  match s with
  | [] => 0
  | c :: r => (if Py.isspace c then 0 else 1) + nonspace r
  end.



(** How many of the remote calls [calls] asked for the sentiment of
    [text]. *)
Definition sentiment_calls_for (text : string) (calls : list request) : nat :=
  length (List.filter (fun req => match req with
                             | SentimentPrompt t => String.eqb t text
                             | _ => false
                             end) calls).

(** A computation that keeps [I]. *)
Definition keeps {S A} (I : S -> Prop) (m : M S A) : Prop :=
  forall s, I s -> I (snd (m s)).

(** A computation that returns, whatever the state. *)
Definition never_raises {S A} (m : M S A) : Prop :=
  forall s, exists a, fst (m s) = Ok a.

(** A dictionary with distinct keys and at most [max] entries. *)
Definition within_bound {V} (max : nat) (d : Dict.t V) : Prop :=
  NoDup (Dict.keys d) /\ Dict.len d <= max.

(** A gateway whose two caches are within its bound. *)
Definition bounded (svc : Ollama.OllamaService) : Prop :=
  10 <= Ollama.max_cache_size svc
  /\ within_bound (Ollama.max_cache_size svc) (Ollama.sentiment_cache svc)
  /\ within_bound (Ollama.max_cache_size svc) (Ollama.translation_cache svc).

(** A computation of the gateway that asks the model at most [k] times:
    it only adds calls to those made so far, and at most [k] of them. *)
Definition asks_at_most {A} (k : nat) (m : M Ollama.OllamaService A) : Prop :=
  forall svc,
  exists calls,
    Ollama.remote_calls (snd (m svc)) = Ollama.remote_calls svc ++ calls
    /\ length calls <= k.





(** A piece cut by characters out of [text]: it is not empty, it is the
    stretch of the text between its two indices without the whitespace
    around it, and it is at most one character longer than the chunk
    size. *)
Definition cut_from (chunk_size : Z) (text : Py.chars) (p : Chunking.piece) : Prop :=
  let '(chunk_text, start_idx, end_idx) := p in
  1 <= length chunk_text
  /\ (0 <= start_idx < end_idx)%Z
  /\ (end_idx <= Chunking.len text)%Z
  /\ chunk_text = Py.strip (Chunking.py_slice text start_idx end_idx)
  /\ (Chunking.len chunk_text <= chunk_size + 1)%Z.

(* ===================================================================== *)
(** * Properties *)
(* ===================================================================== *)

(** ** Strings *)

Lemma startswith_app (p s : Py.chars) : Py.startswith p (p ++ s) = true.
Proof.
  induction p as [|a p IH]; simpl; [reflexivity|].
  rewrite Ascii.eqb_refl. exact IH.
Qed.

Lemma startswith_split (p s : Py.chars) :
  Py.startswith p s = true -> exists b, s = p ++ b.
Proof.
  revert s. induction p as [|a p IH]; intros s H; simpl in *.
  - exists s. reflexivity.
  - destruct s as [|c s]; [discriminate|].
    apply andb_prop in H as [Hc Hs].
    apply Ascii.eqb_eq in Hc. subst c.
    destruct (IH _ Hs) as [b ->]. exists b. reflexivity.
Qed.

(** [p in s] holds exactly when [p] occurs in [s]. *)
Lemma contains_spec (p s : Py.chars) :
  Py.contains p s = true <-> exists a b, s = a ++ p ++ b.
Proof.
  split.
  - induction s as [|c s IH]; simpl; intros H.
    + rewrite orb_false_r in H.
      destruct (startswith_split _ _ H) as [b Hb]. exists [], b. exact Hb.
    + apply orb_prop in H as [H|H].
      * destruct (startswith_split _ _ H) as [b Hb]. exists [], b. exact Hb.
      * destruct (IH H) as (a & b & ->). exists (c :: a), b. reflexivity.
  - intros (a & b & ->). induction a as [|c a IH].
    + cbn [app]. pose proof (startswith_app p b) as H.
      destruct (p ++ b); simpl; rewrite H; reflexivity.
    + simpl. rewrite IH. apply orb_true_r.
Qed.

(** ** Confidence values *)

Lemma clamp_in_range (c : Py.float) : in_confidence_range (Ollama.clamp c).
Proof.
  unfold in_confidence_range, Ollama.clamp, Py.py_max, Py.py_min.
  destruct c as [q| | |]; simpl; try (split; reflexivity).
  destruct (Qlt_le_dec q (95 # 100)) as [Hhi|Hhi]; simpl.
  - destruct (Qlt_le_dec (5 # 10) q) as [Hlo|Hlo]; simpl.
    + destruct (Qlt_le_dec q (5 # 10)) as [H|H]; [exfalso; eapply Qlt_irrefl, Qlt_trans; eauto|].
      destruct (Qlt_le_dec (95 # 100) q) as [H'|H']; [exfalso; eapply Qlt_irrefl, Qlt_trans; eauto|].
      split; reflexivity.
    + split; reflexivity.
  - split; reflexivity.
Qed.

Lemma fallback_in_range (text : string) :
  in_confidence_range (snd (Fallback._fallback_sentiment text)).
Proof.
  unfold Fallback._fallback_sentiment.
  destruct (_ <? _); [split; reflexivity|].
  destruct (_ <? _); split; reflexivity.
Qed.

Lemma zero_not_in_range : ~ in_confidence_range f_0_0.
Proof. intros [H _]. discriminate H. Qed.

(** ** The heuristic fallback *)

(** C5.  The fallback classifier counts how many words of its positive
    list and how many of its negative list occur in the lowercased text
    (a word occurs when the text is some prefix, the word, some suffix).
    It returns a result for every text: Positive with 0.7 when the
    positive count is the larger, Negative with 0.7 when the negative
    count is the larger, Neutral with 0.6 on a tie.  On the text of the
    scenario it returns Positive with 0.7. *)
Theorem C5_fallback_sentiment :
  forall text : string,
    let text_lower := Py.str_lower text in
    let positive_count := Fallback.count_in Fallback.positive_words text_lower in
    let negative_count := Fallback.count_in Fallback.negative_words text_lower in
    (forall words,
        Fallback.count_in words text_lower
        = length (List.filter (fun word => Py.str_in word text_lower) words))
    /\ (forall word,
           Py.str_in word text_lower = true
           <-> exists a b, Py.of_str text_lower = a ++ Py.of_str word ++ b)
    /\ (negative_count < positive_count ->
        Fallback._fallback_sentiment text = (POSITIVE, f_0_7))
    /\ (positive_count < negative_count ->
        Fallback._fallback_sentiment text = (NEGATIVE, f_0_7))
    /\ (positive_count = negative_count ->
        Fallback._fallback_sentiment text = (NEUTRAL, f_0_6))
    /\ Fallback._fallback_sentiment "I absolutely love this! Best purchase ever."
       = (POSITIVE, f_0_7).
Proof.
  intros text text_lower positive_count negative_count.
  split; [reflexivity|].
  split; [intros word; apply contains_spec|].
  unfold Fallback._fallback_sentiment.
  fold text_lower. fold positive_count. fold negative_count.
  split; [|split; [|split]].
  - intros H. apply Nat.ltb_lt in H. rewrite H. reflexivity.
  - intros H.
    destruct (negative_count <? positive_count) eqn:E.
    + apply Nat.ltb_lt in E. lia.
    + apply Nat.ltb_lt in H. rewrite H. reflexivity.
  - intros H. rewrite H, Nat.ltb_irrefl. reflexivity.
  - vm_compute. reflexivity.
Qed.

(** ** Dictionaries *)

Section DictFacts.
Context {V : Type}.
Implicit Types (d : Dict.t V) (k : string) (v : V).

Lemma get_set_eq k v d : Dict.get k (Dict.set k v d) = Some v.
Proof.
  induction d as [|[k' v'] d IH]; simpl.
  - rewrite String.eqb_refl. reflexivity.
  - destruct (String.eqb k k') eqn:E; simpl.
    + rewrite String.eqb_refl. reflexivity.
    + rewrite E. exact IH.
Qed.


Lemma len_set k v d :
  Dict.len (Dict.set k v d) = if Dict.mem k d then Dict.len d else S (Dict.len d).
Proof.
  unfold Dict.mem, Dict.len. induction d as [|[k' v'] d IH]; simpl; [reflexivity|].
  destruct (String.eqb k k') eqn:E; simpl; [reflexivity|].
  rewrite IH. destruct (Dict.get k d); reflexivity.
Qed.

Lemma len_set_le k v d : Dict.len (Dict.set k v d) <= S (Dict.len d).
Proof. rewrite len_set. destruct (Dict.mem k d); lia. Qed.

Lemma len_set_ge k v d : Dict.len d <= Dict.len (Dict.set k v d).
Proof. rewrite len_set. destruct (Dict.mem k d); lia. Qed.

Lemma Forall_set (P : string * V -> Prop) k v d :
  Forall P d -> P (k, v) -> Forall P (Dict.set k v d).
Proof.
  intros Hd Hv. induction Hd as [|[k' v'] d Hx Hd IH]; simpl.
  - constructor; [exact Hv|constructor].
  - destruct (String.eqb k k'); constructor; auto.
Qed.

Lemma Forall_del (P : string * V -> Prop) k d :
  Forall P d -> Forall P (Dict.del k d).
Proof.
  intros Hd. induction Hd as [|[k' v'] d Hx Hd IH]; simpl; [constructor|].
  destruct (String.eqb k k'); [exact Hd|constructor; auto].
Qed.

Lemma len_del_le k d : Dict.len (Dict.del k d) <= Dict.len d.
Proof.
  unfold Dict.len. induction d as [|[k' v'] d IH]; simpl; [lia|].
  destruct (String.eqb k k'); simpl; lia.
Qed.

Lemma Forall_del_all (P : string * V -> Prop) ks d :
  Forall P d -> Forall P (fold_left (fun d key => Dict.del key d) ks d).
Proof.
  revert d. induction ks as [|k ks IH]; intros d Hd; simpl; [exact Hd|].
  apply IH, Forall_del, Hd.
Qed.

Lemma len_del_all_le ks d :
  Dict.len (fold_left (fun d key => Dict.del key d) ks d) <= Dict.len d.
Proof.
  revert d. induction ks as [|k ks IH]; intros d; simpl; [lia|].
  etransitivity; [apply IH|apply len_del_le].
Qed.

Lemma get_Forall (P : string * V -> Prop) k v d :
  Forall P d -> Dict.get k d = Some v -> P (k, v).
Proof.
  intros Hd. induction Hd as [|[k' v'] d Hx Hd IH]; simpl; [discriminate|].
  destruct (String.eqb k k') eqn:E; [|exact IH].
  apply String.eqb_eq in E. subst k'. intros [= ->]. exact Hx.
Qed.

(** Deleting the first [n] keys of a dictionary whose keys are
    distinct drops its first [n] entries. *)
Lemma del_head k v d : Dict.del k ((k, v) :: d) = d.
Proof. simpl. rewrite String.eqb_refl. reflexivity. Qed.

Lemma del_all_firstn n d :
  NoDup (Dict.keys d) ->
  fold_left (fun d key => Dict.del key d) (firstn n (Dict.keys d)) d = skipn n d.
Proof.
  revert d. induction n as [|n IH]; intros d Hd; [reflexivity|].
  destruct d as [|[k v] d]; [reflexivity|].
  cbn [Dict.keys map fst firstn fold_left skipn].
  rewrite del_head. apply IH.
  inversion Hd; assumption.
Qed.

Lemma keys_set k v d :
  Dict.keys (Dict.set k v d)
  = if Dict.mem k d then Dict.keys d else Dict.keys d ++ [k].
Proof.
  unfold Dict.mem, Dict.keys. induction d as [|[k' v'] d IH]; simpl; [reflexivity|].
  destruct (String.eqb k k') eqn:E; simpl.
  - apply String.eqb_eq in E. subst k'. reflexivity.
  - rewrite IH. destruct (Dict.get k d); reflexivity.
Qed.

Lemma get_None_keys k d : Dict.get k d = None <-> ~ In k (Dict.keys d).
Proof.
  unfold Dict.keys. induction d as [|[k' v'] d IH]; simpl.
  - split; [intros _ []|reflexivity].
  - destruct (String.eqb k k') eqn:E.
    + apply String.eqb_eq in E. subst k'. split; [discriminate|]. intros H. exfalso. auto.
    + apply String.eqb_neq in E. rewrite IH. split.
      * intros H [H'|H']; [congruence|auto].
      * intros H H'. apply H. right. exact H'.
Qed.

Lemma NoDup_keys_set k v d : NoDup (Dict.keys d) -> NoDup (Dict.keys (Dict.set k v d)).
Proof.
  intros Hd. rewrite keys_set. unfold Dict.mem.
  destruct (Dict.get k d) eqn:E; [exact Hd|].
  apply get_None_keys in E.
  apply NoDup_app. split; [exact Hd|]. split.
  - intros x Hx Hk. apply list_elem_of_In in Hx.
    apply list_elem_of_In in Hk. destruct Hk as [<-|[]]. auto.
  - apply NoDup_singleton.
Qed.

End DictFacts.

(** What [_manage_cache_size] leaves: every entry was there before, and
    when the dictionary is full at least one entry has gone. *)
Lemma manage_Forall {V} (P : string * V -> Prop) (max : nat) (d : Dict.t V) :
  Forall P d -> Forall P (Ollama._manage_cache_size max d).
Proof.
  intros Hd. unfold Ollama._manage_cache_size.
  destruct (max <=? Dict.len d); [apply Forall_del_all|]; exact Hd.
Qed.

Lemma manage_len_le {V} (max : nat) (d : Dict.t V) :
  Dict.len (Ollama._manage_cache_size max d) <= Dict.len d.
Proof.
  unfold Ollama._manage_cache_size.
  destruct (max <=? Dict.len d); [apply len_del_all_le|lia].
Qed.

Lemma manage_skipn {V} (max : nat) (d : Dict.t V) :
  NoDup (Dict.keys d) ->
  Ollama._manage_cache_size max d
  = if max <=? Dict.len d then skipn (max / 10) d else d.
Proof.
  intros Hd. unfold Ollama._manage_cache_size.
  destruct (max <=? Dict.len d); [apply del_all_firstn, Hd|reflexivity].
Qed.

Lemma NoDup_keys_skipn {V} (n : nat) (d : Dict.t V) :
  NoDup (Dict.keys d) -> NoDup (Dict.keys (skipn n d)).
Proof.
  unfold Dict.keys. intros Hd.
  rewrite <- (firstn_skipn n d), map_app in Hd.
  apply NoDup_app in Hd. tauto.
Qed.

Lemma NoDup_keys_manage {V} (max : nat) (d : Dict.t V) :
  NoDup (Dict.keys d) -> NoDup (Dict.keys (Ollama._manage_cache_size max d)).
Proof.
  intros Hd. rewrite manage_skipn by exact Hd.
  destruct (max <=? Dict.len d); [apply NoDup_keys_skipn|]; exact Hd.
Qed.

(** An insertion that goes through [_manage_cache_size] keeps a
    dictionary within its bound. *)
Lemma managed_insert_bound {V} (max : nat) (k : string) (v : V) (d : Dict.t V) :
  10 <= max ->
  NoDup (Dict.keys d) ->
  Dict.len d <= max ->
  Dict.len (Dict.set k v (Ollama._manage_cache_size max d)) <= max.
Proof.
  intros Hmax Hd Hlen.
  rewrite manage_skipn by exact Hd.
  destruct (max <=? Dict.len d) eqn:E.
  - apply Nat.leb_le in E.
    etransitivity; [apply len_set_le|].
    unfold Dict.len in *. rewrite length_skipn.
    assert (1 <= max / 10) by (apply Nat.div_le_lower_bound; lia).
    lia.
  - apply Nat.leb_gt in E.
    etransitivity; [apply len_set_le|]. lia.
Qed.

(** ** Rules for computations *)

Lemma triple_ret {S A} (P : S -> Prop) (a : A) (Q : result A -> S -> Prop) :
  (forall s, P s -> Q (Ok a) s) -> triple P (ret a) Q.
Proof. intros H s Hs. apply H, Hs. Qed.

Lemma triple_bind {S A B} (P : S -> Prop) (m : M S A) (f : A -> M S B)
    (R : result A -> S -> Prop) (Q : result B -> S -> Prop) :
  triple P m R ->
  (forall a, triple (R (Ok a)) (f a) Q) ->
  (forall e s, R (Raise e) s -> Q (Raise e) s) ->
  triple P (bind m f) Q.
Proof.
  intros Hm Hf He s Hs. unfold bind. specialize (Hm s Hs).
  destruct (m s) as [[a|e] s']; cbn [fst snd] in *.
  - apply Hf, Hm.
  - apply He, Hm.
Qed.

Lemma triple_try {S A} (P : S -> Prop) (body : M S A) (handler : exn -> M S A)
    (R : result A -> S -> Prop) (Q : result A -> S -> Prop) :
  triple P body R ->
  (forall a s, R (Ok a) s -> Q (Ok a) s) ->
  (forall e, triple (R (Raise e)) (handler e) Q) ->
  triple P (try_except body handler) Q.
Proof.
  intros Hb Hok Hh s Hs. unfold try_except. specialize (Hb s Hs).
  destruct (body s) as [[a|e] s']; cbn [fst snd] in *.
  - apply Hok, Hb.
  - apply Hh, Hb.
Qed.

Lemma triple_weaken {S A} (P P' : S -> Prop) (m : M S A) (Q Q' : result A -> S -> Prop) :
  triple P' m Q' ->
  (forall s, P s -> P' s) ->
  (forall r s, Q' r s -> Q r s) ->
  triple P m Q.
Proof. intros Hm HP HQ s Hs. apply HQ, Hm, HP, Hs. Qed.

(** ** The gateway: confidence *)

Ltac break_match :=
  match goal with
  | |- context [match ?x with _ => _ end] => destruct x eqn:?
  end.

(** Case analysis on a scrutinee that holds no other case analysis. *)
Ltac break_inner :=
  match goal with
  | |- context [match ?x with _ => _ end] =>
      lazymatch x with
      | context [match _ with _ => _ end] => fail
      | _ => destruct x eqn:?
      end
  end.

Section Gateway.
Context `{RT : Runtime}.

Lemma parse_result_good (j : json) (r : outcome) :
  Ollama.parse_result j = Ok r -> good_outcome r.
Proof.
  unfold Ollama.parse_result, and_then.
  repeat (break_match; try discriminate).
  intros [= <-]. apply clamp_in_range.
Qed.

Lemma store_sentiment_in_range (k : string) (r : outcome) (svc : Ollama.OllamaService) :
  good_outcome r ->
  cache_in_range (Ollama.sentiment_cache svc) ->
  cache_in_range (Ollama.sentiment_cache (snd (Ollama.store_sentiment k r svc))).
Proof.
  intros Hr Hc. simpl. apply Forall_set; [apply manage_Forall, Hc|exact Hr].
Qed.

(** [analyze_sentiment] never raises; what it returns has a confidence
    in range, and so has what it leaves in the cache. *)
Lemma analyze_sentiment_good (text : string) :
  triple (fun svc => cache_in_range (Ollama.sentiment_cache svc))
         (Ollama.analyze_sentiment text)
         (fun r svc => cache_in_range (Ollama.sentiment_cache svc)
                       /\ exists o, r = Ok o /\ good_outcome o).
Proof.
  intros svc Hc.
  assert (Hf : good_outcome (Fallback._fallback_sentiment text)) by apply fallback_in_range.
  assert (H75p : good_outcome (POSITIVE, f_0_75)) by (split; reflexivity).
  assert (H75n : good_outcome (NEGATIVE, f_0_75)) by (split; reflexivity).
  assert (H65 : good_outcome (NEUTRAL, f_0_65)) by (split; reflexivity).
  unfold Ollama.analyze_sentiment, try_except, bind, gets, ret, raise, lift_result,
    Ollama.client_chat, Ollama._initialize_client, Ollama.store_sentiment, modify,
    Ollama.getitem.
  cbv beta.
  repeat (break_inner; cbn [fst snd negb Ollama.client Ollama.with_client Ollama.with_call
                            Ollama.sentiment_cache Ollama.with_sentiment_cache] in *;
          try discriminate).
  all: try (split; [assumption|eexists; split; [reflexivity|assumption]]).
  all: try (split; [apply Forall_set; [apply manage_Forall; assumption|]|eexists; split; [reflexivity|]];
            first [assumption | eapply parse_result_good; eassumption]).
  all: try (split; [assumption|eexists; split; [reflexivity|]];
            eapply (get_Forall (fun kv => good_outcome (snd kv))); eassumption).
Qed.

Lemma map_r_parse_good (items : list json) (results : list outcome) :
  map_r Ollama.parse_result items = Ok results -> Forall good_outcome results.
Proof.
  revert results. induction items as [|j items IH]; simpl; intros results H.
  - injection H as <-. constructor.
  - unfold and_then in H.
    destruct (Ollama.parse_result j) eqn:Ej; [|discriminate].
    destruct (map_r Ollama.parse_result items) eqn:Er; [|discriminate].
    injection H as <-. constructor; [eapply parse_result_good, Ej|apply IH; reflexivity].
Qed.

Lemma pad_results_good (n : nat) (results : list outcome) :
  Forall good_outcome results -> Forall good_outcome (Ollama.pad_results n results).
Proof.
  intros H. unfold Ollama.pad_results.
  apply Forall_take, Forall_app_2; [exact H|].
  apply Forall_forall. intros x Hx. apply list_elem_of_In in Hx.
  apply repeat_spec in Hx. subst x. split; reflexivity.
Qed.

(** The fallback of the batch call: one [analyze_sentiment] per text. *)
Lemma individually_good (texts : list string) :
  triple (fun svc => cache_in_range (Ollama.sentiment_cache svc))
         (map_m (fun text => try_except (Ollama.analyze_sentiment text)
                                        (fun _ => ret (NEUTRAL, f_0_6))) texts)
         (fun r svc => cache_in_range (Ollama.sentiment_cache svc)
                       /\ exists results, r = Ok results
                                          /\ length results = length texts
                                          /\ Forall good_outcome results).
Proof.
  induction texts as [|text texts IH].
  - intros svc Hc. cbn. split; [exact Hc|]. exists (@nil outcome).
    split; [reflexivity|]. split; [reflexivity|constructor].
  - cbn [map_m].
    apply triple_bind with
      (R := fun r svc => cache_in_range (Ollama.sentiment_cache svc)
                         /\ match r with Ok o => good_outcome o | Raise _ => False end).
    + apply triple_try with
        (R := fun r svc => cache_in_range (Ollama.sentiment_cache svc)
                           /\ exists o, r = Ok o /\ good_outcome o).
      * apply analyze_sentiment_good.
      * intros a s [Hc (o & [= <-] & Ho)]. split; assumption.
      * intros e s [_ (o & Ho & _)]. discriminate Ho.
    + intros o.
      apply triple_bind with
        (R := fun r svc => (cache_in_range (Ollama.sentiment_cache svc)
                            /\ exists results, r = Ok results
                                               /\ length results = length texts
                                               /\ Forall good_outcome results)
                           /\ good_outcome o).
      * intros s [Hc Ho]. split; [apply IH, Hc|exact Ho].
      * intros results. apply triple_ret.
        intros s [[Hc (rs & [= <-] & Hlen & Hall)] Ho].
        split; [exact Hc|]. exists (o :: results).
        split; [reflexivity|]. split; [simpl; lia|constructor; assumption].
      * intros e s [[_ (rs & Hr & _)] _]. discriminate Hr.
    + intros e s [_ []].
Qed.

(** Looking for JSON in a reply changes nothing. *)
Lemma extract_json_state (content0 : string) (svc : Ollama.OllamaService) :
  snd (Ollama._extract_json_from_response content0 svc) = svc.
Proof. reflexivity. Qed.

Lemma batch_reply_good (texts : list string) :
  triple (fun svc => cache_in_range (Ollama.sentiment_cache svc))
         (Ollama.batch_reply texts)
         (fun r svc => cache_in_range (Ollama.sentiment_cache svc)
                       /\ exists parsed, r = Ok parsed
                                         /\ match parsed with
                                            | Some results => Forall good_outcome results
                                            | None => True
                                            end).
Proof.
  intros svc Hc.
  unfold Ollama.batch_reply, try_except, bind, ret, raise, lift_result,
    Ollama.client_chat, modify, Ollama.getitem.
  cbv beta.
  repeat (first
            [ match goal with
              | |- context [Ollama._extract_json_from_response ?c ?s] =>
                  let E := fresh "E" in
                  pose proof (extract_json_state c s) as E;
                  destruct (Ollama._extract_json_from_response c s) as [? ?];
                  cbn [snd] in E; subst
              end
            | break_inner ];
          cbn [fst snd negb Ollama.client Ollama.with_client Ollama.with_call
               Ollama.sentiment_cache Ollama.with_last_response] in *;
          try discriminate).
  all: split; [assumption|eexists; split; [reflexivity|]]; try exact I.
  all: apply pad_results_good; eapply map_r_parse_good; eassumption.
Qed.

(** [_batch_sentiment_api_call] never raises; what it returns has
    confidences in range. *)
Lemma batch_api_call_good (texts : list string) :
  triple (fun svc => cache_in_range (Ollama.sentiment_cache svc))
         (Ollama._batch_sentiment_api_call texts)
         (fun r svc => cache_in_range (Ollama.sentiment_cache svc)
                       /\ exists results, r = Ok results /\ Forall good_outcome results).
Proof.
  unfold Ollama._batch_sentiment_api_call.
  eapply triple_bind; [apply batch_reply_good| |].
  - intros [results|].
    + apply triple_ret. intros s [Hc (parsed & [= <-] & Hall)].
      split; [exact Hc|]. exists results. split; [reflexivity|exact Hall].
    + eapply triple_weaken; [apply individually_good|intros s [Hc _]; exact Hc|].
      intros r s [Hc (results & Hr & _ & Hall)].
      split; [exact Hc|]. exists results. split; assumption.
  - intros e s [_ (parsed & Hp & _)]. discriminate Hp.
Qed.

End Gateway.

(** ** Thread pools and result arrays *)

(** An invariant of the loop over the completed futures: it holds of
    the futures handled so far, the local state and the shared state. *)
Lemma as_completed_inv {S A R} (tasks : list (M S A))
    (handle : nat -> result A -> R -> M S R) (Inv : list nat -> R -> S -> Prop) :
  (forall done j acc s task,
      Inv done acc s -> nth_error tasks j = Some task ->
      exists acc' s', handle j (fst (task s)) acc (snd (task s)) = (Ok acc', s')
                      /\ Inv (done ++ [j]) acc' s') ->
  (forall done j acc s,
      Inv done acc s -> nth_error tasks j = None -> Inv (done ++ [j]) acc s) ->
  forall order done acc s,
    Inv done acc s ->
    exists acc' s', as_completed tasks handle order acc s = (Ok acc', s')
                    /\ Inv (done ++ order) acc' s'.
Proof.
  intros Hrun Hskip order.
  induction order as [|j order IH]; intros done acc s HI.
  - exists acc, s. rewrite app_nil_r. split; [reflexivity|exact HI].
  - cbn [as_completed].
    replace (done ++ j :: order) with ((done ++ [j]) ++ order)
      by (rewrite <- app_assoc; reflexivity).
    destruct (nth_error tasks j) as [task|] eqn:Ej.
    + destruct (Hrun done j acc s task HI Ej) as (acc1 & s1 & Hh & HI1).
      destruct (task s) as [r s0]. cbn [fst snd] in Hh.
      unfold bind. rewrite Hh. apply IH, HI1.
    + apply IH, Hskip; assumption.
Qed.

(** Storing a sub-batch writes its results over a stretch of the main
    array. *)
Lemma store_from_spec {A} (i j : nat) (batch_results results : list A) :
  i + j + length batch_results <= length results ->
  fold_left (fun acc jr => <[i + fst jr := snd jr]> acc)
            (combine (seq j (length batch_results)) batch_results) results
  = take (i + j) results ++ batch_results ++ drop (i + j + length batch_results) results.
Proof.
  revert j results. induction batch_results as [|b br IH]; intros j results Hlen.
  - cbn. rewrite Nat.add_0_r, take_drop. reflexivity.
  - cbn [length seq combine fold_left fst snd] in *.
    rewrite IH by (rewrite length_insert; lia).
    rewrite drop_insert_lt by lia.
    replace (i + S j) with (S (i + j)) by lia.
    rewrite (take_S_r _ _ b) by (apply list_lookup_insert_eq; lia).
    rewrite take_insert_ge by lia.
    rewrite <- app_assoc. cbn [app].
    replace (S (i + j) + length br) with (i + j + S (length br)) by lia.
    reflexivity.
Qed.

Lemma store_batch_spec {A} (i : nat) (batch_results results : list A) :
  i + length batch_results <= length results ->
  Optimized.store_batch i batch_results results
  = take i results ++ batch_results ++ drop (i + length batch_results) results.
Proof.
  intros H. unfold Optimized.store_batch.
  rewrite (store_from_spec i 0) by lia. rewrite Nat.add_0_r. reflexivity.
Qed.

Lemma nth_error_lookup {A} (l : list A) (i : nat) : nth_error l i = l !! i.
Proof.
  revert i. induction l as [|x l IH]; intros [|i]; cbn; auto.
Qed.

(** ** The orchestrator *)

Section Orchestrator.
Context `{RT : Runtime}.
Variable classify : string -> M Ollama.OllamaService outcome.

(** [P] is something the gateway keeps true of itself, [G] something
    true of every outcome it returns, and a write-through of such an
    outcome keeps [P]. *)
Variable P : Ollama.OllamaService -> Prop.
Variable G : outcome -> Prop.
Hypothesis classify_keeps :
  forall text gateway,
    P gateway ->
    P (snd (classify text gateway))
    /\ forall o, fst (classify text gateway) = Ok o -> G o.
Hypothesis write_keeps :
  forall key o gateway,
    P gateway -> G o ->
    P (Ollama.with_sentiment_cache (Dict.set key o (Ollama.sentiment_cache gateway)) gateway).

(** The futures of one sub-batch: every future that completes leaves
    its settled outcome at its own index, whatever the order. *)
Lemma classifier_pool (batch_texts batch_languages : list string) (order : list nat)
    (svc : Optimized.OptimizedSentimentService) :
  length batch_languages = length batch_texts ->
  P (Optimized.ollama_service svc) ->
  exists out svc',
    as_completed (map (Optimized.submit classify) (map Some batch_texts))
      (Optimized.handle_future (map Some batch_texts) batch_languages)
      order (replicate (length batch_texts) None) svc = (Ok out, svc')
    /\ P (Optimized.ollama_service svc')
    /\ length out = length batch_texts
    /\ forall j text,
         batch_texts !! j = Some text ->
         (j ∈ order -> exists r, out !! j = Some (Some r) /\ settled classify P text r)
         /\ (j ∉ order -> out !! j = Some None).
Proof.
  intros Hlen HP.
  pose (Inv := fun (done : list nat) (acc : list (option outcome))
                   (s : Optimized.OptimizedSentimentService) =>
          P (Optimized.ollama_service s)
          /\ length acc = length batch_texts
          /\ forall j text,
               batch_texts !! j = Some text ->
               (j ∈ done -> exists r, acc !! j = Some (Some r) /\ settled classify P text r)
               /\ (j ∉ done -> acc !! j = Some None)).
  destruct (as_completed_inv (map (Optimized.submit classify) (map Some batch_texts))
              (Optimized.handle_future (map Some batch_texts) batch_languages) Inv)
    with (order := order) (done := @nil nat) (acc := replicate (length batch_texts) (@None outcome))
         (s := svc)
    as (out & svc' & Hrun & HP' & Hout & Hall).
  - (* a future completes *)
    intros done j acc s task (HPs & Hacc & Hslots) Htask.
    rewrite nth_error_lookup, !list_lookup_fmap in Htask.
    destruct (batch_texts !! j) as [text|] eqn:Etext; [|discriminate].
    cbn in Htask. injection Htask as <-.
    assert (Hj : j < length batch_texts) by (eapply lookup_lt_Some; eauto).
    destruct (batch_languages !! j) as [language|] eqn:Elang;
      [|apply lookup_ge_None in Elang; lia].
    destruct (classify_keeps text (Optimized.ollama_service s) HPs) as [HP1 HG].
    assert (Hsettled : settled classify P text
                         (settle (fst (classify text (Optimized.ollama_service s)))))
      by (exists (Optimized.ollama_service s); split; [exact HPs|reflexivity]).
    cbn [Optimized.submit]. unfold Optimized.on_ollama.
    destruct (classify text (Optimized.ollama_service s)) as [[o|e] gateway] eqn:Erun;
      cbn [fst snd settle] in *.
    + unfold Optimized.handle_future.
      rewrite !nth_error_lookup, Elang, !list_lookup_fmap, Etext. cbn.
      eexists _, _. split; [reflexivity|].
      split; [apply write_keeps; [exact HP1|apply HG; reflexivity]|].
      split; [rewrite length_insert; exact Hacc|].
      intros j' text' Htext'. destruct (decide (j' = j)) as [->|Hne].
      * split.
        -- intros _. exists o. rewrite list_lookup_insert_eq by lia.
           split; [reflexivity|]. simplify_eq. exact Hsettled.
        -- intros Hnot. exfalso. apply Hnot, elem_of_app. right. apply list_elem_of_singleton.
           reflexivity.
      * rewrite list_lookup_insert_ne by congruence.
        destruct (Hslots j' text' Htext') as [Hin Hout]. split.
        -- intros Hd. apply elem_of_app in Hd as [Hd|Hd]; [exact (Hin Hd)|].
           apply list_elem_of_singleton in Hd. congruence.
        -- intros Hd. apply Hout. intros Hd'. apply Hd, elem_of_app. left. exact Hd'.
    + unfold Optimized.handle_future. cbn.
      eexists _, _. split; [reflexivity|].
      split; [exact HP1|].
      split; [rewrite length_insert; exact Hacc|].
      intros j' text' Htext'. destruct (decide (j' = j)) as [->|Hne].
      * split.
        -- intros _. exists (NEUTRAL, f_0_0). rewrite list_lookup_insert_eq by lia.
           split; [reflexivity|]. simplify_eq. exact Hsettled.
        -- intros Hnot. exfalso. apply Hnot, elem_of_app. right. apply list_elem_of_singleton.
           reflexivity.
      * rewrite list_lookup_insert_ne by congruence.
        destruct (Hslots j' text' Htext') as [Hin Hout]. split.
        -- intros Hd. apply elem_of_app in Hd as [Hd|Hd]; [exact (Hin Hd)|].
           apply list_elem_of_singleton in Hd. congruence.
        -- intros Hd. apply Hout. intros Hd'. apply Hd, elem_of_app. left. exact Hd'.
  - (* an index the pool does not have *)
    intros done j acc s (HPs & Hacc & Hslots) Htask.
    split; [exact HPs|]. split; [exact Hacc|].
    intros j' text' Htext'.
    assert (j' <> j).
    { intros ->. rewrite nth_error_lookup, !list_lookup_fmap, Htext' in Htask. discriminate. }
    destruct (Hslots j' text' Htext') as [Hin Hout]. split.
    + intros Hd. apply elem_of_app in Hd as [Hd|Hd]; [exact (Hin Hd)|].
      apply list_elem_of_singleton in Hd. congruence.
    + intros Hd. apply Hout. intros Hd'. apply Hd, elem_of_app. left. exact Hd'.
  - (* before any future completes *)
    split; [exact HP|]. split; [apply length_replicate|].
    intros j text Htext. split.
    + intros Hd. apply elem_of_nil in Hd. destruct Hd.
    + intros _. apply lookup_replicate_2. eapply lookup_lt_Some; eauto.
  - exists out, svc'. cbn [app] in Hall.
    split; [exact Hrun|]. split; [exact HP'|]. split; [exact Hout|exact Hall].
Qed.

(** With a fair scheduler the pool fills every slot. *)
Lemma classifier_pool_fair (offset : nat) (batch_texts batch_languages : list string)
    (svc : Optimized.OptimizedSentimentService) :
  fair_scheduler ->
  length batch_languages = length batch_texts ->
  P (Optimized.ollama_service svc) ->
  exists out svc',
    as_completed (map (Optimized.submit classify) (map Some batch_texts))
      (Optimized.handle_future (map Some batch_texts) batch_languages)
      (completion_order ClassifierPool offset (length batch_texts))
      (replicate (length batch_texts) None) svc = (Ok out, svc')
    /\ P (Optimized.ollama_service svc')
    /\ Forall2 (fun slot text => exists r, slot = Some r /\ settled classify P text r)
               out batch_texts.
Proof.
  intros Hfair Hlen HP.
  destruct (classifier_pool batch_texts batch_languages
              (completion_order ClassifierPool offset (length batch_texts)) svc Hlen HP)
    as (out & svc' & Hrun & HP' & Hout & Hall).
  exists out, svc'. split; [exact Hrun|]. split; [exact HP'|].
  apply Forall2_same_length_lookup. split; [exact Hout|].
  intros j slot text Hslot Htext.
  destruct (Hall j text Htext) as [Hin _].
  destruct Hin as (r & Hr & Hs).
  - rewrite (Hfair ClassifierPool offset (length batch_texts)).
    apply elem_of_seq. apply lookup_lt_Some in Htext. lia.
  - exists r. split; [congruence|exact Hs].
Qed.

(** The loop over the sub-batches, from the [k]-th on: the slots of the
    sub-batches done hold settled outcomes, the others are empty. *)
Lemma sub_batches_spec (bs : nat) (texts languages : list string) (count k : nat)
    (results : list (option outcome)) (svc : Optimized.OptimizedSentimentService)
    (done : list (option outcome)) :
  fair_scheduler ->
  0 < bs ->
  length languages = length texts ->
  (count = 0 \/ (k + count - 1) * bs < length texts) ->
  P (Optimized.ollama_service svc) ->
  results = done ++ replicate (length texts - k * bs) None ->
  Forall2 (fun slot text => exists r, slot = Some r /\ settled classify P text r)
          done (take (k * bs) texts) ->
  exists done' svc',
    Optimized.sub_batches classify bs (map Some texts) languages
      (map (fun k => k * bs) (seq k count)) results svc
    = (Ok (done' ++ replicate (length texts - (k + count) * bs) None), svc')
    /\ P (Optimized.ollama_service svc')
    /\ Forall2 (fun slot text => exists r, slot = Some r /\ settled classify P text r)
               done' (take ((k + count) * bs) texts).
Proof.
  intros Hfair Hbs Hlen.
  revert k results svc done.
  induction count as [|count IH]; intros k results svc done Hrange HP Hres Hdone.
  - exists done, svc. rewrite Nat.add_0_r. cbn. subst results. auto.
  - cbn [seq map Optimized.sub_batches].
    assert (Hk : k * bs < length texts).
    { destruct Hrange as [|Hrange]; [discriminate|]. nia. }
    set (i := k * bs) in *.
    unfold slice.
    rewrite <- !fmap_drop, <- !fmap_take.
    set (batch_texts := take bs (drop i texts)).
    set (batch_languages := take bs (drop i languages)).
    assert (Hbl : length batch_languages = length batch_texts).
    { unfold batch_languages, batch_texts. rewrite !length_take, !length_drop. lia. }
    destruct (classifier_pool_fair i batch_texts batch_languages svc Hfair Hbl HP)
      as (out & svc1 & Hrun & HP1 & Hout).
    unfold bind. change (Some <$> batch_texts) with (map Some batch_texts).
    rewrite !List.length_map, Hrun.
    assert (Hdl : length done = i).
    { apply Forall2_length in Hdone. rewrite Hdone, length_take. lia. }
    assert (Hol : length out = length batch_texts) by (eapply Forall2_length; eauto).
    assert (Hbt : length batch_texts = Nat.min bs (length texts - i)).
    { unfold batch_texts. rewrite length_take, length_drop. reflexivity. }
    destruct (IH (S k) (Optimized.store_batch i out results) svc1 (done ++ out))
      as (done' & svc' & Hloop & HP' & Hdone').
    + destruct count; [left; reflexivity|right].
      destruct Hrange as [|Hrange]; [discriminate|].
      replace (S k + S count - 1) with (k + S (S count) - 1) by lia. exact Hrange.
    + exact HP1.
    + rewrite store_batch_spec.
      2:{ subst results. rewrite length_app, length_replicate. lia. }
      subst results.
      rewrite take_app_length' by (symmetry; exact Hdl).
      rewrite drop_app_ge by lia.
      rewrite drop_replicate, <- app_assoc.
      do 3 f_equal. cbn [Nat.mul]. fold i. lia.
    + replace (S k * bs) with (i + bs) by (unfold i; lia).
      rewrite <- (take_take_drop texts i bs).
      apply Forall2_app; assumption.
    + exists done', svc'.
      replace (k + S count) with (S k + count) by lia.
      split; [exact Hloop|]. split; [exact HP'|exact Hdone'].
Qed.

Lemma range_step_facts (n bs : nat) :
  0 < bs -> 0 < n ->
  let count := (n + bs - 1) / bs in
  (count - 1) * bs < n /\ n <= count * bs.
Proof.
  intros Hbs Hn count.
  pose proof (Nat.div_mod_eq (n + bs - 1) bs) as Hdiv.
  pose proof (Nat.mod_upper_bound (n + bs - 1) bs ltac:(lia)) as Hmod.
  fold count in Hdiv. nia.
Qed.

(** [_process_uncached_batch]: one settled outcome per text, in the
    order of the texts. *)
Lemma process_uncached_spec (texts languages : list string) (indices : list nat)
    (svc : Optimized.OptimizedSentimentService) :
  fair_scheduler ->
  0 < Optimized.batch_size svc ->
  texts <> [] ->
  length languages = length texts ->
  P (Optimized.ollama_service svc) ->
  exists results svc',
    Optimized._process_uncached_batch_with classify (map Some texts) languages indices svc
    = (Ok results, svc')
    /\ P (Optimized.ollama_service svc')
    /\ Forall2 (fun slot text => exists r, slot = Some r /\ settled classify P text r)
               results texts.
Proof.
  intros Hfair Hsize Hne Hlen HP.
  unfold Optimized._process_uncached_batch_with, bind, gets.
  rewrite List.length_map.
  assert (Hn : 0 < length texts) by (destruct texts; [congruence|simpl; lia]).
  set (bs := Nat.min (Optimized.batch_size svc) (length texts)).
  assert (Hbs : 0 < bs) by (unfold bs; lia).
  destruct (Nat.eqb_spec bs 0) as [|_]; [lia|].
  destruct (range_step_facts (length texts) bs Hbs Hn) as [Hlast Hcover].
  unfold range_step.
  destruct (sub_batches_spec bs texts languages ((length texts + bs - 1) / bs) 0
              (replicate (length texts) None) svc [] Hfair Hbs Hlen)
    as (done & svc' & Hloop & HP' & Hdone).
  - right. exact Hlast.
  - exact HP.
  - cbn. rewrite Nat.sub_0_r. reflexivity.
  - cbn. constructor.
  - cbn [Nat.add] in *.
    replace (length texts - (length texts + bs - 1) / bs * bs) with 0 in Hloop by lia.
    cbn [replicate] in Hloop. rewrite app_nil_r in Hloop.
    rewrite take_ge in Hdone by lia.
    exists done, svc'. auto.
Qed.

End Orchestrator.

(** ** The tokenizer *)

Lemma drop_combine {A B} (n : nat) (l : list A) (l' : list B) :
  drop n (combine l l') = combine (drop n l) (drop n l').
Proof.
  revert l l'. induction n as [|n IH]; intros [|x l] [|y l']; cbn; auto.
  destruct (drop n l); reflexivity.
Qed.

Section Tokenizer.
Context `{RT : Runtime}.

(** The tokenizer always returns a text. *)
Lemma optimize_total (text language : string) (tok : Tokenization.TokenizationService) :
  exists o, fst (Tokenization.optimize_text_for_analysis text language tok) = Ok o.
Proof.
  unfold Tokenization.optimize_text_for_analysis, bind, gets, ret.
  destruct (Dict.get _ _); eexists; reflexivity.
Qed.

Lemma tokenizer_pool (offset : nat) (texts languages : list string)
    (tok : Tokenization.TokenizationService) :
  fair_scheduler ->
  length languages = length texts ->
  exists out tok',
    Tokenization._process_batch_parallel offset texts languages tok = (Ok out, tok')
    /\ Forall2 (fun slot tl => exists o, slot = Some o /\ optimized_from (fst tl) (snd tl) o)
               out (combine texts languages).
Proof.
  intros Hfair Hlen.
  unfold Tokenization._process_batch_parallel.
  set (pairs := combine texts languages).
  assert (Hpl : length pairs = length texts).
  { unfold pairs. rewrite length_combine. lia. }
  pose (Inv := fun (done : list nat) (acc : list (option string))
                   (s : Tokenization.TokenizationService) =>
          length acc = length texts
          /\ forall j tl,
               pairs !! j = Some tl ->
               (j ∈ done -> exists o, acc !! j = Some (Some o)
                                      /\ optimized_from (fst tl) (snd tl) o)
               /\ (j ∉ done -> acc !! j = Some None)).
  rewrite List.length_map.
  match goal with
  | |- context [as_completed ?ts ?h ?ord ?a tok] =>
      cut (exists out tok', as_completed ts h ord a tok = (Ok out, tok')
                            /\ Inv ([] ++ ord) out tok');
      [intros (out & tok' & Hrun & Hout & Hall)|apply as_completed_inv]
  end.
  - exists out, tok'. split; [exact Hrun|].
    apply Forall2_same_length_lookup. split; [lia|].
    intros j slot tl Hslot Htl.
    destruct (Hall j tl Htl) as [Hin _].
    destruct Hin as (o & Ho & Hopt).
    + cbn [app]. rewrite (Hfair TokenizerPool offset (length pairs)).
      apply elem_of_seq. apply lookup_lt_Some in Htl. lia.
    + exists o. split; [congruence|exact Hopt].
  - intros done j acc s task (Hacc & Hslots) Htask.
    rewrite nth_error_lookup, list_lookup_fmap in Htask.
    destruct (pairs !! j) as [[text language]|] eqn:Epair; [|discriminate].
    cbn in Htask. injection Htask as <-.
    assert (Hj : j < length texts) by (apply lookup_lt_Some in Epair; lia).
    destruct (optimize_total text language s) as [o Ho].
    destruct (Tokenization.optimize_text_for_analysis text language s) as [r s1] eqn:Erun.
    cbn [fst snd] in *. subst r. unfold ret.
    eexists _, _. split; [reflexivity|].
    split; [rewrite length_insert; exact Hacc|].
    intros j' tl' Htl'. destruct (decide (j' = j)) as [->|Hneq].
    + split.
      * intros _. exists o. rewrite list_lookup_insert_eq by lia.
        split; [reflexivity|]. simplify_eq. exists s. cbn [fst snd]. rewrite Erun. reflexivity.
      * intros Hnot. exfalso. apply Hnot, elem_of_app. right.
        apply list_elem_of_singleton. reflexivity.
    + rewrite list_lookup_insert_ne by congruence.
      destruct (Hslots j' tl' Htl') as [Hin Hnotin]. split.
      * intros Hd. apply elem_of_app in Hd as [Hd|Hd]; [exact (Hin Hd)|].
        apply list_elem_of_singleton in Hd. congruence.
      * intros Hd. apply Hnotin. intros Hd'. apply Hd, elem_of_app. left. exact Hd'.
  - intros done j acc s (Hacc & Hslots) Htask.
    split; [exact Hacc|].
    intros j' tl' Htl'.
    assert (j' <> j).
    { intros ->. rewrite nth_error_lookup, list_lookup_fmap, Htl' in Htask. discriminate. }
    destruct (Hslots j' tl' Htl') as [Hin Hnotin]. split.
    + intros Hd. apply elem_of_app in Hd as [Hd|Hd]; [exact (Hin Hd)|].
      apply list_elem_of_singleton in Hd. congruence.
    + intros Hd. apply Hnotin. intros Hd'. apply Hd, elem_of_app. left. exact Hd'.
  - split; [apply length_replicate|].
    intros j tl Htl. split.
    + intros Hd. apply elem_of_nil in Hd. destruct Hd.
    + intros _. apply lookup_replicate_2. apply lookup_lt_Some in Htl. lia.
Qed.

(** The loop of [batch_optimize_texts] from the [k]-th sub-batch on. *)
Lemma optimize_batches_spec (texts languages : list string) (count k : nat)
    (tok : Tokenization.TokenizationService) :
  fair_scheduler ->
  length languages = length texts ->
  exists batches tok',
    map_m (fun i => Tokenization._process_batch_parallel i
                      (slice i Tokenization.batch_size texts)
                      (slice i Tokenization.batch_size languages))
          (map (fun k => k * Tokenization.batch_size) (seq k count)) tok
    = (Ok batches, tok')
    /\ Forall2 (fun slot tl => exists o, slot = Some o /\ optimized_from (fst tl) (snd tl) o)
               (concat batches)
               (take (count * Tokenization.batch_size)
                     (drop (k * Tokenization.batch_size) (combine texts languages))).
Proof.
  intros Hfair Hlen. revert k tok.
  induction count as [|count IH]; intros k tok.
  - exists [], tok. split; [reflexivity|]. cbn. constructor.
  - cbn [seq map map_m]. unfold bind.
    set (bs := Tokenization.batch_size) in *.
    destruct (tokenizer_pool (k * bs) (slice (k * bs) bs texts) (slice (k * bs) bs languages)
                tok Hfair) as (out & tok1 & Hrun & Hout).
    { unfold slice. rewrite !length_take, !length_drop. lia. }
    rewrite Hrun.
    destruct (IH (S k) tok1) as (batches & tok' & Hrest & Hall).
    rewrite Hrest. unfold ret.
    exists (out :: batches), tok'. split; [reflexivity|].
    cbn [concat].
    replace (S count * bs) with (bs + count * bs) by lia.
    rewrite <- (take_take_drop _ bs (count * bs)), drop_drop.
    apply Forall2_app.
    + unfold slice in Hout. rewrite <- combine_firstn, <- drop_combine in Hout. exact Hout.
    + replace (k * bs + bs) with (S k * bs) by lia. exact Hall.
Qed.

(** [batch_optimize_texts]: one optimised text per text, in the order
    of the texts. *)
Lemma batch_optimize_spec (texts languages : list string)
    (tok : Tokenization.TokenizationService) :
  fair_scheduler ->
  languages = [] \/ length languages = length texts ->
  exists optimized tok',
    Tokenization.batch_optimize_texts texts languages tok = (Ok (map Some optimized), tok')
    /\ Forall2 (fun o tl => optimized_from (fst tl) (snd tl) o)
               optimized (combine texts (effective_languages texts languages)).
Proof.
  intros Hfair Hwf.
  unfold Tokenization.batch_optimize_texts. fold (effective_languages texts languages).
  set (langs := effective_languages texts languages).
  assert (Hlen : length langs = length texts).
  { unfold langs, effective_languages. destruct Hwf as [->|Hwf].
    - apply repeat_length.
    - destruct languages; [destruct texts; [reflexivity|discriminate]|exact Hwf]. }
  unfold bind, range_step.
  destruct (optimize_batches_spec texts langs
              ((length texts + Tokenization.batch_size - 1) / Tokenization.batch_size) 0 tok
              Hfair Hlen) as (batches & tok' & Hrun & Hall).
  rewrite Hrun. unfold ret.
  cbn [Nat.mul] in Hall. rewrite drop_0 in Hall.
  rewrite take_ge in Hall.
  2:{ rewrite length_combine, Hlen, Nat.min_id.
      destruct texts as [|t texts]; [cbn; lia|].
      apply (range_step_facts (length (t :: texts)) Tokenization.batch_size);
        [unfold Tokenization.batch_size; lia|cbn; lia]. }
  assert (Hsome : exists optimized,
             concat batches = map Some optimized
             /\ Forall2 (fun o tl => optimized_from (fst tl) (snd tl) o)
                        optimized (combine texts langs)).
  { clear Hrun. revert Hall. generalize (combine texts langs). generalize (concat batches).
    induction l as [|slot l IHl]; intros pairs Hall.
    - inversion Hall; subst. exists []. split; [reflexivity|constructor].
    - inversion Hall as [|? tl ? pairs' (o & -> & Ho) Hrest]; subst.
      destruct (IHl _ Hrest) as (optimized & -> & Hopt).
      exists (o :: optimized). split; [reflexivity|constructor; assumption]. }
  destruct Hsome as (optimized & -> & Hopt).
  exists optimized, tok'. split; [reflexivity|exact Hopt].
Qed.

End Tokenizer.

(** ** Assembling the results of a batch *)

Lemma fold_insert_length {A B} (g : B -> A) (l : list (nat * B)) (init : list A) :
  length (fold_left (fun acc ir => <[fst ir := g (snd ir)]> acc) l init) = length init.
Proof.
  revert init. induction l as [|[i x] l IH]; intros init; cbn; [reflexivity|].
  rewrite IH, length_insert. reflexivity.
Qed.

Lemma fold_insert_notin {A B} (g : B -> A) (l : list (nat * B)) (init : list A) (p : nat) :
  p ∉ map fst l ->
  fold_left (fun acc ir => <[fst ir := g (snd ir)]> acc) l init !! p = init !! p.
Proof.
  revert init. induction l as [|[i x] l IH]; intros init Hp; cbn; [reflexivity|].
  cbn in Hp. apply not_elem_of_cons in Hp as [Hne Hp].
  rewrite IH by exact Hp. apply list_lookup_insert_ne. congruence.
Qed.

Lemma fold_insert_in {A B} (g : B -> A) (l : list (nat * B)) (init : list A)
    (p : nat) (x : B) :
  NoDup (map fst l) ->
  (p, x) ∈ l ->
  p < length init ->
  fold_left (fun acc ir => <[fst ir := g (snd ir)]> acc) l init !! p = Some (g x).
Proof.
  revert init. induction l as [|[i y] l IH]; intros init Hnd Hin Hp; cbn.
  - apply elem_of_nil in Hin. destruct Hin.
  - cbn in Hnd. apply NoDup_cons in Hnd as [Hi Hnd].
    apply elem_of_cons in Hin as [Heq|Hin].
    + injection Heq as <- <-.
      rewrite fold_insert_notin by exact Hi.
      apply list_lookup_insert_eq. exact Hp.
    + apply IH; [exact Hnd|exact Hin|rewrite length_insert; exact Hp].
Qed.

Lemma pick_spec {A} (xs : list A) (indices : list nat) :
  Forall (fun i => i < length xs) indices ->
  exists ys, Optimized.pick xs indices = Ok ys
             /\ Forall2 (fun y i => xs !! i = Some y) ys indices.
Proof.
  unfold Optimized.pick.
  induction 1 as [|i indices Hi _ (ys & Hys & Hall)]; cbn.
  - exists []. split; [reflexivity|constructor].
  - rewrite nth_error_lookup.
    destruct (lookup_lt_is_Some_2 xs i Hi) as [x Hx]. rewrite Hx. cbn.
    rewrite Hys. cbn. exists (x :: ys). split; [reflexivity|constructor; assumption].
Qed.

Lemma pick_fmap {A B} (f : A -> B) (xs : list A) (indices : list nat) (ys : list A) :
  Optimized.pick xs indices = Ok ys ->
  Optimized.pick (map f xs) indices = Ok (map f ys).
Proof.
  unfold Optimized.pick. revert ys.
  induction indices as [|i indices IH]; intros ys; cbn.
  - intros [= <-]. reflexivity.
  - rewrite !nth_error_lookup, list_lookup_fmap.
    destruct (xs !! i) as [x|]; cbn; [|discriminate].
    destruct (map_r _ indices) as [ys'|] eqn:E; cbn; [|discriminate].
    intros [= <-]. rewrite (IH ys' eq_refl). reflexivity.
Qed.

Section Partition.
Context `{RT : Runtime}.

(** The first loop of the batch sorts every index into exactly one of
    the two lists, by whether its key is in the cache. *)
Lemma partition_spec (d : Dict.t outcome) (pairs : list (option string * string)) :
  forall i cached uncached,
    Optimized.partition_cached d i pairs = (cached, uncached) ->
    (forall p r, (p, r) ∈ cached <->
                 exists o language, i <= p /\ pairs !! (p - i) = Some (o, language)
                                    /\ Dict.get (Optimized.cache_key_of language o) d = Some r)
    /\ (forall p, p ∈ uncached <->
                  exists o language, i <= p /\ pairs !! (p - i) = Some (o, language)
                                     /\ Dict.get (Optimized.cache_key_of language o) d = None)
    /\ NoDup (map fst cached)
    /\ NoDup uncached.
Proof.
  induction pairs as [|[o language] pairs IH]; intros i cached uncached Hpart.
  - cbn in Hpart. injection Hpart as <- <-.
    split; [|split; [|split; constructor]].
    + intros p r. split; [intros H; apply elem_of_nil in H; destruct H|].
      intros (o & l & _ & H & _). rewrite lookup_nil in H. discriminate.
    + intros p. split; [intros H; apply elem_of_nil in H; destruct H|].
      intros (o & l & _ & H & _). rewrite lookup_nil in H. discriminate.
  - cbn [Optimized.partition_cached] in Hpart.
    destruct (Optimized.partition_cached d (S i) pairs) as [cached' uncached'] eqn:Erest.
    destruct (IH (S i) cached' uncached' Erest) as (Hc & Hu & Hndc & Hndu).
    assert (Hshift : forall p, S i <= p -> ((o, language) :: pairs) !! (p - i) = pairs !! (p - S i)).
    { intros p Hp. replace (p - i) with (S (p - S i)) by lia. reflexivity. }
    assert (Hci : i ∉ map fst cached').
    { intros Hin. apply list_elem_of_fmap in Hin as ([p r] & -> & Hin).
      apply Hc in Hin as (? & ? & Hle & _). cbn in Hle. lia. }
    assert (Hui : i ∉ uncached').
    { intros Hin. apply Hu in Hin as (? & ? & Hle & _). lia. }
    destruct (Dict.get (Optimized.cache_key_of language o) d) as [r0|] eqn:Eget;
      injection Hpart as <- <-.
    + split; [|split; [|split]].
      * intros p r. rewrite elem_of_cons, Hc. split.
        -- intros [[= -> ->]|(o' & l' & Hle & Hlook & Hget)].
           ++ exists o, language. rewrite Nat.sub_diag. auto.
           ++ exists o', l'. rewrite Hshift by exact Hle. split; [lia|auto].
        -- intros (o' & l' & Hle & Hlook & Hget).
           destruct (decide (p = i)) as [->|Hne].
           ++ left. rewrite Nat.sub_diag in Hlook. cbn in Hlook. simplify_eq.
              reflexivity.
           ++ right. exists o', l'. rewrite Hshift in Hlook by lia. split; [lia|auto].
      * intros p. rewrite Hu. split.
        -- intros (o' & l' & Hle & Hlook & Hget).
           exists o', l'. rewrite Hshift by exact Hle. split; [lia|auto].
        -- intros (o' & l' & Hle & Hlook & Hget).
           destruct (decide (p = i)) as [->|Hne].
           ++ rewrite Nat.sub_diag in Hlook. cbn in Hlook. simplify_eq.
           ++ exists o', l'. rewrite Hshift in Hlook by lia. split; [lia|auto].
      * cbn. apply NoDup_cons. split; assumption.
      * exact Hndu.
    + split; [|split; [|split]].
      * intros p r. rewrite Hc. split.
        -- intros (o' & l' & Hle & Hlook & Hget).
           exists o', l'. rewrite Hshift by exact Hle. split; [lia|auto].
        -- intros (o' & l' & Hle & Hlook & Hget).
           destruct (decide (p = i)) as [->|Hne].
           ++ rewrite Nat.sub_diag in Hlook. cbn in Hlook. simplify_eq.
           ++ exists o', l'. rewrite Hshift in Hlook by lia. split; [lia|auto].
      * intros p. rewrite elem_of_cons, Hu. split.
        -- intros [->|(o' & l' & Hle & Hlook & Hget)].
           ++ exists o, language. rewrite Nat.sub_diag. auto.
           ++ exists o', l'. rewrite Hshift by exact Hle. split; [lia|auto].
        -- intros (o' & l' & Hle & Hlook & Hget).
           destruct (decide (p = i)) as [->|Hne].
           ++ left. reflexivity.
           ++ right. exists o', l'. rewrite Hshift in Hlook by lia. split; [lia|auto].
      * exact Hndc.
      * apply NoDup_cons. split; assumption.
Qed.

End Partition.

Lemma lookup_combine {A B} (l : list A) (l' : list B) (i : nat) (x : A) (y : B) :
  combine l l' !! i = Some (x, y) <-> l !! i = Some x /\ l' !! i = Some y.
Proof.
  revert l' i. induction l as [|a l IH]; intros [|b l'] [|i]; cbn;
    try (split; [discriminate|intros [? ?]; discriminate]).
  - split; [intros [= -> ->]; auto|intros [[= ->] [= ->]]; reflexivity].
  - apply IH.
Qed.

Lemma map_fst_combine {A B} (l : list A) (l' : list B) :
  length l = length l' -> map fst (combine l l') = l.
Proof.
  revert l'. induction l as [|a l IH]; intros [|b l'] H; cbn in *; try discriminate.
  - reflexivity.
  - rewrite IH by lia. reflexivity.
Qed.

Section Batch.
Context `{RT : Runtime}.
Variable classify : string -> M Ollama.OllamaService outcome.
Variable P : Ollama.OllamaService -> Prop.
Variable G : outcome -> Prop.
Hypothesis classify_keeps :
  forall text gateway,
    P gateway ->
    P (snd (classify text gateway))
    /\ forall o, fst (classify text gateway) = Ok o -> G o.
Hypothesis write_keeps :
  forall key o gateway,
    P gateway -> G o ->
    P (Ollama.with_sentiment_cache (Dict.set key o (Ollama.sentiment_cache gateway)) gateway).

(** A batch of at least one text returns one slot per text.  The slot
    at [i] holds the outcome for [texts[i]]: the one cached for its
    optimised text when the batch started, or else the settled result
    of the future that classified its optimised text. *)
Theorem batch_analyze_spec (texts languages : list string)
    (svc : Optimized.OptimizedSentimentService) :
  fair_scheduler ->
  texts <> [] ->
  languages = [] \/ length languages = length texts ->
  0 < Optimized.batch_size svc ->
  P (Optimized.ollama_service svc) ->
  exists results svc',
    Optimized.batch_analyze_optimized_with classify texts languages svc = (Ok results, svc')
    /\ P (Optimized.ollama_service svc')
    /\ length results = length texts
    /\ forall i text language,
         texts !! i = Some text ->
         effective_languages texts languages !! i = Some language ->
         exists o r,
           optimized_from text language o
           /\ results !! i = Some (Some r)
           /\ let key := Optimized.cache_key_of language (Some o) in
              let d := Ollama.sentiment_cache (Optimized.ollama_service svc) in
              Dict.get key d = Some r
              \/ (Dict.get key d = None /\ settled classify P o r).
Proof.
  intros Hfair Hne Hwf Hsize HP.
  unfold Optimized.batch_analyze_optimized_with.
  fold (effective_languages texts languages).
  set (langs := effective_languages texts languages).
  assert (Hlen : length langs = length texts).
  { unfold langs, effective_languages. destruct Hwf as [->|Hwf].
    - apply repeat_length.
    - destruct languages; [destruct texts; [reflexivity|discriminate]|exact Hwf]. }
  assert (Heff : effective_languages texts langs = langs).
  { destruct langs; [destruct texts; [congruence|discriminate]|reflexivity]. }
  destruct (batch_optimize_spec texts langs (Optimized.tokenization_service svc)
              Hfair (or_intror Hlen)) as (optimized & tok' & Htok & Hopt).
  rewrite Heff in Hopt.
  assert (Hol : length optimized = length texts).
  { apply Forall2_length in Hopt. rewrite length_combine in Hopt. lia. }
  unfold bind at 1. unfold Optimized.on_tokenization. rewrite Htok.
  unfold bind at 1. unfold gets at 1.
  cbn [Optimized.ollama_service Optimized.with_tokenization].
  set (d := Ollama.sentiment_cache (Optimized.ollama_service svc)).
  set (pairs := combine (map Some optimized) langs).
  destruct (Optimized.partition_cached d 0 pairs) as [cached uncached] eqn:Epart.
  destruct (partition_spec d pairs 0 cached uncached Epart) as (Hc & Hu & Hndc & Hndu).
  assert (Hpairs : forall p o language,
             pairs !! p = Some (o, language) <->
             exists t, o = Some t /\ optimized !! p = Some t /\ langs !! p = Some language).
  { intros p o language. unfold pairs. rewrite lookup_combine, list_lookup_fmap. split.
    - intros [Hx Hy]. destruct (optimized !! p) as [t|]; [|discriminate].
      cbn in Hx. injection Hx as <-. exists t. auto.
    - intros (t & -> & Ht & Hl). rewrite Ht. auto. }
  set (filled := fold_left (fun acc (ir : nat * outcome) => <[fst ir := Some (snd ir)]> acc)
                           cached (replicate (length texts) None)).
  assert (Hfl : length filled = length texts).
  { unfold filled. rewrite (fold_insert_length Some), length_replicate. reflexivity. }
  assert (Hfin : forall p r, (p, r) ∈ cached -> p < length texts ->
                             filled !! p = Some (Some r)).
  { intros p r Hin Hp. unfold filled.
    apply (fold_insert_in Some); [exact Hndc|exact Hin|].
    rewrite length_replicate. exact Hp. }
  assert (Hfout : forall p, p ∉ map fst cached -> p < length texts ->
                            filled !! p = Some None).
  { intros p Hin Hp. unfold filled.
    rewrite (fold_insert_notin Some) by exact Hin.
    apply lookup_replicate_2. exact Hp. }
  assert (Hn : (length texts =? 0) = false).
  { apply Nat.eqb_neq. destruct texts; [congruence|cbn; lia]. }
  assert (Hslot : forall i text language,
             texts !! i = Some text -> langs !! i = Some language ->
             exists o, optimized !! i = Some o /\ optimized_from text language o
                       /\ pairs !! i = Some (Some o, language)).
  { intros i text language Ht Hl.
    destruct (lookup_lt_is_Some_2 optimized i) as [o Ho].
    { apply lookup_lt_Some in Ht. lia. }
    exists o. split; [exact Ho|]. split.
    - eapply (Forall2_lookup_lr _ _ _ i o (text, language)) in Hopt;
        [exact Hopt|exact Ho|apply lookup_combine; auto].
    - apply Hpairs. exists o. auto. }
  unfold Optimized.count_cache_hits, Optimized.count_calls_saved, Optimized.count_processed.
  unfold bind at 1. unfold modify at 1.
  unfold bind at 1. unfold modify at 1.
  match goal with
  | |- context [bind _ _ ?s] => set (svc1 := s)
  end.
  assert (HP1 : P (Optimized.ollama_service svc1)) by exact HP.
  assert (Hsize1 : 0 < Optimized.batch_size svc1) by exact Hsize.
  destruct uncached as [|u0 uncached'] eqn:Eunc.
  - (* every text is served from the cache *)
    unfold bind, ret, modify. rewrite Hn.
    eexists _, _. split; [reflexivity|]. split; [exact HP|]. split; [exact Hfl|].
    intros i text language Ht Hl.
    destruct (Hslot i text language Ht Hl) as (o & Ho & Hfrom & Hpair).
    assert (Hi : i < length texts) by (eapply lookup_lt_Some; eauto).
    destruct (Dict.get (Optimized.cache_key_of language (Some o)) d) as [r|] eqn:Eget.
    + exists o, r. split; [exact Hfrom|]. split; [|left; exact Eget].
      apply Hfin; [|exact Hi]. apply Hc. exists (Some o), language.
      rewrite Nat.sub_0_r. split; [lia|auto].
    + exfalso. assert (Hin : i ∈ @nil nat); [|apply elem_of_nil in Hin; exact Hin].
      apply Hu. exists (Some o), language. rewrite Nat.sub_0_r. split; [lia|auto].
  - (* some texts go to the gateway *)
    assert (Hunc_ne : u0 :: uncached' <> []) by discriminate.
    set (unc := u0 :: uncached') in *. clearbody unc.
    assert (Hub : Forall (fun i => i < length optimized) unc).
    { apply Forall_forall. intros p Hp. apply Hu in Hp as (o & l & _ & Hlook & _).
      rewrite Nat.sub_0_r in Hlook. apply Hpairs in Hlook as (t & _ & Ht & _).
      eapply lookup_lt_Some; eauto. }
    destruct (pick_spec optimized unc Hub) as (ts & Hts & Hts2).
    destruct (pick_spec langs unc) as (ls & Hls & Hls2).
    { rewrite Hlen, <- Hol. exact Hub. }
    assert (Htl : length ts = length unc) by (eapply Forall2_length; eauto).
    assert (Hll : length ls = length unc) by (eapply Forall2_length; eauto).
    destruct (process_uncached_spec classify P G classify_keeps write_keeps
                ts ls unc svc1 Hfair Hsize1) as (fresh & svc2 & Hrun & HP2 & Hfresh).
    { destruct ts; [destruct unc; [congruence|discriminate]|discriminate]. }
    { lia. }
    { exact HP1. }
    assert (Hfrl : length fresh = length unc).
    { apply Forall2_length in Hfresh. lia. }
    unfold bind, lift_result.
    rewrite (pick_fmap Some _ _ _ Hts), Hls, Hrun.
    unfold ret, modify. rewrite Hn.
    eexists _, _. split; [reflexivity|]. split; [exact HP2|].
    split.
    { rewrite (fold_insert_length (fun x => x)). exact Hfl. }
    intros i text language Ht Hl.
    destruct (Hslot i text language Ht Hl) as (o & Ho & Hfrom & Hpair).
    assert (Hi : i < length texts) by (eapply lookup_lt_Some; eauto).
    destruct (Dict.get (Optimized.cache_key_of language (Some o)) d) as [r|] eqn:Eget.
    + exists o, r. split; [exact Hfrom|]. split; [|left; exact Eget].
      rewrite (fold_insert_notin (fun x => x)).
      * apply Hfin; [|exact Hi]. apply Hc. exists (Some o), language.
        rewrite Nat.sub_0_r. split; [lia|auto].
      * rewrite map_fst_combine by lia.
        intros Hin. apply Hu in Hin as (o' & l' & _ & Hlook & Hget).
        rewrite Nat.sub_0_r in Hlook. congruence.
    + assert (Hin : i ∈ unc).
      { apply Hu. exists (Some o), language. rewrite Nat.sub_0_r. split; [lia|auto]. }
      apply list_elem_of_lookup in Hin as [k Hk].
      destruct (lookup_lt_is_Some_2 fresh k) as [slot Hslotk].
      { apply lookup_lt_Some in Hk. lia. }
      destruct (lookup_lt_is_Some_2 ts k) as [t Htk].
      { apply lookup_lt_Some in Hk. lia. }
      pose proof (Forall2_lookup_lr _ _ _ _ _ _ Hfresh Hslotk Htk) as (r & -> & Hset).
      pose proof (Forall2_lookup_lr _ _ _ _ _ _ Hts2 Htk Hk) as Hot.
      assert (t = o) by congruence. subst t.
      exists o, r. split; [exact Hfrom|]. split; [|right; split; [exact Eget|exact Hset]].
      apply (fold_insert_in (fun x => x)).
      * rewrite map_fst_combine by lia. exact Hndu.
      * apply list_elem_of_lookup. exists k. apply lookup_combine. auto.
      * rewrite Hfl. exact Hi.
Qed.

End Batch.

(** ** The batch orchestrator: order and failures *)

(** C1.  On an empty list of texts [batch_analyze_optimized] raises
    instead of returning an empty list: its closing log line divides
    the elapsed time by the number of texts. *)
Theorem C1_empty_batch_raises :
  forall (RT : Runtime) (languages : list string)
         (svc : Optimized.OptimizedSentimentService),
    fst (Optimized.batch_analyze_optimized [] languages svc) = Raise ZeroDivisionError.
Proof.
  intros RT languages svc. destruct languages; reflexivity.
Qed.


Lemma reference_scheduler_fair (answers : list chat_result) :
  @fair_scheduler (Reference.runtime answers Reference.reversed).
Proof.
  intros p offset n. cbn. unfold Reference.reversed.
  symmetry. apply Permutation_rev.
Qed.


(** The three texts above, with the futures completing last to first:
    the second one alone is downgraded. *)
Example flaky_batch :
  fst (@Optimized.batch_analyze_optimized_with
         (Reference.runtime [] Reference.reversed) Reference.flaky_gateway
         ["good day"; "it will crash"; "bad day"] []
         (Optimized.new_service true))
  = Ok [Some (POSITIVE, f_0_7); Some (NEUTRAL, f_0_0); Some (NEGATIVE, f_0_7)].
Proof. vm_compute. reflexivity. Qed.

(** ** The chunker *)

Lemma lstrip_all_space (s : Py.chars) : forallb Py.isspace s = true -> Py.lstrip s = [].
Proof.
  induction s as [|c s IH]; cbn; [reflexivity|].
  intros H. apply andb_prop in H as [Hc Hs]. rewrite Hc. apply IH, Hs.
Qed.

Lemma strip_all_space (s : Py.chars) : forallb Py.isspace s = true -> Py.strip s = [].
Proof.
  intros H. unfold Py.strip, Py.rstrip. rewrite (lstrip_all_space s H). reflexivity.
Qed.


Lemma gather_not_empty (self : Chunking.ChunkingService) (sentences : list Chunking.piece)
    (st : Chunking.gathering) :
  (sentences <> [] \/ Chunking.current_chunk st <> []) ->
  Chunking.current_chunk (fold_left (Chunking.gather self) sentences st) <> [].
Proof.
  revert st. induction sentences as [|sentence sentences IH]; intros st H.
  - destruct H as [H|H]; [congruence|exact H].
  - cbn [fold_left]. apply IH. right.
    unfold Chunking.gather. destruct sentence as [[sentence start_idx] end_idx].
    cbn [Chunking.current_chunk]. intros Hnil. apply app_eq_nil in Hnil as [_ Hnil].
    discriminate Hnil.
Qed.

Lemma sentences_not_empty (text : Py.chars) : Chunking._split_into_sentences text <> [].
Proof.
  unfold Chunking._split_into_sentences. cbv zeta.
  destruct (Chunking.locate_sentences _ _ _); discriminate.
Qed.

(** Cut by sentences, every text gives at least one chunk. *)
Lemma by_sentences_not_empty (self : Chunking.ChunkingService) (text : Py.chars) :
  1 <= length (Chunking._chunk_by_sentences self text).
Proof.
  unfold Chunking._chunk_by_sentences. cbv zeta.
  pose proof (gather_not_empty self (Chunking._split_into_sentences text)
                {| Chunking.chunks := []; Chunking.current_chunk := [];
                   Chunking.current_length := 0; Chunking.current_start := 0 |}
                (or_introl (sentences_not_empty text))) as H.
  destruct (Chunking.current_chunk _) as [|w ws]; [congruence|].
  cbn [length Nat.eqb negb]. rewrite List.length_app. cbn. lia.
Qed.

Lemma with_metadata_length (total i : nat) (chunks : list Chunking.piece) :
  length (Chunking.with_metadata total i chunks) = length chunks.
Proof.
  revert i. induction chunks as [|[[t a] b] chunks IH]; intros i; cbn; [reflexivity|].
  rewrite IH. reflexivity.
Qed.



(** ** The parse ladder *)

Lemma fenced_reply_array :
  Ollama.first_array_span
    (Ollama.strip_closing_fence (Ollama.strip_json_fences (Py.of_str Reference.fenced_reply)))
  = Some (Py.of_str Reference.positive_array).
Proof. vm_compute. reflexivity. Qed.

(** C9.  When the model answers a single-item batch with the JSON array
    of one positive result with confidence 0.9, wrapped in a json code
    fence, stripping the fence markers leaves a text from which the
    array is extracted, and the batch call yields Positive with
    confidence 0.9. *)
Theorem C9_fenced_json_batch :
  forall (RT : Runtime) (svc : Ollama.OllamaService) (text : string)
         (thoughts : option string),
    Ollama.client svc = true ->
    chat (length (Ollama.remote_calls svc))
         (BatchSentimentPrompt [Ollama.str_prefix 500 text])
    = ChatReturns (Some {| content := Some Reference.fenced_reply; thinking := thoughts |}) ->
    json_loads Reference.positive_array
    = Ok (JList [JDict [("sentiment", JStr "positive"); ("confidence", JFloat f_0_9)]]) ->
    Py.to_str (Ollama.strip_closing_fence
                 (Ollama.strip_json_fences (Py.of_str Reference.fenced_reply)))
    = String.append Reference.positive_array Reference.nl
    /\ fst (Ollama._extract_json_from_response Reference.fenced_reply svc)
       = Ok Reference.positive_array
    /\ fst (Ollama._batch_sentiment_api_call [text] svc) = Ok [(POSITIVE, f_0_9)].
Proof.
  intros RT svc text thoughts Hclient Hchat Hjson.
  assert (Hextract : forall s,
             fst (Ollama._extract_json_from_response Reference.fenced_reply s)
             = Ok Reference.positive_array).
  { intros s. unfold Ollama._extract_json_from_response, bind, gets, lift_result.
    cbn [fst]. unfold Ollama.try_patterns, Ollama.try_candidate.
    rewrite fenced_reply_array.
    change (Py.to_str (Py.of_str Reference.positive_array)) with Reference.positive_array.
    rewrite Hjson. reflexivity. }
  split; [vm_compute; reflexivity|]. split; [apply Hextract|].
  unfold Ollama._batch_sentiment_api_call, Ollama.batch_reply.
  unfold bind at 1. unfold try_except at 1. unfold bind at 1.
  unfold Ollama.client_chat. cbn [map]. rewrite Hclient, Hchat.
  unfold bind at 1. unfold modify at 1.
  unfold try_except at 1. unfold bind at 1. cbn [content].
  unfold lift_result at 1, Ollama.getitem.
  change (Py.str_strip Reference.fenced_reply) with Reference.fenced_reply.
  unfold bind at 1.
  match goal with
  | |- context [Ollama._extract_json_from_response Reference.fenced_reply ?s] =>
      pose proof (Hextract s) as He; pose proof (extract_json_state Reference.fenced_reply s) as Hs;
      destruct (Ollama._extract_json_from_response Reference.fenced_reply s) as [r s']
  end.
  cbn [fst snd] in He, Hs. subst r s'.
  change (String.eqb Reference.positive_array "") with false. cbv iota.
  unfold bind, lift_result, ret. rewrite Hjson. cbn [Ollama.json_iter map_r].
  unfold and_then. cbn [Ollama.parse_result Ollama.json_get Dict.get_default Dict.get].
  vm_compute. reflexivity.
Qed.

Lemma C9_witness :
  fst (@Ollama._batch_sentiment_api_call
         (Reference.runtime [Reference.reply Reference.fenced_reply] Reference.in_order)
         ["great stuff"] (Ollama.new_service true))
  = Ok [(POSITIVE, f_0_9)].
Proof.
  apply (C9_fenced_json_batch
           (Reference.runtime [Reference.reply Reference.fenced_reply] Reference.in_order)
           (Ollama.new_service true) "great stuff" None).
  - reflexivity.
  - reflexivity.
  - vm_compute. reflexivity.
Defined.

(** ** Translation *)



(** ** Confidence of every outcome *)

Lemma insert_by_index_Forall {A} (Q : nat * A -> Prop) (x : nat * A) (l : list (nat * A)) :
  Q x -> Forall Q l -> Forall Q (Ollama.insert_by_index x l).
Proof.
  intros Hx Hl. induction Hl as [|y l Hy Hl IH]; cbn.
  - constructor; [exact Hx|constructor].
  - destruct (fst y <=? fst x); constructor; auto.
Qed.

Lemma sort_by_index_Forall {A} (Q : nat * A -> Prop) (l : list (nat * A)) :
  Forall Q l -> Forall Q (Ollama.sort_by_index l).
Proof.
  unfold Ollama.sort_by_index.
  assert (H : forall acc, Forall Q acc -> Forall Q l ->
                          Forall Q (fold_left (fun acc x => Ollama.insert_by_index x acc) l acc)).
  { induction l as [|x l IH]; intros acc Hacc Hl; cbn; [exact Hacc|].
    apply Forall_cons in Hl as [Hx Hl].
    apply IH; [apply insert_by_index_Forall; assumption|exact Hl]. }
  intros Hl. apply H; [constructor|exact Hl].
Qed.

Section Confidence.
Context `{RT : Runtime}.

Lemma partition_cached_good (d : Dict.t outcome) (texts : list string) :
  cache_in_range d ->
  forall i, Forall (fun ir => good_outcome (snd ir))
                   (fst (Ollama.partition_cached d i texts)).
Proof.
  intros Hd. induction texts as [|text texts IH]; intros i; cbn; [constructor|].
  specialize (IH (S i)).
  destruct (Ollama.partition_cached d (S i) texts) as [cached uncached].
  destruct (Dict.get _ d) as [r|] eqn:E; cbn in *; [|exact IH].
  constructor; [|exact IH].
  apply (get_Forall (fun kv => good_outcome (snd kv)) _ _ _ Hd E).
Qed.

Lemma Forall_combine_snd {A B} (Q : B -> Prop) (l : list A) (l' : list B) :
  Forall Q l' -> Forall (fun ir => Q (snd ir)) (combine l l').
Proof.
  intros H. revert l. induction H as [|y l' Hy Hl IH]; intros [|x l]; cbn; constructor; auto.
Qed.

Lemma store_all_good (pairs : list (string * outcome)) :
  Forall (fun tr => good_outcome (snd tr)) pairs ->
  triple (fun svc => cache_in_range (Ollama.sentiment_cache svc))
         (for_each (fun tr => Ollama.store_sentiment
                                (Ollama._get_cache_key (fst tr) "sentiment") (snd tr)) pairs)
         (fun r svc => cache_in_range (Ollama.sentiment_cache svc) /\ r = Ok tt).
Proof.
  induction 1 as [|tr pairs Htr _ IH]; cbn [for_each].
  - apply triple_ret. auto.
  - eapply triple_bind with
      (R := fun r svc => cache_in_range (Ollama.sentiment_cache svc) /\ r = Ok tt).
    + intros svc Hc. split; [|reflexivity].
      apply store_sentiment_in_range; assumption.
    + intros []. eapply triple_weaken; [apply IH|intros s [Hc _]; exact Hc|auto].
    + intros e s [_ He]. discriminate He.
Qed.

(** [batch_analyze_sentiment] never raises; what it returns has
    confidences in range. *)
Lemma batch_analyze_sentiment_good (texts : list string) :
  triple (fun svc => cache_in_range (Ollama.sentiment_cache svc))
         (Ollama.batch_analyze_sentiment texts)
         (fun r svc => cache_in_range (Ollama.sentiment_cache svc)
                       /\ exists results, r = Ok results /\ Forall good_outcome results).
Proof.
  unfold Ollama.batch_analyze_sentiment.
  destruct texts as [|text0 texts0]; [apply triple_ret; intros s Hc; split;
                                       [exact Hc|exists []; split; [reflexivity|constructor]]|].
  cbv beta iota. set (texts := text0 :: texts0). clearbody texts.
  intros svc Hc. unfold bind, gets. cbv beta iota.
  pose proof (partition_cached_good (Ollama.sentiment_cache svc) texts Hc 0) as Hcached.
  destruct (Ollama.partition_cached (Ollama.sentiment_cache svc) 0 texts)
    as [cached uncached]. cbn [fst] in Hcached.
  assert (Hfinish : forall fresh s,
             cache_in_range (Ollama.sentiment_cache s) ->
             Forall (fun ir : nat * outcome => good_outcome (snd ir)) fresh ->
             cache_in_range (Ollama.sentiment_cache s)
             /\ exists results,
                  Ok (map snd (Ollama.sort_by_index (cached ++ fresh))) = Ok results
                  /\ Forall good_outcome results).
  { intros fresh s Hs Hfresh. split; [exact Hs|]. eexists. split; [reflexivity|].
    apply Forall_fmap.
    apply (sort_by_index_Forall (fun ir => good_outcome (snd ir))).
    apply Forall_app_2; assumption. }
  destruct (negb (length (map snd uncached) =? 0) && Ollama.client svc).
  - pose proof (batch_api_call_good (map snd uncached) svc Hc)
      as [Hc1 (results & Hr & Hgood)].
    destruct (Ollama._batch_sentiment_api_call (map snd uncached) svc) as [r1 svc1].
    cbn [fst snd] in *. subst r1.
    pose proof (store_all_good (combine (map snd uncached) results)
                  (Forall_combine_snd good_outcome _ _ Hgood) svc1 Hc1) as [Hc2 Hok].
    destruct (for_each _ _ svc1) as [r2 svc2]. cbn [fst snd] in *. subst r2.
    cbn [ret fst snd]. apply Hfinish; [exact Hc2|].
    apply Forall_combine_snd, Hgood.
  - cbn [ret fst snd]. apply Hfinish; [exact Hc|].
    apply Forall_combine_snd. apply Forall_fmap, Forall_forall.
    intros t _. apply fallback_in_range.
Qed.

End Confidence.

Section OrchestratorConfidence.
Context `{RT : Runtime}.

Lemma write_through_in_range (key : string) (o : outcome) (gateway : Ollama.OllamaService) :
  cache_in_range (Ollama.sentiment_cache gateway) -> good_outcome o ->
  cache_in_range
    (Ollama.sentiment_cache
       (Ollama.with_sentiment_cache (Dict.set key o (Ollama.sentiment_cache gateway)) gateway)).
Proof. intros Hc Ho. cbn. apply Forall_set; assumption. Qed.

(** [analyze_sentiment_optimized] with a classifier that keeps the cache
    in range and returns confidences in range: it returns what the
    classifier does, or a cached outcome. *)
Lemma analyze_optimized_with_good (classify : string -> M Ollama.OllamaService outcome)
    (text language : string) (svc : Optimized.OptimizedSentimentService) :
  (forall t gateway,
      cache_in_range (Ollama.sentiment_cache gateway) ->
      cache_in_range (Ollama.sentiment_cache (snd (classify t gateway)))
      /\ exists o, fst (classify t gateway) = Ok o /\ good_outcome o) ->
  cache_in_range (Ollama.sentiment_cache (Optimized.ollama_service svc)) ->
  exists o svc',
    Optimized.analyze_sentiment_optimized_with classify text language svc = (Ok o, svc')
    /\ good_outcome o
    /\ cache_in_range (Ollama.sentiment_cache (Optimized.ollama_service svc')).
Proof.
  intros Hclassify Hc.
  unfold Optimized.analyze_sentiment_optimized_with, bind, gets, Optimized.on_tokenization.
  destruct (optimize_total text language (Optimized.tokenization_service svc)) as [o Ho].
  destruct (Tokenization.optimize_text_for_analysis text language
              (Optimized.tokenization_service svc)) as [r tok].
  cbn [fst] in Ho. subst r. cbn [Optimized.with_tokenization Optimized.ollama_service].
  destruct (Dict.get _ _) as [cached|] eqn:Hget.
  - eexists _, _. split; [reflexivity|]. split; [|exact Hc].
    apply (get_Forall (fun kv => good_outcome (snd kv)) _ _ _ Hc Hget).
  - unfold Optimized.on_ollama.
    change (Optimized.ollama_service (Optimized.with_tokenization tok svc))
      with (Optimized.ollama_service svc).
    destruct (Hclassify o (Optimized.ollama_service svc) Hc) as [Hc' (r & Hr & Hgood)].
    destruct (classify o (Optimized.ollama_service svc)) as [res gateway].
    cbn [fst snd] in *. subst res.
    eexists _, _. split; [reflexivity|]. split; [exact Hgood|].
    cbn. apply Forall_set; assumption.
Qed.

Lemma gateway_keeps (t : string) (gateway : Ollama.OllamaService) :
  cache_in_range (Ollama.sentiment_cache gateway) ->
  cache_in_range (Ollama.sentiment_cache (snd (Ollama.analyze_sentiment t gateway)))
  /\ exists o, fst (Ollama.analyze_sentiment t gateway) = Ok o /\ good_outcome o.
Proof. intros Hc. exact (analyze_sentiment_good t gateway Hc). Qed.

(** A batch: every slot holds an outcome with a confidence in range, or
    Neutral with confidence 0.0 where the classifier raised. *)
Lemma batch_optimized_with_good (classify : string -> M Ollama.OllamaService outcome)
    (texts languages : list string) (svc : Optimized.OptimizedSentimentService) :
  (forall t gateway,
      cache_in_range (Ollama.sentiment_cache gateway) ->
      cache_in_range (Ollama.sentiment_cache (snd (classify t gateway)))
      /\ forall o, fst (classify t gateway) = Ok o -> good_outcome o) ->
  fair_scheduler ->
  texts <> [] ->
  languages = [] \/ length languages = length texts ->
  0 < Optimized.batch_size svc ->
  cache_in_range (Ollama.sentiment_cache (Optimized.ollama_service svc)) ->
  exists results svc',
    Optimized.batch_analyze_optimized_with classify texts languages svc = (Ok results, svc')
    /\ cache_in_range (Ollama.sentiment_cache (Optimized.ollama_service svc'))
    /\ length results = length texts
    /\ forall i slot,
         results !! i = Some slot ->
         exists o, slot = Some o
                   /\ (good_outcome o
                       \/ (o = (NEUTRAL, f_0_0)
                           /\ exists t gateway e,
                                cache_in_range (Ollama.sentiment_cache gateway)
                                /\ fst (classify t gateway) = Raise e)).
Proof.
  intros Hclassify Hfair Hne Hwf Hsize Hc.
  destruct (batch_analyze_spec classify
              (fun g => cache_in_range (Ollama.sentiment_cache g)) good_outcome
              Hclassify
              ltac:(intros key o g Hg Ho; apply write_through_in_range; assumption)
              texts languages svc Hfair Hne Hwf Hsize Hc)
    as (results & svc' & Hrun & Hc' & Hlen & Hall).
  exists results, svc'. split; [exact Hrun|]. split; [exact Hc'|]. split; [exact Hlen|].
  intros i slot Hslot.
  assert (Hi : i < length texts).
  { rewrite <- Hlen. apply lookup_lt_Some in Hslot. exact Hslot. }
  destruct (lookup_lt_is_Some_2 texts i Hi) as [text Htext].
  assert (Hl : exists language, effective_languages texts languages !! i = Some language).
  { apply lookup_lt_is_Some_2. unfold effective_languages.
    destruct Hwf as [->|Hwf].
    - rewrite repeat_length. exact Hi.
    - destruct languages; [destruct texts; [cbn in Hi; lia|discriminate Hwf]|].
      rewrite Hwf. exact Hi. }
  destruct Hl as [language Hl].
  destruct (Hall i text language Htext Hl) as (o & r & _ & Hres & Hcase).
  rewrite Hslot in Hres. injection Hres as ->. exists r. split; [reflexivity|].
  cbv zeta in Hcase. destruct Hcase as [Hhit|[_ (gateway & Hg & ->)]].
  - left. apply (get_Forall (fun kv => good_outcome (snd kv)) _ _ _ Hc Hhit).
  - destruct (fst (classify o gateway)) as [o'|e] eqn:E; cbn [settle].
    + left. apply (proj2 (Hclassify o gateway Hg)), E.
    + right. split; [reflexivity|]. exists o, gateway, e. split; [exact Hg|exact E].
Qed.

End OrchestratorConfidence.

(** What the model reports is clamped: 0.0 and -5 become 0.5, and 1.0
    becomes 0.95. *)
Example clamp_reported :
  Ollama.clamp (Py.Fin 0) = f_0_5
  /\ Ollama.clamp (Py.Fin 1) = f_0_95
  /\ Ollama.clamp (Py.Fin (-5 # 1)) = f_0_5
  /\ Ollama.clamp Py.NaN = f_0_95.
Proof. vm_compute. repeat split; reflexivity. Qed.

(** The older front end returns Neutral with confidence 0.0 for a text
    that is empty once trimmed, without asking the gateway. *)
Lemma empty_text_outcome `{RT : Runtime} (text : string) (svc : Sentiment.SentimentService) :
  Sentiment._preprocess_text text = "" ->
  Sentiment.analyze_sentiment text svc = (Ok (NEUTRAL, f_0_0), svc).
Proof. intros H. unfold Sentiment.analyze_sentiment. rewrite H. reflexivity. Qed.

(** C2, counterexample.  Two outcomes with confidence 0.0, outside
    [0.5, 0.95]: the batch slot of a text whose worker raised, and the
    outcome of [SentimentService.analyze_sentiment] for the empty
    text. *)
Lemma C2_counterexample :
  fst (@Optimized.batch_analyze_optimized_with
         (Reference.runtime [] Reference.in_order) Reference.flaky_gateway
         ["good day"; "it will crash"; "bad day"] []
         (Optimized.new_service true))
  = Ok [Some (POSITIVE, f_0_7); Some (NEUTRAL, f_0_0); Some (NEGATIVE, f_0_7)]
  /\ fst (@Sentiment.analyze_sentiment (Reference.runtime [] Reference.in_order)
            "" (Sentiment.new_service true))
     = Ok (NEUTRAL, f_0_0)
  /\ ~ in_confidence_range (snd (NEUTRAL, f_0_0)).
Proof.
  split; [vm_compute; reflexivity|].
  split; [vm_compute; reflexivity|].
  exact zero_not_in_range.
Qed.

(** C2, amended.  From a cache whose confidences lie in [0.5, 0.95]
    (the empty cache of a new service is one), and whatever the model
    replies: [analyze_sentiment], [batch_analyze_sentiment] and
    [analyze_sentiment_optimized] return, with confidences in
    [0.5, 0.95], and leave such a cache behind; so does
    [batch_analyze_optimized] on at least one text, in every slot.
    With a classifier that may raise, a slot of the batch holds a
    confidence in range or else Neutral with confidence 0.0, and the
    latter only if the classifier can raise.
    [SentimentService.analyze_sentiment] returns a confidence in range,
    or Neutral with 0.0 for a text that is empty once preprocessed. *)
Theorem C2_confidence_in_range_or_zero :
  forall (RT : Runtime) (svc : Optimized.OptimizedSentimentService),
    let in_range (s : Ollama.OllamaService) := cache_in_range (Ollama.sentiment_cache s) in
    in_range (Optimized.ollama_service svc) ->
    (forall text, exists o s',
        Ollama.analyze_sentiment text (Optimized.ollama_service svc) = (Ok o, s')
        /\ good_outcome o /\ in_range s')
    /\ (forall texts, exists results s',
          Ollama.batch_analyze_sentiment texts (Optimized.ollama_service svc) = (Ok results, s')
          /\ Forall good_outcome results /\ in_range s')
    /\ (forall text language, exists o svc',
          Optimized.analyze_sentiment_optimized text language svc = (Ok o, svc')
          /\ good_outcome o /\ in_range (Optimized.ollama_service svc'))
    /\ (forall texts languages,
          fair_scheduler -> texts <> [] ->
          languages = [] \/ length languages = length texts ->
          0 < Optimized.batch_size svc ->
          exists results svc',
            Optimized.batch_analyze_optimized texts languages svc = (Ok results, svc')
            /\ length results = length texts
            /\ Forall (fun slot => exists o, slot = Some o /\ good_outcome o) results
            /\ in_range (Optimized.ollama_service svc'))
    /\ (forall classify texts languages,
          (forall t gateway,
              in_range gateway ->
              in_range (snd (classify t gateway))
              /\ forall o, fst (classify t gateway) = Ok o -> good_outcome o) ->
          fair_scheduler -> texts <> [] ->
          languages = [] \/ length languages = length texts ->
          0 < Optimized.batch_size svc ->
          exists results svc',
            Optimized.batch_analyze_optimized_with classify texts languages svc
            = (Ok results, svc')
            /\ length results = length texts
            /\ Forall (fun slot =>
                         exists o, slot = Some o
                                   /\ (good_outcome o
                                       \/ (o = (NEUTRAL, f_0_0)
                                           /\ exists t gateway e,
                                                in_range gateway
                                                /\ fst (classify t gateway) = Raise e)))
                      results
            /\ in_range (Optimized.ollama_service svc'))
    /\ (forall text, exists o s',
          Sentiment.analyze_sentiment text
            {| Sentiment.ollama_service := Optimized.ollama_service svc |} = (Ok o, s')
          /\ (good_outcome o
              \/ (o = (NEUTRAL, f_0_0) /\ Sentiment._preprocess_text text = ""))
          /\ in_range (Sentiment.ollama_service s')).
Proof.
  intros RT svc in_range Hc.
  assert (Hwith : forall classify texts languages,
             (forall t gateway,
                 in_range gateway ->
                 in_range (snd (classify t gateway))
                 /\ forall o, fst (classify t gateway) = Ok o -> good_outcome o) ->
             fair_scheduler -> texts <> [] ->
             languages = [] \/ length languages = length texts ->
             0 < Optimized.batch_size svc ->
             exists results svc',
               Optimized.batch_analyze_optimized_with classify texts languages svc
               = (Ok results, svc')
               /\ length results = length texts
               /\ Forall (fun slot =>
                            exists o, slot = Some o
                                      /\ (good_outcome o
                                          \/ (o = (NEUTRAL, f_0_0)
                                              /\ exists t gateway e,
                                                   in_range gateway
                                                   /\ fst (classify t gateway) = Raise e)))
                         results
               /\ in_range (Optimized.ollama_service svc')).
  { intros classify texts languages Hclassify Hfair Hne Hwf Hsize.
    destruct (batch_optimized_with_good classify texts languages svc
                Hclassify Hfair Hne Hwf Hsize Hc)
      as (results & svc' & Hrun & Hc' & Hlen & Hall).
    exists results, svc'. split; [exact Hrun|]. split; [exact Hlen|]. split; [|exact Hc'].
    apply Forall_lookup. exact Hall. }
  split; [|split; [|split; [|split; [|split; [exact Hwith|]]]]].
  - intros text.
    destruct (analyze_sentiment_good text _ Hc) as [Hc' (o & Ho & Hgood)].
    destruct (Ollama.analyze_sentiment text (Optimized.ollama_service svc)) as [r s'].
    cbn [fst snd] in *. subst r. exists o, s'. auto.
  - intros texts.
    destruct (batch_analyze_sentiment_good texts _ Hc) as [Hc' (rs & Hr & Hgood)].
    destruct (Ollama.batch_analyze_sentiment texts (Optimized.ollama_service svc)) as [r s'].
    cbn [fst snd] in *. subst r. exists rs, s'. auto.
  - intros text language.
    apply analyze_optimized_with_good; [|exact Hc].
    intros t gateway Hg. apply gateway_keeps, Hg.
  - intros texts languages Hfair Hne Hwf Hsize.
    destruct (Hwith Ollama.analyze_sentiment texts languages) as
      (results & svc' & Hrun & Hlen & Hall & Hc'); try assumption.
    { intros t gateway Hg. destruct (gateway_keeps t gateway Hg) as [Hk (o & Ho & Hgood)].
      split; [exact Hk|]. intros o' Ho'. rewrite Ho in Ho'. injection Ho' as <-. exact Hgood. }
    exists results, svc'. split; [exact Hrun|]. split; [exact Hlen|]. split; [|exact Hc'].
    eapply Forall_impl; [exact Hall|].
    intros slot (o & -> & [Hgood|[_ (t & gateway & e & Hg & He)]]).
    + exists o. auto.
    + destruct (gateway_keeps t gateway Hg) as [_ (o' & Ho' & _)].
      rewrite Ho' in He. discriminate He.
  - intros text. unfold Sentiment.analyze_sentiment.
    destruct (String.eqb (Sentiment._preprocess_text text) "") eqn:E.
    + apply String.eqb_eq in E. eexists _, _. split; [reflexivity|]. split; [|exact Hc].
      right. auto.
    + unfold Sentiment.on_ollama. cbn [Sentiment.ollama_service].
      destruct (analyze_sentiment_good (Sentiment._preprocess_text text) _ Hc)
        as [Hc' (o & Ho & Hgood)].
      destruct (Ollama.analyze_sentiment _ (Optimized.ollama_service svc)) as [r s'].
      cbn [fst snd] in *. subst r. eexists _, _. split; [reflexivity|]. auto.
Qed.

Lemma C2_witness :
  (exists o s',
      @Ollama.analyze_sentiment
        (Reference.runtime [Reference.reported "-5"] Reference.reversed) "fine"
        (Optimized.ollama_service (Optimized.new_service true)) = (Ok o, s')
      /\ good_outcome o /\ cache_in_range (Ollama.sentiment_cache s'))
  /\ (exists results svc',
        @Optimized.batch_analyze_optimized
          (Reference.runtime [Reference.reported "-5"] Reference.reversed)
          ["good day"; "bad day"] [] (Optimized.new_service true) = (Ok results, svc')
        /\ length results = 2
        /\ Forall (fun slot => exists o, slot = Some o /\ good_outcome o) results
        /\ cache_in_range (Ollama.sentiment_cache (Optimized.ollama_service svc'))).
Proof.
  destruct (C2_confidence_in_range_or_zero
              (Reference.runtime [Reference.reported "-5"] Reference.reversed)
              (Optimized.new_service true))
    as (H1 & _ & _ & H4 & _).
  - constructor.
  - split; [apply H1|].
    apply (H4 ["good day"; "bad day"] []).
    + apply reference_scheduler_fair.
    + discriminate.
    + left. reflexivity.
    + apply Nat.ltb_lt. reflexivity.
Defined.

(** The model reports -5, 0.0 and 1.0 for a text: the gateway returns
    0.5, 0.5 and 0.95. *)
Example reported_confidence_is_clamped :
  map (fun confidence =>
         fst (@Ollama.analyze_sentiment
                (Reference.runtime [Reference.reported confidence] Reference.in_order)
                "fine" (Ollama.new_service true)))
      ["-5"; "0.0"; "1.0"]
  = [Ok (POSITIVE, f_0_5); Ok (POSITIVE, f_0_5); Ok (POSITIVE, f_0_95)].
Proof. vm_compute. reflexivity. Qed.

(** ** The size of the sentiment cache *)

(** Every insertion of the gateway itself goes through
    [_manage_cache_size] and keeps the bound ([managed_insert_bound]).
    The orchestrator writes to the same cache directly. *)
Lemma write_through_grows `{RT : Runtime} (svc : Optimized.OptimizedSentimentService)
    (key : string) (o : outcome) :
  Dict.get key (Ollama.sentiment_cache (Optimized.ollama_service svc)) = None ->
  let svc' := snd (Optimized.write_through key o svc) in
  Dict.len (Ollama.sentiment_cache (Optimized.ollama_service svc'))
  = S (Dict.len (Ollama.sentiment_cache (Optimized.ollama_service svc)))
  /\ Ollama.max_cache_size (Optimized.ollama_service svc')
     = Ollama.max_cache_size (Optimized.ollama_service svc).
Proof.
  intros Hmiss. split; [|reflexivity].
  cbn [snd Optimized.write_through modify Optimized.with_ollama Optimized.ollama_service
       Ollama.with_sentiment_cache Ollama.sentiment_cache].
  rewrite len_set. unfold Dict.mem. rewrite Hmiss. reflexivity.
Qed.

(** C3.  A new service with no client is given the 1001 texts [0] to
    [1000] in one batch.  Afterwards the sentiment cache holds 1001
    entries, one more than its bound of 1000: nothing was evicted. *)
Theorem C3_write_through_exceeds_bound :
  let svc' :=
    snd (@Optimized.batch_analyze_optimized (Reference.runtime [] Reference.in_order)
           (Reference.numbered 1001) [] (Optimized.new_service false)) in
  Dict.len (Ollama.sentiment_cache (Optimized.ollama_service svc')) = 1001
  /\ Ollama.max_cache_size (Optimized.ollama_service svc') = 1000.
Proof. vm_compute. split; reflexivity. Qed.

(** ** A text that occurs twice *)

Lemma calls_for_app (text : string) (calls more : list request) :
  sentiment_calls_for text (calls ++ more)
  = sentiment_calls_for text calls + sentiment_calls_for text more.
Proof. unfold sentiment_calls_for. rewrite List.filter_app, List.length_app. reflexivity. Qed.

Lemma calls_for_own (text : string) :
  sentiment_calls_for text [SentimentPrompt text] = 1.
Proof. unfold sentiment_calls_for. cbn. rewrite String.eqb_refl. reflexivity. Qed.

Section Repeated.
Context `{RT : Runtime}.

(** A text whose outcome is in the gateway cache: the cached outcome,
    no remote call, no change of state. *)
Lemma analyze_cached (text : string) (o : outcome) (svc : Ollama.OllamaService) :
  Dict.get (Ollama._get_cache_key text "sentiment") (Ollama.sentiment_cache svc) = Some o ->
  Ollama.analyze_sentiment text svc = (Ok o, svc).
Proof.
  intros H. unfold Ollama.analyze_sentiment, try_except, bind, gets. cbv beta zeta.
  rewrite H. reflexivity.
Qed.

(** With a client and without a cached outcome the model is asked. *)
Lemma analyze_uncached_calls (text : string) (svc : Ollama.OllamaService) :
  Ollama.client svc = true ->
  Dict.get (Ollama._get_cache_key text "sentiment") (Ollama.sentiment_cache svc) = None ->
  exists rest,
    Ollama.remote_calls (snd (Ollama.analyze_sentiment text svc))
    = Ollama.remote_calls svc ++ SentimentPrompt text :: rest.
Proof.
  intros Hclient Hmiss.
  unfold Ollama.analyze_sentiment, try_except, bind, gets, ret, raise, lift_result,
    Ollama.client_chat, Ollama._initialize_client, Ollama.store_sentiment, modify,
    Ollama.getitem.
  cbv beta zeta. rewrite Hmiss, Hclient. cbn [negb].
  repeat (break_inner; cbn [fst snd negb Ollama.client Ollama.with_client Ollama.with_call
                            Ollama.remote_calls Ollama.with_sentiment_cache] in *;
          try discriminate).
  all: simplify_eq.
  all: cbn [fst snd Ollama.client Ollama.with_client Ollama.with_call
            Ollama.remote_calls Ollama.with_sentiment_cache].
  all: try (exists []; reflexivity).
  all: try (exists [SentimentPrompt text]; rewrite <- app_assoc; reflexivity).
Qed.

End Repeated.

(** C4, counterexample.  A batch of twenty texts with the same string
    at 3 and 11, on a new service; the model times out eleven times and
    then answers.  The two positions get different outcomes, and the
    model was asked twice about the text. *)
Lemma C4_counterexample :
  Reference.repeated_batch !! 3 = Some "good value"
  /\ Reference.repeated_batch !! 11 = Some "good value"
  /\ exists results svc',
       @Optimized.batch_analyze_optimized
         (Reference.runtime Reference.late_answer Reference.in_order)
         Reference.repeated_batch [] (Optimized.new_service true) = (Ok results, svc')
       /\ results !! 3 = Some (Some (POSITIVE, f_0_7))
       /\ results !! 11 = Some (Some (NEGATIVE, f_0_9))
       /\ sentiment_calls_for "good value"
            (Ollama.remote_calls (Optimized.ollama_service svc')) = 2.
Proof.
  split; [reflexivity|]. split; [reflexivity|].
  eexists _, _. split; [vm_compute; reflexivity|].
  split; [reflexivity|]. split; [reflexivity|]. vm_compute. reflexivity.
Qed.

(** C4, amended.  The batch gives every uncached position a worker of
    its own, and what two workers for the same text do is decided by
    the gateway cache.  A worker whose text has a cached outcome returns
    it, asks nothing and changes nothing.  When the first worker is
    answered with a reply that parses, the reply is cached: the model
    was asked once, and a second worker returns the identical outcome
    without a call.  When the first worker's call fails, it returns the
    keyword outcome and caches nothing: a second worker asks the model
    again. *)
Theorem C4_repeated_text_shares_cached_outcome :
  forall (RT : Runtime) (text : string) (svc : Ollama.OllamaService),
    let key := Ollama._get_cache_key text "sentiment" in
    let asked (s : Ollama.OllamaService) :=
      sentiment_calls_for text (Ollama.remote_calls s) in
    (forall o,
        Dict.get key (Ollama.sentiment_cache svc) = Some o ->
        Ollama.analyze_sentiment text svc = (Ok o, svc))
    /\ (forall msg c parsed r,
          Ollama.client svc = true ->
          Dict.get key (Ollama.sentiment_cache svc) = None ->
          chat (length (Ollama.remote_calls svc)) (SentimentPrompt text)
          = ChatReturns (Some msg) ->
          content msg = Some c ->
          json_loads (Py.str_strip c) = Ok parsed ->
          Ollama.parse_result parsed = Ok r ->
          exists svc1,
            Ollama.analyze_sentiment text svc = (Ok r, svc1)
            /\ asked svc1 = asked svc + 1
            /\ Ollama.analyze_sentiment text svc1 = (Ok r, svc1))
    /\ (forall err,
          Ollama.client svc = true ->
          Dict.get key (Ollama.sentiment_cache svc) = None ->
          chat (length (Ollama.remote_calls svc)) (SentimentPrompt text) = ChatRaises err ->
          Ollama.is_auth_error (RemoteError err) = false ->
          exists svc1,
            Ollama.analyze_sentiment text svc = (Ok (Fallback._fallback_sentiment text), svc1)
            /\ Ollama.sentiment_cache svc1 = Ollama.sentiment_cache svc
            /\ asked svc1 = asked svc + 1
            /\ asked svc + 2 <= asked (snd (Ollama.analyze_sentiment text svc1))).
Proof.
  intros RT text svc key asked.
  split; [intros o H; apply analyze_cached, H|]. split.
  - intros msg c parsed r Hclient Hmiss Hchat Hcontent Hjson Hparse.
    eexists. split; [|split].
    + unfold Ollama.analyze_sentiment, try_except, bind, gets, ret, lift_result,
        Ollama.client_chat, Ollama.store_sentiment, modify, Ollama.getitem.
      cbv beta zeta. fold key. rewrite Hmiss.
      repeat first [rewrite Hclient | rewrite Hchat | rewrite Hcontent | rewrite Hjson
                   | rewrite Hparse | progress cbn [fst snd negb]].
      reflexivity.
    + unfold asked. cbn [Ollama.remote_calls Ollama.with_sentiment_cache Ollama.with_call].
      rewrite calls_for_app, calls_for_own. reflexivity.
    + apply analyze_cached.
      cbn [Ollama.sentiment_cache Ollama.with_sentiment_cache]. apply get_set_eq.
  - intros err Hclient Hmiss Hchat Hauth.
    exists (Ollama.with_call (SentimentPrompt text) svc).
    assert (Hrun : Ollama.analyze_sentiment text svc
                   = (Ok (Fallback._fallback_sentiment text),
                      Ollama.with_call (SentimentPrompt text) svc)).
    { unfold Ollama.analyze_sentiment, try_except, bind, gets, ret, lift_result,
        Ollama.client_chat, Ollama.store_sentiment, modify, Ollama.getitem.
      cbv beta zeta. fold key. rewrite Hmiss.
      repeat first [rewrite Hclient | rewrite Hchat | rewrite Hauth
                   | progress cbn [fst snd negb]].
      reflexivity. }
    split; [exact Hrun|]. split; [reflexivity|].
    assert (Hasked : asked (Ollama.with_call (SentimentPrompt text) svc) = asked svc + 1).
    { unfold asked. cbn [Ollama.remote_calls Ollama.with_call].
      rewrite calls_for_app, calls_for_own. reflexivity. }
    split; [exact Hasked|].
    destruct (analyze_uncached_calls text (Ollama.with_call (SentimentPrompt text) svc))
      as [rest Hrest]; [exact Hclient|exact Hmiss|].
    unfold asked in *. rewrite Hrest.
    change (SentimentPrompt text :: rest) with ([SentimentPrompt text] ++ rest).
    rewrite !calls_for_app, calls_for_own.
    cbn [Ollama.remote_calls Ollama.with_call]. rewrite calls_for_app, calls_for_own. lia.
Qed.

Lemma C4_witness :
  exists svc1,
    @Ollama.analyze_sentiment (Reference.runtime [Reference.verdict "negative" "0.9"]
                                 Reference.in_order)
      "good value" (Ollama.new_service true) = (Ok (NEGATIVE, f_0_9), svc1)
    /\ sentiment_calls_for "good value" (Ollama.remote_calls svc1)
       = sentiment_calls_for "good value" (Ollama.remote_calls (Ollama.new_service true)) + 1
    /\ @Ollama.analyze_sentiment (Reference.runtime [Reference.verdict "negative" "0.9"]
                                    Reference.in_order)
         "good value" svc1 = (Ok (NEGATIVE, f_0_9), svc1).
Proof.
  destruct (C4_repeated_text_shares_cached_outcome
              (Reference.runtime [Reference.verdict "negative" "0.9"] Reference.in_order)
              "good value" (Ollama.new_service true)) as (_ & Hanswered & _).
  eapply Hanswered.
  - reflexivity.
  - reflexivity.
  - reflexivity.
  - reflexivity.
  - vm_compute. reflexivity.
  - vm_compute. reflexivity.
Defined.

(** The batch of the counterexample with a model that answers every
    call: the model is asked once about the repeated text, and the two
    positions hold the identical outcome. *)
Example repeated_text_answered :
  exists results svc',
    @Optimized.batch_analyze_optimized
      (Reference.runtime (repeat (Reference.verdict "positive" "0.9") 20) Reference.in_order)
      Reference.repeated_batch [] (Optimized.new_service true) = (Ok results, svc')
    /\ results !! 3 = Some (Some (POSITIVE, f_0_9))
    /\ results !! 11 = Some (Some (POSITIVE, f_0_9))
    /\ sentiment_calls_for "good value"
         (Ollama.remote_calls (Optimized.ollama_service svc')) = 1.
Proof.
  eexists _, _. split; [vm_compute; reflexivity|].
  split; [reflexivity|]. split; [reflexivity|]. vm_compute. reflexivity.
Qed.

(** ** The normalizer *)

Lemma nonspace_app (a b : Py.chars) : nonspace (a ++ b) = nonspace a + nonspace b.
Proof. induction a as [|c a IH]; cbn; [reflexivity|]. rewrite IH. lia. Qed.


Lemma nonspace_rev (s : Py.chars) : nonspace (rev s) = nonspace s.
Proof.
  induction s as [|c s IH]; cbn; [reflexivity|].
  rewrite nonspace_app, IH. cbn. lia.
Qed.






Lemma lstrip_length (s : Py.chars) : length (Py.lstrip s) <= length s.
Proof. induction s as [|c s IH]; cbn; [lia|]. destruct (Py.isspace c); cbn; lia. Qed.

Lemma strip_length (s : Py.chars) : length (Py.strip s) <= length s.
Proof.
  unfold Py.strip, Py.rstrip. rewrite length_rev.
  etransitivity; [apply lstrip_length|]. rewrite length_rev. apply lstrip_length.
Qed.

Lemma lstrip_nonspace (s : Py.chars) : nonspace (Py.lstrip s) = nonspace s.
Proof.
  induction s as [|c s IH]; cbn; [reflexivity|].
  destruct (Py.isspace c) eqn:E; cbn; rewrite ?E; lia.
Qed.

Lemma strip_nonspace (s : Py.chars) : nonspace (Py.strip s) = nonspace s.
Proof.
  unfold Py.strip, Py.rstrip.
  rewrite nonspace_rev, lstrip_nonspace, nonspace_rev, lstrip_nonspace. reflexivity.
Qed.

(** The words of [split] are not empty, and together they are the
    characters of the text that are not whitespace. *)
Lemma split_words (s : Py.chars) : Forall (fun w => 1 <= length w) (Py.split s).
Proof.
  induction s as [|c s IH]; cbn; [constructor|].
  destruct (Py.isspace c); [exact IH|].
  destruct (Py.split s) as [|w ws]; [repeat constructor|].
  apply Forall_cons in IH as [Hw Hws].
  destruct (Py.at_space s); repeat constructor; cbn; try assumption; lia.
Qed.

Lemma split_nonspace (s : Py.chars) : length (concat (Py.split s)) = nonspace s.
Proof.
  induction s as [|c s IH]; cbn; [reflexivity|].
  destruct (Py.isspace c); [exact IH|].
  destruct (Py.split s) as [|w ws]; [cbn in *; lia|].
  destruct (Py.at_space s); cbn in *; lia.
Qed.

Lemma join_cons (sep w : Py.chars) (ws : list Py.chars) :
  Py.join sep (w :: ws) = match ws with
                          | [] => w
                          | _ => w ++ sep ++ Py.join sep ws
                          end.
Proof. destruct ws; reflexivity. Qed.



















(** *** The words of step 3 *)











(** *** Step 4 *)








Lemma to_str_length (l : Py.chars) : String.length (Py.to_str l) = length l.
Proof. induction l as [|c l IH]; cbn; [reflexivity|]. rewrite <- IH. reflexivity. Qed.






(** The bound is approached: nine commas and a letter come back as
    nineteen characters. *)
Example pipeline_nearly_doubles :
  Tokenization._apply_tokenization_pipeline ",,,,,,,,,A" "en" = ", , , , , , , , , A".
Proof. vm_compute. reflexivity. Qed.


(* ===================================================================== *)
(** * Further properties of the services *)
(* ===================================================================== *)

(** ** Rules for invariants and for computations that return *)

Section Keeping.
Context {S : Type} (I : S -> Prop).

Lemma keeps_ret {A} (a : A) : keeps I (ret a).
Proof. intros s H. exact H. Qed.

Lemma keeps_raise {A} (e : exn) : keeps I (@raise S A e).
Proof. intros s H. exact H. Qed.

Lemma keeps_gets {A} (f : S -> A) : keeps I (gets f).
Proof. intros s H. exact H. Qed.

Lemma keeps_lift {A} (r : result A) : keeps I (lift_result r).
Proof. intros s H. exact H. Qed.

Lemma keeps_modify (f : S -> S) : (forall s, I s -> I (f s)) -> keeps I (modify f).
Proof. intros Hf s H. apply Hf, H. Qed.

Lemma keeps_bind {A B} (m : M S A) (f : A -> M S B) :
  keeps I m -> (forall a, keeps I (f a)) -> keeps I (bind m f).
Proof.
  intros Hm Hf s H. unfold bind. specialize (Hm s H).
  destruct (m s) as [[a|e] s']; cbn [snd] in *; [apply Hf, Hm|exact Hm].
Qed.

Lemma keeps_try {A} (body : M S A) (handler : exn -> M S A) :
  keeps I body -> (forall e, keeps I (handler e)) -> keeps I (try_except body handler).
Proof.
  intros Hb Hh s H. unfold try_except. specialize (Hb s H).
  destruct (body s) as [[a|e] s']; cbn [snd] in *; [exact Hb|apply Hh, Hb].
Qed.

Lemma keeps_for_each {A} (body : A -> M S unit) (xs : list A) :
  (forall x, keeps I (body x)) -> keeps I (for_each body xs).
Proof.
  intros Hb. induction xs as [|x xs IH]; cbn [for_each]; [apply keeps_ret|].
  apply keeps_bind; [apply Hb|intros _; exact IH].
Qed.

Lemma keeps_map_m {A B} (f : A -> M S B) (xs : list A) :
  (forall x, keeps I (f x)) -> keeps I (map_m f xs).
Proof.
  intros Hf. induction xs as [|x xs IH]; cbn [map_m]; [apply keeps_ret|].
  apply keeps_bind; [apply Hf|intros y].
  apply keeps_bind; [exact IH|intros ys; apply keeps_ret].
Qed.

End Keeping.

Section Returning.
Context {S : Type}.

Lemma returns_ret {A} (a : A) : never_raises (@ret S A a).
Proof. intros s. exists a. reflexivity. Qed.

Lemma returns_gets {A} (f : S -> A) : never_raises (gets f).
Proof. intros s. exists (f s). reflexivity. Qed.

Lemma returns_modify (f : S -> S) : never_raises (modify f).
Proof. intros s. exists tt. reflexivity. Qed.

Lemma returns_bind {A B} (m : M S A) (f : A -> M S B) :
  never_raises m -> (forall a, never_raises (f a)) -> never_raises (bind m f).
Proof.
  intros Hm Hf s. unfold bind. destruct (Hm s) as [a Ha].
  destruct (m s) as [r s']. cbn [fst] in Ha. subst r. apply Hf.
Qed.

Lemma returns_try {A} (body : M S A) (handler : exn -> M S A) :
  (forall e, never_raises (handler e)) -> never_raises (try_except body handler).
Proof.
  intros Hh s. unfold try_except.
  destruct (body s) as [[a|e] s']; [exists a; reflexivity|apply Hh].
Qed.

Lemma returns_for_each {A} (body : A -> M S unit) (xs : list A) :
  (forall x, never_raises (body x)) -> never_raises (for_each body xs).
Proof.
  intros Hb. induction xs as [|x xs IH]; cbn [for_each]; [apply returns_ret|].
  apply returns_bind; [apply Hb|intros _; exact IH].
Qed.

Lemma returns_map_m {A B} (f : A -> M S B) (xs : list A) :
  (forall x, never_raises (f x)) -> never_raises (map_m f xs).
Proof.
  intros Hf. induction xs as [|x xs IH]; cbn [map_m]; [apply returns_ret|].
  apply returns_bind; [apply Hf|intros y].
  apply returns_bind; [exact IH|intros ys; apply returns_ret].
Qed.

End Returning.

(** Breaking a computation down to the rules above. *)
Ltac keep_step :=
  first
    [ apply keeps_ret | apply keeps_raise | apply keeps_gets | apply keeps_lift
    | apply keeps_bind; [|intros ?]
    | apply keeps_try; [|intros ?]
    | apply keeps_for_each; intros ?
    | apply keeps_map_m; intros ?
    | match goal with
      | |- keeps _ (match ?x with _ => _ end) => destruct x
      end ].

(** ** The gateway: eviction and the size of the caches *)

(** X1.  [_manage_cache_size] evicts first in, first out: a dictionary
    that holds fewer entries than the bound is left as it is; a full one
    loses its oldest entries, a tenth of the bound of them (rounded
    down), and keeps the others, in their order.  With a bound below 10
    nothing is evicted. *)
Theorem X1_eviction_is_first_in_first_out :
  forall (V : Type) (max : nat) (d : Dict.t V),
    NoDup (Dict.keys d) ->
    (Dict.len d < max -> Ollama._manage_cache_size max d = d)
    /\ (max <= Dict.len d ->
        Ollama._manage_cache_size max d = skipn (max / 10) d
        /\ Dict.len (Ollama._manage_cache_size max d) = Dict.len d - max / 10)
    /\ (max < 10 -> Ollama._manage_cache_size max d = d).
Proof.
  intros V max d Hd. rewrite manage_skipn by exact Hd. split; [|split].
  - intros H. apply Nat.leb_gt in H. rewrite H. reflexivity.
  - intros H. apply Nat.leb_le in H. rewrite H. split; [reflexivity|].
    unfold Dict.len. apply length_skipn.
  - intros H. rewrite (Nat.div_small max 10 H), drop_0.
    destruct (max <=? Dict.len d); reflexivity.
Qed.

Lemma X1_witness :
  Ollama._manage_cache_size 20
    (map (fun k => (Reference.decimal (Z.of_nat k), k)) (seq 0 20))
  = map (fun k => (Reference.decimal (Z.of_nat k), k)) (seq 2 18).
Proof.
  destruct (X1_eviction_is_first_in_first_out nat 20
              (map (fun k => (Reference.decimal (Z.of_nat k), k)) (seq 0 20)))
    as (_ & Hfull & _).
  - vm_compute.
    repeat (apply NoDup_cons_2;
            [intros Hin; apply list_elem_of_In in Hin; cbn in Hin; intuition discriminate|]).
    apply NoDup_nil_2.
  - destruct Hfull as [Hfull _]; [cbn; lia|]. rewrite Hfull. reflexivity.
Defined.

Section GatewayBound.
Context `{RT : Runtime}.

Lemma bounded_store_sentiment (k : string) (r : outcome) (svc : Ollama.OllamaService) :
  bounded svc -> bounded (snd (Ollama.store_sentiment k r svc)).
Proof.
  intros (Hmax & [Hs Hls] & Ht). split; [exact Hmax|]. split; [|exact Ht].
  cbn. split.
  - apply NoDup_keys_set, NoDup_keys_manage, Hs.
  - apply managed_insert_bound; assumption.
Qed.

Lemma bounded_store_translation (k : string) (r : Ollama.translation)
    (svc : Ollama.OllamaService) :
  bounded svc -> bounded (snd (Ollama.store_translation k r svc)).
Proof.
  intros (Hmax & Hs & [Ht Hlt]). split; [exact Hmax|]. split; [exact Hs|].
  cbn. split.
  - apply NoDup_keys_set, NoDup_keys_manage, Ht.
  - apply managed_insert_bound; assumption.
Qed.

Lemma keeps_client_chat (req : request) : keeps bounded (Ollama.client_chat req).
Proof.
  intros svc H. unfold Ollama.client_chat.
  destruct (Ollama.client svc); [|exact H].
  destruct (chat _ _); exact H.
Qed.

Lemma keeps_initialize_client : keeps bounded Ollama._initialize_client.
Proof. intros svc H. exact H. Qed.

Lemma keeps_extract_json (content0 : string) :
  keeps bounded (Ollama._extract_json_from_response content0).
Proof. intros svc H. rewrite extract_json_state. exact H. Qed.

Ltac keep_gateway known :=
  repeat first
    [ progress cbv zeta
    | known
    | apply keeps_client_chat | apply keeps_initialize_client | apply keeps_extract_json
    | apply keeps_modify; intros ? ?; assumption
    | intros ? ?; apply bounded_store_sentiment; assumption
    | intros ? ?; apply bounded_store_translation; assumption
    | keep_step ].

Lemma analyze_sentiment_bounded (text : string) :
  keeps bounded (Ollama.analyze_sentiment text).
Proof. unfold Ollama.analyze_sentiment. keep_gateway fail. Qed.

Lemma batch_api_call_bounded (texts : list string) :
  keeps bounded (Ollama._batch_sentiment_api_call texts).
Proof.
  unfold Ollama._batch_sentiment_api_call, Ollama.batch_reply.
  keep_gateway ltac:(apply analyze_sentiment_bounded).
Qed.

Lemma batch_analyze_sentiment_bounded (texts : list string) :
  keeps bounded (Ollama.batch_analyze_sentiment texts).
Proof.
  unfold Ollama.batch_analyze_sentiment.
  destruct texts as [|text texts]; [apply keeps_ret|].
  apply keeps_bind; [apply keeps_gets|intros cache].
  destruct (Ollama.partition_cached cache 0 (text :: texts)) as [cached uncached].
  keep_gateway ltac:(apply batch_api_call_bounded).
Qed.

Lemma translate_text_bounded (text source_lang target_lang : string) :
  keeps bounded (Ollama.translate_text text source_lang target_lang).
Proof. unfold Ollama.translate_text. keep_gateway fail. Qed.

End GatewayBound.

(** X2.  The operations of the gateway keep its caches within the
    bound: from a gateway whose bound is at least 10 and whose
    sentiment and translation caches hold at most that many entries,
    [analyze_sentiment], [batch_analyze_sentiment] and [translate_text]
    lead to such a gateway again, whatever the model replies. *)
Theorem X2_gateway_caches_stay_bounded :
  forall (RT : Runtime) (svc : Ollama.OllamaService),
    bounded svc ->
    (forall text, bounded (snd (Ollama.analyze_sentiment text svc)))
    /\ (forall texts, bounded (snd (Ollama.batch_analyze_sentiment texts svc)))
    /\ (forall text source_lang target_lang,
           bounded (snd (Ollama.translate_text text source_lang target_lang svc))).
Proof.
  intros RT svc H. split; [|split].
  - intros text. apply analyze_sentiment_bounded, H.
  - intros texts. apply batch_analyze_sentiment_bounded, H.
  - intros text source_lang target_lang. apply translate_text_bounded, H.
Qed.

Lemma X2_witness :
  Dict.len (Ollama.sentiment_cache
              (snd (@Ollama.analyze_sentiment
                      (Reference.runtime [Reference.verdict "negative" "0.9"]
                         Reference.in_order)
                      "good value" (Ollama.new_service true))))
  <= 1000.
Proof.
  destruct (X2_gateway_caches_stay_bounded
              (Reference.runtime [Reference.verdict "negative" "0.9"] Reference.in_order)
              (Ollama.new_service true)) as (Hanalyze & _).
  - split; [cbn; lia|]. split; split; first [apply NoDup_nil_2 | cbn; lia].
  - destruct (Hanalyze "good value") as (_ & [_ Hlen] & _). exact Hlen.
Defined.

(** ** The gateway: reading a batch reply *)

Section GatewayBatch.
Context `{RT : Runtime}.

Lemma try_candidate_parses (candidate : option Py.chars) (next : result string) (s : string) :
  (next = Ok s -> s <> "" -> exists j, json_loads s = Ok j) ->
  Ollama.try_candidate candidate next = Ok s -> s <> "" -> exists j, json_loads s = Ok j.
Proof.
  intros Hnext. unfold Ollama.try_candidate.
  destruct candidate as [c|]; [|exact Hnext].
  destruct (json_loads (Py.to_str c)) as [j|e] eqn:E.
  - intros [= <-] _. exists j. exact E.
  - destruct e; first [exact Hnext | discriminate].
Qed.

End GatewayBatch.

(** X3.  Whatever text [_extract_json_from_response] returns, other
    than the empty text, is one [json.loads] accepts: every rung of the
    ladder checks its candidate before returning it. *)
Theorem X3_extracted_json_parses :
  forall (RT : Runtime) (content : string) (svc : Ollama.OllamaService) (found : string),
    fst (Ollama._extract_json_from_response content svc) = Ok found ->
    found <> "" ->
    exists parsed, json_loads found = Ok parsed.
Proof.
  intros RT content svc found.
  unfold Ollama._extract_json_from_response, bind, gets, lift_result. cbv zeta. cbn [fst].
  assert (Hscan : forall lines,
             match lines with
             | [] => Ok ""
             | c :: l =>
                 match json_loads (Py.to_str (Py.join [Ollama.newline] (c :: l))) with
                 | Ok _ => Ok (Py.to_str (Py.join [Ollama.newline] (c :: l)))
                 | Raise JSONDecodeError => Ok ""
                 | Raise e => Raise e
                 end
             end = Ok found ->
             found <> "" -> exists j, json_loads found = Ok j).
  { intros [|l lines]; [intros [= <-] H; congruence|].
    destruct (json_loads _) as [j|e] eqn:E.
    - intros [= <-] _. exists j. exact E.
    - destruct e; try discriminate. intros [= <-] H. congruence. }
  unfold Ollama.try_patterns.
  apply try_candidate_parses, try_candidate_parses.
  destruct (Ollama.last_response svc) as [msg|]; [|apply Hscan].
  destruct (thinking msg) as [t|]; [|apply Hscan].
  destruct (String.eqb t ""); [apply Hscan|].
  apply try_candidate_parses, try_candidate_parses, Hscan.
Qed.

Lemma X3_witness :
  exists parsed,
    @json_loads (Reference.runtime [] Reference.in_order) Reference.positive_array = Ok parsed.
Proof.
  apply (X3_extracted_json_parses (Reference.runtime [] Reference.in_order)
           Reference.fenced_reply (Ollama.new_service true) Reference.positive_array).
  - vm_compute. reflexivity.
  - discriminate.
Defined.

(** ** The gateway: one outcome per text *)















Section GatewayPositions.
Context `{RT : Runtime}.






End GatewayPositions.




(** ** The gateway: translations *)

Section GatewayTranslation.
Context `{RT : Runtime}.

Lemma translation_of_message_cases (text : string) (msg : message) :
  snd (Ollama.translation_of_message text msg) = false ->
  fst (Ollama.translation_of_message text msg) = text.
Proof.
  unfold Ollama.translation_of_message. cbv zeta.
  destruct (match _ with [] => [] | _ :: _ => _ end); cbn; [reflexivity|discriminate].
Qed.

(** What one call of [translate_text] does, by the state of the cache. *)
Lemma translate_text_cases (text source_lang target_lang : string)
    (svc : Ollama.OllamaService) :
  exists r svc1,
    Ollama.translate_text text source_lang target_lang svc = (Ok r, svc1)
    /\ match Dict.get (Ollama.translation_key text source_lang target_lang)
                      (Ollama.translation_cache svc) with
       | Some cached => r = cached /\ svc1 = svc
       | None =>
           Ollama.original_text r = text
           /\ Ollama.source_language r = source_lang
           /\ (Ollama.was_translated r = false -> Ollama.translated_text r = text)
           /\ ((svc1 = svc /\ Ollama.client svc = false
                /\ r = Ollama.untranslated text source_lang
                         (Some "Translation service not available"))
               \/ Dict.get (Ollama.translation_key text source_lang target_lang)
                           (Ollama.translation_cache svc1) = Some r)
       end.
Proof.
  unfold Ollama.translate_text, try_except, bind, gets, ret, Ollama.store_translation,
    modify, Ollama.client_chat.
  cbv beta zeta.
  destruct (Dict.get _ (Ollama.translation_cache svc)) as [cached|] eqn:Ecache; cbn [fst snd].
  { eexists _, _. split; [reflexivity|]. split; reflexivity. }
  destruct (String.eqb source_lang target_lang); cbn [fst snd].
  { eexists _, _. split; [reflexivity|].
    repeat split. right. cbn. apply get_set_eq. }
  destruct (Ollama.client svc) eqn:Eclient; cbn [negb fst snd].
  2:{ eexists _, _. split; [reflexivity|].
      repeat split. left. repeat split. }
  cbv beta iota. rewrite ?Eclient.
  destruct (chat _ _) as [err|[msg|]]; cbv beta iota; cbn [fst snd].
  - eexists _, _. split; [reflexivity|].
    repeat split. right. cbn. apply get_set_eq.
  - pose proof (translation_of_message_cases text msg) as Hmsg.
    destruct (Ollama.translation_of_message text msg) as [translated translated_p].
    cbn [fst snd] in *. cbv beta iota.
    eexists _, _. split; [reflexivity|].
    split; [reflexivity|]. split; [reflexivity|]. split; [exact Hmsg|].
    right. cbn. apply get_set_eq.
  - eexists _, _. split; [reflexivity|].
    repeat split. right. cbn. apply get_set_eq.
Qed.

End GatewayTranslation.


(** X7.  A translation asked for again is answered as before: the second
    call of [translate_text] with the same arguments returns the result
    of the first, leaves the gateway as the first call left it and
    makes no remote call. *)
Theorem X7_repeated_translation_is_replayed :
  forall (RT : Runtime) (text source_lang target_lang : string)
         (svc : Ollama.OllamaService),
    Ollama.translate_text text source_lang target_lang
      (snd (Ollama.translate_text text source_lang target_lang svc))
    = Ollama.translate_text text source_lang target_lang svc.
Proof.
  intros RT text source_lang target_lang svc.
  destruct (translate_text_cases text source_lang target_lang svc)
    as (r & svc1 & Hrun & Hcase).
  rewrite Hrun. cbn [snd].
  destruct (Dict.get _ (Ollama.translation_cache svc)) as [cached|] eqn:Ecache.
  - destruct Hcase as [-> ->]. exact Hrun.
  - destruct Hcase as (_ & _ & _ & [(-> & _ & _)|Hstored]); [exact Hrun|].
    destruct (translate_text_cases text source_lang target_lang svc1)
      as (r' & svc2 & Hrun' & Hcase').
    rewrite Hstored in Hcase'. destruct Hcase' as [-> ->]. exact Hrun'.
Qed.

Lemma split_once_before (sep s : Py.chars) (before after : Py.chars) :
  Py.split_once sep s = Some (before, after) ->
  length before <= length s /\ firstn (length before) s = before.
Proof.
  revert before after. induction s as [|c s IH]; intros before after; cbn [Py.split_once].
  - destruct (Py.startswith sep []); [|discriminate].
    intros [= <- <-]. split; [cbn; lia|reflexivity].
  - destruct (Py.startswith sep (c :: s)).
    + intros [= <- <-]. split; [cbn; lia|reflexivity].
    + destruct (Py.split_once sep s) as [[b a]|]; [|discriminate].
      intros [= <- <-]. destruct (IH b a eq_refl) as [Hlen Hpre].
      split; [cbn; lia|]. cbn. f_equal. exact Hpre.
Qed.

Lemma inner_length (s : Py.chars) : length (Py.inner s) <= length s.
Proof.
  unfold Py.inner.
  assert (H : forall l : Py.chars, length (removelast l) <= length l).
  { induction l as [|c [|d l] IH]; cbn in *; lia. }
  specialize (H s). destruct (removelast s); cbn in *; lia.
Qed.

Lemma unquote_length (q : ascii) (s : Py.chars) :
  length (Ollama.unquote q s) <= length s.
Proof.
  unfold Ollama.unquote. destruct (_ && _); [apply inner_length|lia].
Qed.

Lemma remove_artifact_length (artifacts : list Py.chars) (s : Py.chars) :
  length (Ollama.remove_artifact artifacts s) <= length s.
Proof.
  induction artifacts as [|a artifacts IH]; cbn [Ollama.remove_artifact]; [lia|].
  destruct (Py.split_once a s) as [[before after]|] eqn:E; [|exact IH].
  destruct (_ <? _); [|exact IH].
  apply split_once_before in E as [Hlen _].
  etransitivity; [apply strip_length|exact Hlen].
Qed.

(** X8.  [_clean_translation] only removes characters: what it returns
    is never longer than the text it was given. *)
Theorem X8_clean_translation_never_lengthens :
  forall text : Py.chars,
    length (Ollama._clean_translation text) <= length text.
Proof.
  intros text. unfold Ollama._clean_translation. cbv zeta.
  etransitivity; [apply remove_artifact_length|].
  set (unquoted := Ollama.unquote Ollama.apostrophe
                     (Ollama.unquote Ollama.quote (Py.strip text))).
  assert (Hunquoted : length unquoted <= length text).
  { unfold unquoted.
    etransitivity; [apply unquote_length|].
    etransitivity; [apply unquote_length|]. apply strip_length. }
  match goal with |- length (if ?b then _ else _) <= _ => destruct b end;
    [|exact Hunquoted].
  etransitivity; [apply strip_length|].
  rewrite List.length_skipn. lia.
Qed.

(** ** The tokenizer: its cache *)



Section TokenizerCache.
Context `{RT : Runtime}.





(** What one call of [optimize_text_for_analysis] does, by the state of
    the cache. *)
Lemma optimize_cases (text language : string) (tok : Tokenization.TokenizationService) :
  exists o tok1,
    Tokenization.optimize_text_for_analysis text language tok = (Ok o, tok1)
    /\ match Dict.get (Tokenization._get_cache_key text ("optimize_" ++ language))
                      (Tokenization.cache tok) with
       | Some cached => o = cached /\ tok1 = tok
       | None =>
           o = Tokenization._apply_tokenization_pipeline text language
           /\ Dict.get (Tokenization._get_cache_key text ("optimize_" ++ language))
                       (Tokenization.cache tok1) = Some o
       end.
Proof.
  unfold Tokenization.optimize_text_for_analysis, bind, gets, ret,
    Tokenization._cache_result, modify.
  cbv beta zeta. cbn [fst snd].
  destruct (Dict.get _ (Tokenization.cache tok)) as [cached|] eqn:E.
  - eexists _, _. split; [reflexivity|]. split; reflexivity.
  - eexists _, _. split; [reflexivity|]. split; [reflexivity|].
    cbn. apply get_set_eq.
Qed.

Lemma optimize_again (text language o : string)
    (tok tok1 : Tokenization.TokenizationService) :
  Tokenization.optimize_text_for_analysis text language tok = (Ok o, tok1) ->
  Tokenization.optimize_text_for_analysis text language tok1 = (Ok o, tok1).
Proof.
  intros Hfirst.
  destruct (optimize_cases text language tok) as (o' & tok1' & Hrun & Hcase).
  rewrite Hfirst in Hrun. injection Hrun as <- <-.
  destruct (Dict.get _ (Tokenization.cache tok)) as [cached|] eqn:E.
  - destruct Hcase as [-> ->]. exact Hfirst.
  - destruct Hcase as [_ Hstored].
    destruct (optimize_cases text language tok1) as (o' & tok2 & Hrun' & Hcase').
    rewrite Hstored in Hcase'. destruct Hcase' as [-> ->]. exact Hrun'.
Qed.

End TokenizerCache.



(** X10.  The tokenizer answers a text it has not cached with the
    result of the pipeline, and a repeated request as before: the second
    call of [optimize_text_for_analysis] with the same arguments returns
    the text of the first and leaves the tokenizer as the first call
    left it. *)
Theorem X10_repeated_optimization_is_replayed :
  forall (RT : Runtime) (text language : string) (tok : Tokenization.TokenizationService),
    (Dict.get (Tokenization._get_cache_key text ("optimize_" ++ language))
              (Tokenization.cache tok) = None ->
     fst (Tokenization.optimize_text_for_analysis text language tok)
     = Ok (Tokenization._apply_tokenization_pipeline text language))
    /\ Tokenization.optimize_text_for_analysis text language
         (snd (Tokenization.optimize_text_for_analysis text language tok))
       = Tokenization.optimize_text_for_analysis text language tok.
Proof.
  intros RT text language tok.
  destruct (optimize_cases text language tok) as (o & tok1 & Hrun & Hcase).
  split.
  - intros Hmiss. rewrite Hmiss in Hcase. destruct Hcase as [-> _].
    rewrite Hrun. reflexivity.
  - rewrite Hrun. cbn [snd]. apply (optimize_again _ _ _ _ _ Hrun).
Qed.

(** ** The tokenizer: batches *)


Section TokenizerWith.
Context `{RT : Runtime}.
Variable known : list (string * string).
Variable P : Tokenization.TokenizationService -> Prop.
Variable Q : string * string -> string -> Prop.
Hypothesis optimize_keeps :
  forall tl tok,
    In tl known -> P tok ->
    exists o tok1,
      Tokenization.optimize_text_for_analysis (fst tl) (snd tl) tok = (Ok o, tok1)
      /\ P tok1 /\ Q tl o.




End TokenizerWith.

Section TokenizerFaithful.
Context `{RT : Runtime}.


End TokenizerFaithful.



(** ** The tokenizer: the shape of what the pipeline returns *)

Lemma split_no_space (s : Py.chars) :
  Forall (fun w => forallb (fun c => negb (Py.isspace c)) w = true) (Py.split s).
Proof.
  induction s as [|c s IH]; cbn; [constructor|].
  destruct (Py.isspace c) eqn:Ec; [exact IH|].
  destruct (Py.split s) as [|w ws]; [repeat constructor; cbn; rewrite Ec; reflexivity|].
  apply Forall_cons in IH as [Hw Hws].
  destruct (Py.at_space s); repeat constructor; cbn; rewrite ?Ec; cbn;
    first [assumption | reflexivity].
Qed.

Lemma split_all_space (s : Py.chars) : forallb Py.isspace s = true -> Py.split s = [].
Proof.
  induction s as [|c s IH]; cbn; [reflexivity|].
  intros H. apply andb_prop in H as [Hc Hs]. rewrite Hc. apply IH, Hs.
Qed.

(** A word in front of a text that starts a new word. *)
Lemma split_word (w rest : Py.chars) :
  1 <= length w ->
  forallb (fun c => negb (Py.isspace c)) w = true ->
  Py.at_space rest = true ->
  Py.split (w ++ rest) = w :: Py.split rest.
Proof.
  induction w as [|c w IH]; cbn [length]; [lia|].
  intros _ Hw Hrest. cbn [forallb] in Hw. apply andb_prop in Hw as [Hc Hw].
  apply negb_true_iff in Hc.
  cbn [app Py.split]. rewrite Hc.
  destruct w as [|c' w].
  - cbn [app]. rewrite Hrest. destruct (Py.split rest); reflexivity.
  - rewrite IH by (cbn; try lia; assumption).
    cbn [app Py.at_space]. cbn [forallb] in Hw. apply andb_prop in Hw as [Hc' _].
    apply negb_true_iff in Hc'. rewrite Hc'. reflexivity.
Qed.

Lemma split_join (ws : list Py.chars) :
  Forall (fun w => 1 <= length w) ws ->
  Forall (fun w => forallb (fun c => negb (Py.isspace c)) w = true) ws ->
  Py.split (Py.join [Tokenization.space] ws) = ws.
Proof.
  induction ws as [|w ws IH]; intros Hlen Hclean; [reflexivity|].
  apply Forall_cons in Hlen as [Hw Hlen]. apply Forall_cons in Hclean as [Hcw Hclean].
  rewrite join_cons. destruct ws as [|w' ws].
  - rewrite <- (app_nil_r w) at 1. rewrite split_word by (try assumption; reflexivity).
    reflexivity.
  - rewrite split_word by (try assumption; reflexivity).
    cbn [app Py.split]. change (Py.isspace Tokenization.space) with true. cbv iota.
    rewrite IH by assumption. reflexivity.
Qed.

Lemma lstrip_word (w rest : Py.chars) :
  1 <= length w ->
  forallb (fun c => negb (Py.isspace c)) w = true ->
  Py.lstrip (w ++ rest) = w ++ rest.
Proof.
  destruct w as [|c w]; cbn [length]; [lia|].
  intros _ Hw. cbn [forallb] in Hw. apply andb_prop in Hw as [Hc _].
  apply negb_true_iff in Hc. cbn. rewrite Hc. reflexivity.
Qed.

Lemma forallb_rev {A} (p : A -> bool) (l : list A) : forallb p (rev l) = forallb p l.
Proof.
  induction l as [|x l IH]; [reflexivity|].
  cbn. rewrite forallb_app, IH. cbn. rewrite andb_true_r. apply andb_comm.
Qed.

Lemma strip_join (ws : list Py.chars) :
  Forall (fun w => 1 <= length w) ws ->
  Forall (fun w => forallb (fun c => negb (Py.isspace c)) w = true) ws ->
  Py.strip (Py.join [Tokenization.space] ws) = Py.join [Tokenization.space] ws.
Proof.
  intros Hlen Hclean. unfold Py.strip, Py.rstrip.
  assert (Hleft : Py.lstrip (Py.join [Tokenization.space] ws)
                  = Py.join [Tokenization.space] ws).
  { destruct ws as [|w ws]; [reflexivity|].
    apply Forall_cons in Hlen as [Hw _]. apply Forall_cons in Hclean as [Hcw _].
    rewrite join_cons. destruct ws.
    - rewrite <- (app_nil_r w). apply lstrip_word; assumption.
    - apply lstrip_word; assumption. }
  rewrite Hleft. clear Hleft.
  assert (Hright : Py.lstrip (rev (Py.join [Tokenization.space] ws))
                   = rev (Py.join [Tokenization.space] ws)).
  { induction ws as [|w ws IH]; [reflexivity|].
    apply Forall_cons in Hlen as [Hw Hlen]. apply Forall_cons in Hclean as [Hcw Hclean].
    rewrite join_cons. destruct ws as [|w' ws].
    - rewrite <- (app_nil_r (rev w)). apply lstrip_word.
      + rewrite length_rev. exact Hw.
      + rewrite forallb_rev. exact Hcw.
    - rewrite !rev_app_distr.
      specialize (IH Hlen Hclean).
      destruct (rev (Py.join [Tokenization.space] (w' :: ws))) as [|c r] eqn:E.
      + exfalso. apply (f_equal (@length _)) in E. rewrite length_rev, join_cons in E.
        apply Forall_cons in Hlen as [Hw' _].
        destruct ws; [cbn in E; lia|rewrite List.length_app in E; cbn in E; lia].
      + cbn [app]. cbn [Py.lstrip] in IH |- *.
        destruct (Py.isspace c); [|reflexivity].
        exfalso. apply (f_equal (@length _)) in IH.
        pose proof (lstrip_length r). cbn in IH. lia. }
  rewrite Hright. apply rev_involutive.
Qed.

(** X12.  What the pipeline returns is normalised for whitespace: it
    neither starts nor ends with whitespace and its words are separated
    by single spaces, so that splitting it at whitespace and joining the
    words with a space gives it back.  Of a text of whitespace alone
    nothing is left. *)
Theorem X12_pipeline_output_is_normalized :
  forall text language : string,
    Py.join [Tokenization.space]
      (Py.split (Py.of_str (Tokenization._apply_tokenization_pipeline text language)))
    = Py.of_str (Tokenization._apply_tokenization_pipeline text language)
    /\ Py.strip (Py.of_str (Tokenization._apply_tokenization_pipeline text language))
       = Py.of_str (Tokenization._apply_tokenization_pipeline text language)
    /\ (forallb Py.isspace (Py.of_str text) = true ->
        Tokenization._apply_tokenization_pipeline text language = "").
Proof.
  intros text language.
  unfold Tokenization._apply_tokenization_pipeline. cbv zeta.
  unfold Py.of_str at 1 3 5, Py.to_str. rewrite !list_ascii_of_string_of_list_ascii.
  split; [|split].
  - unfold Tokenization._normalize_tokens. cbv zeta.
    rewrite strip_join by (apply split_words || apply split_no_space).
    rewrite split_join by (apply split_words || apply split_no_space).
    reflexivity.
  - unfold Tokenization._normalize_tokens. cbv zeta.
    rewrite !strip_join by (apply split_words || apply split_no_space).
    reflexivity.
  - intros Hspace.
    unfold Tokenization._basic_text_cleaning. cbv zeta.
    rewrite (split_all_space _ Hspace). cbn [Py.join].
    change (Py.strip _) with (@nil ascii).
    assert (Hlang : Tokenization._apply_language_specific_optimization [] language = []).
    { unfold Tokenization._apply_language_specific_optimization.
      repeat (destruct (String.eqb language _); [reflexivity|]). reflexivity. }
    rewrite Hlang. reflexivity.
Qed.

(** ** The chunker *)

Lemma with_metadata_lookup (total k : nat) (chunks : list Chunking.piece) (i : nat)
    (c : Chunking.chunk) :
  Chunking.with_metadata total k chunks !! i = Some c ->
  Chunking.chunk_id c = k + i
  /\ Chunking.chunk_number c = k + i + 1
  /\ Chunking.total_chunks c = total
  /\ Chunking.chunk_size_entry c = Some (String.length (Chunking.text c)).
Proof.
  revert k i. induction chunks as [|[[t a] b] chunks IH]; intros k i H; [discriminate|].
  cbn [Chunking.with_metadata] in H. destruct i as [|i].
  - injection H as <-. cbn. rewrite to_str_length.
    repeat split; lia.
  - cbn in H. destruct (IH (S k) i H) as (H1 & H2 & H3 & H4).
    repeat split; try assumption; lia.
Qed.

(** X13.  The chunks [chunk_text] returns are numbered in their order:
    the chunk at place [i] has [chunk_id] [i] and [chunk_number]
    [i + 1], every chunk carries the number of chunks as
    [total_chunks], and a [chunk_size], where there is one, is the
    length of the text of the chunk. *)
Theorem X13_chunks_are_numbered_in_order :
  forall (fuel : nat) (self : Chunking.ChunkingService) (text : string)
         (preserve_sentences : bool) (chunks : list Chunking.chunk),
    Chunking.chunk_text fuel self text preserve_sentences = Some (Ok chunks) ->
    forall (i : nat) (c : Chunking.chunk),
      chunks !! i = Some c ->
      Chunking.chunk_id c = i
      /\ Chunking.chunk_number c = i + 1
      /\ Chunking.total_chunks c = length chunks
      /\ (forall n, Chunking.chunk_size_entry c = Some n ->
                    n = String.length (Chunking.text c)).
Proof.
  intros fuel self text preserve chunks Hrun i c Hc.
  unfold Chunking.chunk_text in Hrun.
  destruct (_ || _).
  - injection Hrun as <-. destruct i as [|i]; [|discriminate].
    injection Hc as <-. cbn. repeat split. intros n H. discriminate H.
  - cbv zeta in Hrun.
    destruct (if preserve then _ else _) as [[pieces|e]|]; try discriminate.
    injection Hrun as <-.
    destruct (with_metadata_lookup _ _ _ _ _ Hc) as (H1 & H2 & H3 & H4).
    rewrite with_metadata_length.
    repeat split; try assumption. intros n Hn. congruence.
Qed.

Lemma X13_witness :
  Chunking.chunk_id
    {| Chunking.chunk_id := 1;
       Chunking.text := "Breakfast was cold and late. We would not return.";
       Chunking.start_index := 31;
       Chunking.end_index := 79;
       Chunking.chunk_number := 2;
       Chunking.total_chunks := 2;
       Chunking.chunk_size_entry := Some 49 |} = 1.
Proof.
  apply (X13_chunks_are_numbered_in_order 0 (Chunking.new_service 60 10)
           "The room was clean and quiet. Breakfast was cold and late. We would not return."
           true
           [ {| Chunking.chunk_id := 0;
                Chunking.text := "The room was clean and quiet. Breakfast was cold and late.";
                Chunking.start_index := 0;
                Chunking.end_index := 59;
                Chunking.chunk_number := 1;
                Chunking.total_chunks := 2;
                Chunking.chunk_size_entry := Some 58 |};
             {| Chunking.chunk_id := 1;
                Chunking.text := "Breakfast was cold and late. We would not return.";
                Chunking.start_index := 31;
                Chunking.end_index := 79;
                Chunking.chunk_number := 2;
                Chunking.total_chunks := 2;
                Chunking.chunk_size_entry := Some 49 |} ]).
  - vm_compute. reflexivity.
  - reflexivity.
Defined.

Lemma find_break_valid (text : Py.chars) (count : nat) :
  forall i : Z,
    (i < Chunking.len text)%Z ->
    (0 <= i - Z.of_nat count + 1)%Z ->
    exists found,
      Chunking.find_break text i count = Ok found
      /\ match found with
         | Some e => (i - Z.of_nat count + 2 <= e <= i + 1)%Z
         | None => True
         end.
Proof.
  induction count as [|count IH]; intros i Hi Hlow.
  - exists None. split; [reflexivity|exact I].
  - cbn [Chunking.find_break]. unfold Chunking.py_index.
    replace (i <? 0)%Z with false by (symmetry; apply Z.ltb_ge; lia).
    replace (0 <=? i)%Z with true by (symmetry; apply Z.leb_le; lia).
    replace (i <? Chunking.len text)%Z with true by (symmetry; apply Z.ltb_lt; lia).
    cbn [andb].
    destruct (Chunking.is_break _).
    + eexists. split; [reflexivity|]. cbn. lia.
    + destruct (IH (i - 1)%Z) as (found & Hfound & Hrange); [lia|lia|].
      exists found. split; [exact Hfound|].
      destruct found; [lia|exact I].
Qed.

Lemma py_slice_length (text : Py.chars) (start stop : Z) :
  (0 <= start <= stop)%Z -> (stop <= Chunking.len text)%Z ->
  (Chunking.len (Chunking.py_slice text start stop) <= stop - start)%Z.
Proof.
  intros Hs He. unfold Chunking.py_slice, Chunking.len in *.
  replace (start <? 0)%Z with false by (symmetry; apply Z.ltb_ge; lia).
  replace (stop <? 0)%Z with false by (symmetry; apply Z.ltb_ge; lia).
  rewrite !Z.min_l by lia.
  pose proof (List.firstn_le_length (Z.to_nat (stop - start))
                (skipn (Z.to_nat start) text)). lia.
Qed.

(** One more piece, when it is not empty. *)
Lemma cut_piece (chunk_size : Z) (text : Py.chars) (start end_ : Z)
    (chunks : list Chunking.piece) :
  (0 <= start < end_)%Z -> (end_ <= Chunking.len text)%Z ->
  (end_ <= start + chunk_size + 1)%Z ->
  Forall (cut_from chunk_size text) chunks ->
  Forall (cut_from chunk_size text)
    (if Chunking.nonempty (Py.strip (Chunking.py_slice text start end_))
     then chunks ++ [(Py.strip (Chunking.py_slice text start end_), start, end_)]
     else chunks).
Proof.
  intros Hs He Hsize Hall. unfold Chunking.nonempty.
  destruct (Nat.eqb _ 0) eqn:E; cbn [negb]; [exact Hall|].
  apply Forall_app_2; [exact Hall|]. constructor; [|constructor].
  apply Nat.eqb_neq in E. unfold cut_from.
  split; [lia|]. split; [lia|]. split; [lia|]. split; [reflexivity|].
  pose proof (py_slice_length text start end_ ltac:(lia) He).
  pose proof (strip_length (Chunking.py_slice text start end_)).
  unfold Chunking.len in *. lia.
Qed.

Lemma chunk_loop_ends (chunk_size overlap : Z) (text : Py.chars) :
  (0 <= overlap)%Z -> (overlap < chunk_size)%Z -> (overlap <= 51)%Z ->
  forall (n : nat) (start : Z) (chunks : list Chunking.piece),
    (0 <= start)%Z ->
    (Chunking.len text - start <= Z.of_nat n)%Z ->
    Forall (cut_from chunk_size text) chunks ->
    exists out,
      (forall fuel, n < fuel ->
                    Chunking.chunk_loop fuel (Chunking.new_service chunk_size overlap)
                      text start chunks = Some (Ok out))
      /\ Forall (cut_from chunk_size text) out.
Proof.
  intros Hov Hcs H51. induction n as [|n IH]; intros start chunks Hstart Hn Hall.
  - exists chunks. split; [|exact Hall].
    intros [|fuel] Hfuel; [lia|]. cbn [Chunking.chunk_loop]. cbv zeta.
    replace (start <? Chunking.len text)%Z with false by (symmetry; apply Z.ltb_ge; lia).
    reflexivity.
  - destruct (Z.ltb_spec start (Chunking.len text)) as [Hlt|Hge].
    2:{ exists chunks. split; [|exact Hall].
        intros [|fuel] Hfuel; [lia|]. cbn [Chunking.chunk_loop]. cbv zeta.
        replace (start <? Chunking.len text)%Z with false
          by (symmetry; apply Z.ltb_ge; lia).
        reflexivity. }
    set (end_ := Z.min (start + chunk_size) (Chunking.len text)).
    destruct (Z.ltb_spec end_ (Chunking.len text)) as [Hend|Hend].
    + set (stop := Z.max (start + 50) (end_ - 50)).
      destruct (find_break_valid text (Z.to_nat (end_ - stop)) end_ Hend ltac:(lia))
        as (found & Hfound & Hrange).
      set (end' := match found with Some e => e | None => end_ end).
      assert (Hend' : (start < end')%Z /\ (end' <= Chunking.len text)%Z
                      /\ (end' <= start + chunk_size + 1)%Z
                      /\ (start < end' - overlap)%Z).
      { unfold end'. destruct found as [e|]; lia. }
      destruct Hend' as (H1 & H2 & H3 & H4).
      pose proof (cut_piece chunk_size text start end' chunks ltac:(lia) H2 H3 Hall)
        as Hall'.
      destruct (Z.ltb_spec end' (Chunking.len text)) as [Hmore|Hdone].
      * destruct (IH (end' - overlap)%Z _ ltac:(lia) ltac:(lia) Hall')
          as (out & Hout & Hgood).
        exists out. split; [|exact Hgood].
        intros [|fuel] Hfuel; [lia|]. cbn [Chunking.chunk_loop]. cbv zeta.
        cbn [Chunking.chunk_size Chunking.overlap Chunking.min_chunk_size
             Chunking.new_service].
        replace (start <? Chunking.len text)%Z with true
          by (symmetry; apply Z.ltb_lt; lia).
        fold end_. replace (end_ <? Chunking.len text)%Z with true
          by (symmetry; apply Z.ltb_lt; lia).
        fold stop. rewrite Hfound. fold end'.
        replace (end' <? Chunking.len text)%Z with true
          by (symmetry; apply Z.ltb_lt; lia).
        apply Hout. lia.
      * eexists. split; [|exact Hall'].
        intros [|fuel] Hfuel; [lia|]. cbn [Chunking.chunk_loop]. cbv zeta.
        cbn [Chunking.chunk_size Chunking.overlap Chunking.min_chunk_size
             Chunking.new_service].
        replace (start <? Chunking.len text)%Z with true
          by (symmetry; apply Z.ltb_lt; lia).
        fold end_. replace (end_ <? Chunking.len text)%Z with true
          by (symmetry; apply Z.ltb_lt; lia).
        fold stop. rewrite Hfound. fold end'.
        replace (end' <? Chunking.len text)%Z with false
          by (symmetry; apply Z.ltb_ge; lia).
        reflexivity.
    + pose proof (cut_piece chunk_size text start end_ chunks ltac:(lia) ltac:(lia)
                    ltac:(lia) Hall) as Hall'.
      eexists. split; [|exact Hall'].
      intros [|fuel] Hfuel; [lia|]. cbn [Chunking.chunk_loop]. cbv zeta.
      cbn [Chunking.chunk_size Chunking.overlap Chunking.min_chunk_size
           Chunking.new_service].
      replace (start <? Chunking.len text)%Z with true
        by (symmetry; apply Z.ltb_lt; lia).
      fold end_. replace (end_ <? Chunking.len text)%Z with false
        by (symmetry; apply Z.ltb_ge; lia).
      cbv beta iota.
      replace (end_ <? Chunking.len text)%Z with false
        by (symmetry; apply Z.ltb_ge; lia).
      reflexivity.
Qed.

(** X14.  With an overlap that is not negative, below the chunk size and
    at most 51, [_chunk_by_characters] ends on every text, within as
    many iterations as the text has characters, and raises no
    [IndexError].  Every piece it returns is a stretch of the text
    without the whitespace around it, not empty, and at most one
    character longer than the chunk size. *)
Theorem X14_character_chunks_end :
  forall (chunk_size overlap : Z) (text : Py.chars),
    (0 <= overlap)%Z -> (overlap < chunk_size)%Z -> (overlap <= 51)%Z ->
    exists pieces,
      (forall fuel, length text < fuel ->
                    Chunking._chunk_by_characters fuel
                      (Chunking.new_service chunk_size overlap) text = Some (Ok pieces))
      /\ Forall (cut_from chunk_size text) pieces.
Proof.
  intros chunk_size overlap text Hov Hcs H51.
  unfold Chunking._chunk_by_characters.
  apply (chunk_loop_ends chunk_size overlap text Hov Hcs H51 (length text) 0%Z []).
  - lia.
  - unfold Chunking.len. lia.
  - constructor.
Qed.

Lemma X14_witness :
  exists pieces,
    Chunking._chunk_by_characters 80 (Chunking.new_service 60 10)
      (Py.of_str "The room was clean and quiet. Breakfast was cold and late. We would not return.")
    = Some (Ok pieces)
    /\ Forall (cut_from 60
                 (Py.of_str "The room was clean and quiet. Breakfast was cold and late. We would not return."))
              pieces.
Proof.
  destruct (X14_character_chunks_end 60 10
              (Py.of_str "The room was clean and quiet. Breakfast was cold and late. We would not return."))
    as (pieces & Hrun & Hall); [lia|lia|lia|].
  exists pieces. split; [apply Hrun; cbn; lia|exact Hall].
Defined.

(** X15.  With a chunk size of at most 50 and an overlap that is not
    below it, [_chunk_by_characters] never returns on a text longer than
    the chunk size: no break is looked for, and the start of the next
    chunk does not move forward. *)
Theorem X15_character_chunks_never_end :
  forall (chunk_size overlap : Z) (text : Py.chars) (fuel : nat),
    (0 < chunk_size <= 50)%Z -> (chunk_size <= overlap)%Z ->
    (chunk_size < Chunking.len text)%Z ->
    Chunking._chunk_by_characters fuel (Chunking.new_service chunk_size overlap) text
    = None.
Proof.
  intros chunk_size overlap text fuel Hcs Hov Hlen.
  unfold Chunking._chunk_by_characters.
  assert (H : forall start chunks,
             (start <= 0)%Z ->
             Chunking.chunk_loop fuel (Chunking.new_service chunk_size overlap)
               text start chunks = None).
  { induction fuel as [|fuel IH]; intros start chunks Hstart; [reflexivity|].
    cbn [Chunking.chunk_loop]. cbv zeta.
    cbn [Chunking.chunk_size Chunking.overlap Chunking.min_chunk_size Chunking.new_service].
    replace (start <? Chunking.len text)%Z with true by (symmetry; apply Z.ltb_lt; lia).
    rewrite (Z.min_l (start + chunk_size)) by lia.
    replace (start + chunk_size <? Chunking.len text)%Z with true
      by (symmetry; apply Z.ltb_lt; lia).
    replace (Z.to_nat _) with 0 by lia.
    cbn [Chunking.find_break]. cbv beta iota.
    replace (start + chunk_size <? Chunking.len text)%Z with true
      by (symmetry; apply Z.ltb_lt; lia).
    apply IH. lia. }
  apply H. lia.
Qed.

Lemma X15_witness :
  Chunking._chunk_by_characters 1000 (Chunking.new_service 50 50)
    (Py.of_str "The room was clean and quiet. Breakfast was cold and late. We would not return.")
  = None.
Proof.
  apply X15_character_chunks_never_end; [lia|lia|vm_compute; reflexivity].
Defined.

Lemma re_sub_length (matcher : Py.chars -> option (nat * Py.chars)) :
  (forall t n repl,
      matcher t = Some (n, repl) -> 1 <= n /\ length repl <= length (firstn n t)) ->
  forall s skip, length (Py.re_sub matcher skip s) <= length (skipn skip s).
Proof.
  intros Hm. induction s as [|c r IH]; intros skip.
  - destruct skip; cbn; lia.
  - destruct skip as [|k]; cbn [Py.re_sub skipn].
    + destruct (matcher (c :: r)) as [[n repl]|] eqn:E.
      * destruct (Hm _ _ _ E) as [Hn Hrepl].
        rewrite List.length_app. specialize (IH (n - 1)).
        destruct n as [|n]; [lia|].
        replace (S n - 1) with n in * by lia.
        cbn [firstn length] in Hrepl.
        rewrite List.length_skipn in IH. rewrite List.length_firstn in Hrepl.
        cbn [length]. lia.
      * specialize (IH 0). rewrite drop_0 in IH. cbn [length]. lia.
    + apply IH.
Qed.

Lemma re_sub_Forall (P : ascii -> Prop) (matcher : Py.chars -> option (nat * Py.chars)) :
  (forall t n repl, matcher t = Some (n, repl) -> Forall P repl) ->
  (forall c r, matcher (c :: r) = None -> P c) ->
  forall s skip, Forall P (Py.re_sub matcher skip s).
Proof.
  intros Hrepl Hkeep. induction s as [|c r IH]; intros skip.
  - destruct skip; constructor.
  - destruct skip as [|k]; cbn [Py.re_sub]; [|apply IH].
    destruct (matcher (c :: r)) as [[n repl]|] eqn:E.
    + apply Forall_app_2; [apply (Hrepl _ _ _ E)|apply IH].
    + constructor; [apply (Hkeep _ _ E)|apply IH].
Qed.

Lemma lstrip_Forall (P : ascii -> Prop) (s : Py.chars) : Forall P s -> Forall P (Py.lstrip s).
Proof.
  induction 1 as [|c s Hc Hs IH]; cbn; [constructor|].
  destruct (Py.isspace c); [exact IH|constructor; assumption].
Qed.

Lemma strip_Forall (P : ascii -> Prop) (s : Py.chars) : Forall P s -> Forall P (Py.strip s).
Proof.
  intros H. unfold Py.strip, Py.rstrip.
  apply List.Forall_rev, lstrip_Forall, List.Forall_rev, lstrip_Forall, H.
Qed.

Lemma lstrip_snoc (a : Py.chars) (c : ascii) :
  Py.isspace c = false -> Py.lstrip (a ++ [c]) = Py.lstrip a ++ [c].
Proof.
  intros Hc. induction a as [|x a IH]; cbn; [rewrite Hc; reflexivity|].
  destruct (Py.isspace x); [exact IH|reflexivity].
Qed.

Lemma lstrip_lstrip (s : Py.chars) : Py.lstrip (Py.lstrip s) = Py.lstrip s.
Proof.
  induction s as [|c s IH]; [reflexivity|]. cbn.
  destruct (Py.isspace c) eqn:E; [exact IH|]. cbn. rewrite E. reflexivity.
Qed.

(** Trimming a trimmed text changes nothing. *)
Lemma strip_strip (s : Py.chars) : Py.strip (Py.strip s) = Py.strip s.
Proof.
  unfold Py.strip, Py.rstrip.
  assert (H : forall t, Py.lstrip t = t ->
                        Py.lstrip (rev (Py.lstrip (rev t))) = rev (Py.lstrip (rev t))).
  { intros [|c t] Ht; [reflexivity|].
    cbn [Py.lstrip] in Ht. destruct (Py.isspace c) eqn:Ec.
    - exfalso. apply (f_equal (@length _)) in Ht.
      pose proof (lstrip_length t). cbn in Ht. lia.
    - cbn [rev]. rewrite (lstrip_snoc _ _ Ec), rev_app_distr. cbn. rewrite Ec. reflexivity. }
  rewrite (H _ (lstrip_lstrip s)), rev_involutive, lstrip_lstrip. reflexivity.
Qed.

(** X16.  [_clean_text] returns a text of ASCII characters alone, in
    which the space is the only whitespace character, with no
    whitespace at either end, and never longer than the text it was
    given. *)
Theorem X16_clean_text_is_plain :
  forall text : Py.chars,
    Forall (fun c => Py.code c < 128) (Chunking._clean_text text)
    /\ Forall (fun c => Py.isspace c = true -> c = " "%char) (Chunking._clean_text text)
    /\ Py.strip (Chunking._clean_text text) = Chunking._clean_text text
    /\ length (Chunking._clean_text text) <= length text.
Proof.
  intros text. unfold Chunking._clean_text. cbv zeta.
  split; [|split; [|split]].
  - apply strip_Forall, List.Forall_forall. intros c Hc.
    apply List.filter_In in Hc as [_ Hc]. apply Nat.ltb_lt, Hc.
  - apply strip_Forall, List.Forall_forall. intros c Hc.
    apply List.filter_In in Hc as [Hc _]. revert c Hc.
    apply (proj1 (List.Forall_forall (fun c => Py.isspace c = true -> c = " "%char) _)).
    unfold Chunking.collapse_whitespace. apply re_sub_Forall.
    + intros t n repl H. destruct (1 <=? Py.ws_run t); [|discriminate].
      injection H as <- <-. constructor; [reflexivity|constructor].
    + intros c r H Hc. cbn [Py.ws_run] in H. rewrite Hc in H. discriminate H.
  - apply strip_strip.
  - etransitivity; [apply strip_length|].
    etransitivity; [apply List.filter_length_le|].
    unfold Chunking.collapse_whitespace.
    rewrite <- (drop_0 text) at 2. apply re_sub_length.
    intros t n repl H. destruct (1 <=? Py.ws_run t) eqn:E; [|discriminate].
    injection H as <- <-. apply Nat.leb_le in E.
    split; [exact E|]. destruct t as [|c t]; [cbn in E; lia|].
    destruct (Py.ws_run (c :: t)); [lia|]. cbn. lia.
Qed.

(** ** The orchestrator: a text asked for again *)

Section OrchestratorReplay.
Context `{RT : Runtime}.



End OrchestratorReplay.


(** ** The chunker: batches *)

Lemma chunk_text_by_sentences (fuel : nat) (self : Chunking.ChunkingService) (text : string) :
  exists chunks,
    Chunking.chunk_text fuel self text true = Some (Ok chunks) /\ 1 <= length chunks.
Proof.
  unfold Chunking.chunk_text. destruct (_ || _).
  - eexists. split; [reflexivity|cbn; lia].
  - cbv zeta. eexists. split; [reflexivity|].
    rewrite with_metadata_length. apply by_sentences_not_empty.
Qed.

(** X18.  [chunk_batch] always returns, with one list of chunks per
    text, in the order of the texts, and none of the lists is empty: it
    cuts by sentences, where no loop can run on and no text is lost. *)
Theorem X18_chunk_batch_one_list_per_text :
  forall (fuel : nat) (self : Chunking.ChunkingService) (texts : list string),
  exists results,
    Chunking.chunk_batch fuel self texts = Some (Ok results)
    /\ length results = length texts
    /\ Forall2 (fun chunks text =>
                  Chunking.chunk_text fuel self text true = Some (Ok chunks)
                  /\ 1 <= length chunks)
               results texts.
Proof.
  intros fuel self texts. induction texts as [|text texts IH].
  - exists []. split; [reflexivity|]. split; [reflexivity|constructor].
  - destruct (chunk_text_by_sentences fuel self text) as (chunks & Hrun & Hlen).
    destruct IH as (results & Hrest & Hn & Hall).
    exists (chunks :: results). cbn [Chunking.chunk_batch]. rewrite Hrun, Hrest.
    split; [reflexivity|]. split; [cbn; lia|]. constructor; [split; assumption|exact Hall].
Qed.

(** ** The sentiment service *)

Lemma nonspace_zero (s : Py.chars) : nonspace s = 0 -> forallb Py.isspace s = true.
Proof.
  induction s as [|c s IH]; cbn; [reflexivity|].
  destruct (Py.isspace c); cbn; [exact IH|lia].
Qed.

Lemma split_empty (s : Py.chars) : Py.split s = [] -> forallb Py.isspace s = true.
Proof.
  intros H. apply nonspace_zero. rewrite <- split_nonspace, H. reflexivity.
Qed.

Lemma join_empty (ws : list Py.chars) :
  Forall (fun w => 1 <= length w) ws -> Py.join [Tokenization.space] ws = [] -> ws = [].
Proof.
  intros Hws H. destruct ws as [|w ws]; [reflexivity|].
  apply Forall_cons in Hws as [Hw _]. rewrite join_cons in H.
  apply (f_equal (@length _)) in H.
  destruct ws; [cbn in H; lia|rewrite List.length_app in H; cbn in H; lia].
Qed.

Lemma to_str_empty (s : Py.chars) : Py.to_str s = "" -> s = [].
Proof. destruct s; [reflexivity|discriminate]. Qed.

Section SentimentService.
Context `{RT : Runtime}.


End SentimentService.

(** X19.  [_preprocess_text] returns at most 503 characters, and the
    empty text exactly for a text that is empty or whitespace alone;
    for such a text [SentimentService.analyze_sentiment] answers Neutral
    with confidence 0.0 and leaves the gateway alone. *)
Theorem X19_preprocessed_text_is_short :
  forall (RT : Runtime) (text : string),
    String.length (Sentiment._preprocess_text text) <= 503
    /\ (Sentiment._preprocess_text text = ""
        <-> forallb Py.isspace (Py.of_str text) = true)
    /\ (forallb Py.isspace (Py.of_str text) = true ->
        forall svc, Sentiment.analyze_sentiment text svc = (Ok (NEUTRAL, f_0_0), svc)).
Proof.
  intros RT text.
  assert (Hempty : Sentiment._preprocess_text text = ""
                   <-> forallb Py.isspace (Py.of_str text) = true).
  { unfold Sentiment._preprocess_text. destruct text as [|c text]; [split; reflexivity|].
    cbv zeta. set (s := Py.of_str (String c text)).
    set (t := Py.join [Tokenization.space] (Py.split (Py.strip s))).
    split.
    - intros H. apply to_str_empty in H.
      destruct (Sentiment.max_length <? length t).
      + apply (f_equal (@length _)) in H. rewrite List.length_app in H. cbn in H. lia.
      + apply join_empty in H; [|apply split_words].
        apply split_empty in H. apply nonspace_zero.
        rewrite <- (strip_nonspace s). clear -H.
        induction (Py.strip s) as [|x l IHl]; [reflexivity|].
        cbn in H |- *. destruct (Py.isspace x); cbn in *; [auto|discriminate].
    - intros H. unfold t. rewrite (strip_all_space s H). reflexivity. }
  split; [|split; [exact Hempty|]].
  - unfold Sentiment._preprocess_text. destruct text as [|c text]; [cbn; lia|].
    cbv zeta. rewrite to_str_length.
    destruct (Sentiment.max_length <? length _) eqn:E.
    + rewrite List.length_app, List.length_firstn.
      change (length (Py.of_str "...")) with 3. unfold Sentiment.max_length. lia.
    + apply Nat.ltb_ge in E. unfold Sentiment.max_length in E. lia.
  - intros Hspace svc. apply empty_text_outcome, Hempty, Hspace.
Qed.


(** X21.  In the statistics of [get_sentiment_statistics], of either
    service, every outcome is counted once: the three counts add up to
    the total, which is the number of outcomes. *)
Theorem X21_sentiment_counts_add_up :
  forall sentiments : list outcome,
    Models.positive_count (Sentiment.get_sentiment_statistics sentiments)
    + Models.negative_count (Sentiment.get_sentiment_statistics sentiments)
    + Models.neutral_count (Sentiment.get_sentiment_statistics sentiments)
    = Models.total (Sentiment.get_sentiment_statistics sentiments)
    /\ Models.total (Sentiment.get_sentiment_statistics sentiments) = length sentiments
    /\ Optimized.get_sentiment_statistics sentiments
       = Sentiment.get_sentiment_statistics sentiments.
Proof.
  intros sentiments. split; [|split; reflexivity].
  unfold Sentiment.get_sentiment_statistics. cbv zeta.
  cbn [Models.positive_count Models.negative_count Models.neutral_count Models.total].
  induction sentiments as [|[[] c] sentiments IH]; [reflexivity| | |];
    cbn [List.filter fst Models.value String.eqb Ascii.eqb Bool.eqb length] in *; lia.
Qed.

(** ** The orchestrator: chunks *)

Lemma all_filled {A} (slots : list (option A)) :
  (forall i, i < length slots -> exists r, slots !! i = Some (Some r)) ->
  exists rs, slots = map Some rs.
Proof.
  induction slots as [|slot slots IH]; intros H.
  - exists []. reflexivity.
  - destruct (H 0 ltac:(cbn; lia)) as (r & Hr). cbn in Hr. injection Hr as ->.
    destruct IH as (rs & ->).
    { intros i Hi. apply (H (S i)). cbn. lia. }
    exists (r :: rs). reflexivity.
Qed.

(** X22.  [OptimizedSentimentService.parallel_analyze] answers no chunks
    with the empty list, where the batch analysis it calls would raise;
    and when every future of the thread pools completes and the batch
    size is positive, it never raises and returns one outcome per
    chunk. *)
Theorem X22_parallel_analysis_answers_every_chunk :
  forall (RT : Runtime) (chunks : list Models.TextChunk)
         (svc : Optimized.OptimizedSentimentService),
    fair_scheduler ->
    0 < Optimized.batch_size svc ->
    Optimized.parallel_analyze [] svc = (Ok [], svc)
    /\ exists results,
         fst (Optimized.parallel_analyze chunks svc) = Ok (map Some results)
         /\ length results = length chunks.
Proof.
  intros RT chunks svc Hfair Hsize. split; [reflexivity|].
  destruct chunks as [|chunk chunks]; [exists []; split; reflexivity|].
  unfold Optimized.parallel_analyze, Optimized.parallel_analyze_with. cbv zeta.
  set (texts := map Models.text (chunk :: chunks)).
  set (languages := map Models.language_name (chunk :: chunks)).
  destruct (batch_analyze_spec Ollama.analyze_sentiment (fun _ => True) (fun _ => True)
              ltac:(intros; split; [exact I|intros; exact I]) ltac:(intros; exact I)
              texts languages svc Hfair ltac:(discriminate)
              ltac:(right; unfold texts, languages; rewrite !List.length_map; reflexivity)
              Hsize I)
    as (results & svc' & Hrun & _ & Hlen & Hslots).
  rewrite Hrun. cbn [fst].
  destruct (all_filled results) as (rs & ->).
  { intros i Hi. rewrite Hlen in Hi.
    destruct (lookup_lt_is_Some_2 texts i Hi) as [text Htext].
    destruct (lookup_lt_is_Some_2 (effective_languages texts languages) i) as [l Hl].
    { unfold effective_languages, languages. cbn [map].
      unfold texts in Hi. cbn [map length] in Hi |- *.
      rewrite List.length_map in Hi |- *. exact Hi. }
    destruct (Hslots i text l Htext Hl) as (o & r & _ & Hr & _).
    exists r. exact Hr. }
  exists rs. split; [reflexivity|].
  rewrite List.length_map in Hlen. rewrite Hlen. unfold texts. apply List.length_map.
Qed.

Lemma X22_witness :
  exists results,
    fst (@Optimized.parallel_analyze (Reference.runtime [] Reference.reversed)
           [ {| Models.chunk_id := 0; Models.text := "good value";
                Models.start_index := 0; Models.end_index := 1;
                Models.language := Some "en" |};
             {| Models.chunk_id := 1; Models.text := "mauvais";
                Models.start_index := 1; Models.end_index := 2;
                Models.language := None |} ]
           (Optimized.new_service false))
    = Ok (map Some results)
    /\ length results = 2.
Proof.
  apply (X22_parallel_analysis_answers_every_chunk
           (Reference.runtime [] Reference.reversed)
           [ {| Models.chunk_id := 0; Models.text := "good value";
                Models.start_index := 0; Models.end_index := 1;
                Models.language := Some "en" |};
             {| Models.chunk_id := 1; Models.text := "mauvais";
                Models.start_index := 1; Models.end_index := 2;
                Models.language := None |} ]
           (Optimized.new_service false)).
  - apply reference_scheduler_fair.
  - cbn. lia.
Defined.

(** ** The gateway: how often the model is asked *)

Section Asking.
Context `{RT : Runtime}.

Lemma asks_weaken {A} (k k' : nat) (m : M Ollama.OllamaService A) :
  k <= k' -> asks_at_most k m -> asks_at_most k' m.
Proof.
  intros Hk Hm svc. destruct (Hm svc) as (calls & Hcalls & Hlen).
  exists calls. split; [exact Hcalls|lia].
Qed.

Lemma asks_ret {A} (a : A) : asks_at_most 0 (ret a).
Proof. intros svc. exists []. rewrite app_nil_r. split; [reflexivity|cbn; lia]. Qed.

Lemma asks_bind {A B} (k1 k2 : nat) (m : M Ollama.OllamaService A)
    (f : A -> M Ollama.OllamaService B) :
  asks_at_most k1 m -> (forall a, asks_at_most k2 (f a)) ->
  asks_at_most (k1 + k2) (bind m f).
Proof.
  intros Hm Hf svc. unfold bind.
  destruct (Hm svc) as (calls1 & Hcalls1 & Hlen1).
  destruct (m svc) as [[a|e] svc1]; cbn [snd] in *.
  - destruct (Hf a svc1) as (calls2 & Hcalls2 & Hlen2).
    exists (calls1 ++ calls2). rewrite Hcalls2, Hcalls1, app_assoc, List.length_app.
    split; [reflexivity|lia].
  - exists calls1. split; [exact Hcalls1|lia].
Qed.

Lemma asks_try {A} (k1 k2 : nat) (body : M Ollama.OllamaService A)
    (handler : exn -> M Ollama.OllamaService A) :
  asks_at_most k1 body -> (forall e, asks_at_most k2 (handler e)) ->
  asks_at_most (k1 + k2) (try_except body handler).
Proof.
  intros Hb Hh svc. unfold try_except.
  destruct (Hb svc) as (calls1 & Hcalls1 & Hlen1).
  destruct (body svc) as [[a|e] svc1]; cbn [snd] in *.
  - exists calls1. split; [exact Hcalls1|lia].
  - destruct (Hh e svc1) as (calls2 & Hcalls2 & Hlen2).
    exists (calls1 ++ calls2). rewrite Hcalls2, Hcalls1, app_assoc, List.length_app.
    split; [reflexivity|lia].
Qed.

Lemma asks_map_m {A B} (k : nat) (f : A -> M Ollama.OllamaService B) (xs : list A) :
  (forall x, asks_at_most k (f x)) -> asks_at_most (k * length xs) (map_m f xs).
Proof.
  intros Hf. induction xs as [|x xs IH]; cbn [map_m length].
  - apply (asks_weaken 0); [lia|apply asks_ret].
  - apply (asks_weaken (k + (k * length xs + 0))); [lia|].
    apply asks_bind; [apply Hf|intros y].
    apply asks_bind; [exact IH|intros ys; apply asks_ret].
Qed.

Lemma asks_for_each {A} (body : A -> M Ollama.OllamaService unit) (xs : list A) :
  (forall x, asks_at_most 0 (body x)) -> asks_at_most 0 (for_each body xs).
Proof.
  intros Hb. induction xs as [|x xs IH]; cbn [for_each]; [apply asks_ret|].
  apply (asks_bind 0 0); [apply Hb|intros _; exact IH].
Qed.

Lemma asks_store_sentiment (key : string) (r : outcome) :
  asks_at_most 0 (Ollama.store_sentiment key r).
Proof. intros svc. exists []. rewrite app_nil_r. split; [reflexivity|cbn; lia]. Qed.

Lemma analyze_sentiment_asks (text : string) :
  asks_at_most 2 (Ollama.analyze_sentiment text).
Proof.
  intros svc.
  unfold Ollama.analyze_sentiment, try_except, bind, gets, ret, raise, lift_result,
    Ollama.client_chat, Ollama._initialize_client, Ollama.store_sentiment, modify,
    Ollama.getitem.
  cbv beta zeta.
  repeat (break_inner; cbn [fst snd negb Ollama.client Ollama.with_client Ollama.with_call
                            Ollama.remote_calls Ollama.with_sentiment_cache] in *;
          try discriminate).
  all: simplify_eq.
  all: cbn [fst snd Ollama.client Ollama.with_client Ollama.with_call
            Ollama.remote_calls Ollama.with_sentiment_cache].
  all: first
         [ exists []; rewrite app_nil_r; split; [reflexivity|cbn; lia]
         | exists [SentimentPrompt text]; split; [reflexivity|cbn; lia]
         | exists [SentimentPrompt text; SentimentPrompt text];
           rewrite <- app_assoc; split; [reflexivity|cbn; lia] ].
Qed.

Lemma translate_text_asks (text source_lang target_lang : string) :
  asks_at_most 1 (Ollama.translate_text text source_lang target_lang).
Proof.
  intros svc.
  unfold Ollama.translate_text, try_except, bind, gets, ret, Ollama.store_translation,
    modify, Ollama.client_chat.
  cbv beta zeta.
  repeat (break_inner; cbn [fst snd negb Ollama.client Ollama.with_call
                            Ollama.remote_calls Ollama.with_translation_cache] in *;
          try discriminate).
  all: simplify_eq.
  all: cbn [fst snd Ollama.client Ollama.with_call
            Ollama.remote_calls Ollama.with_translation_cache].
  all: first
         [ exists []; rewrite app_nil_r; split; [reflexivity|cbn; lia]
         | eexists [_]; split; [reflexivity|cbn; lia] ].
Qed.

Lemma batch_reply_asks (texts : list string) : asks_at_most 1 (Ollama.batch_reply texts).
Proof.
  intros svc.
  unfold Ollama.batch_reply, try_except, bind, ret, raise, lift_result,
    Ollama.client_chat, modify, Ollama.getitem.
  cbv beta.
  repeat (first
            [ match goal with
              | |- context [Ollama._extract_json_from_response ?c ?s] =>
                  let E := fresh "E" in
                  pose proof (extract_json_state c s) as E;
                  destruct (Ollama._extract_json_from_response c s) as [? ?];
                  cbn [snd] in E; subst
              end
            | break_inner ];
          cbn [fst snd negb Ollama.client Ollama.with_client Ollama.with_call
               Ollama.remote_calls Ollama.with_last_response] in *;
          try discriminate).
  all: first
         [ exists []; rewrite app_nil_r; split; [reflexivity|cbn; lia]
         | eexists [_]; split; [reflexivity|cbn; lia] ].
Qed.

Lemma batch_api_call_asks (texts : list string) :
  asks_at_most (1 + 2 * length texts) (Ollama._batch_sentiment_api_call texts).
Proof.
  unfold Ollama._batch_sentiment_api_call.
  apply asks_bind; [apply batch_reply_asks|intros [results|]].
  - apply (asks_weaken 0); [lia|apply asks_ret].
  - apply asks_map_m. intros text.
    apply (asks_weaken (2 + 0)); [lia|].
    apply asks_try; [apply analyze_sentiment_asks|intros _; apply asks_ret].
Qed.

Lemma partition_cached_length (cache : Dict.t outcome) (texts : list string) (i : nat) :
  length (snd (Ollama.partition_cached cache i texts)) <= length texts.
Proof.
  revert i. induction texts as [|text texts IH]; intros i; cbn; [lia|].
  specialize (IH (S i)).
  destruct (Ollama.partition_cached cache (S i) texts) as [cached uncached].
  destruct (Dict.get _ cache); cbn in *; lia.
Qed.

Lemma batch_analyze_sentiment_asks (texts : list string) :
  asks_at_most (1 + 2 * length texts) (Ollama.batch_analyze_sentiment texts).
Proof.
  unfold Ollama.batch_analyze_sentiment.
  destruct texts as [|text0 texts0]; [apply (asks_weaken 0); [lia|apply asks_ret]|].
  cbv beta iota. set (texts := text0 :: texts0). clearbody texts.
  intros svc. unfold bind at 1 2, gets. cbv beta iota. cbn [fst snd].
  pose proof (partition_cached_length (Ollama.sentiment_cache svc) texts 0) as Hlen.
  destruct (Ollama.partition_cached (Ollama.sentiment_cache svc) 0 texts)
    as [cached uncached]. cbn [snd] in Hlen.
  revert svc.
  change (asks_at_most (1 + 2 * length texts)
            (fun svc =>
               bind (gets Ollama.client) (fun has_client =>
               bind (if negb (length (map snd uncached) =? 0) && has_client
                     then bind (Ollama._batch_sentiment_api_call (map snd uncached))
                            (fun batch_results =>
                               bind (for_each
                                       (fun tr => Ollama.store_sentiment
                                                    (Ollama._get_cache_key (fst tr) "sentiment")
                                                    (snd tr))
                                       (combine (map snd uncached) batch_results))
                                    (fun _ => ret (combine (map fst uncached) batch_results)))
                     else ret (combine (map fst uncached)
                                 (map Fallback._fallback_sentiment (map snd uncached))))
                    (fun fresh => ret (map snd (Ollama.sort_by_index (cached ++ fresh)))))
                 svc)).
  apply (asks_weaken (0 + ((1 + 2 * length (map snd uncached) + (0 + 0)) + 0)));
    [rewrite List.length_map; lia|].
  apply (asks_bind 0).
  { intros svc. exists []. rewrite app_nil_r. split; [reflexivity|cbn; lia]. }
  intros has_client. apply asks_bind; [|intros fresh; apply asks_ret].
  destruct (_ && _).
  - apply asks_bind; [apply batch_api_call_asks|intros batch_results].
    apply asks_bind; [|intros _; apply asks_ret].
    apply asks_for_each. intros tr. apply asks_store_sentiment.
  - apply (asks_weaken 0); [lia|apply asks_ret].
Qed.

End Asking.

(** X23.  The gateway asks the model a bounded number of times and
    never forgets a call it made: [analyze_sentiment] adds at most two
    calls to those made so far (the second after an authentication
    error), [translate_text] at most one, and [batch_analyze_sentiment]
    at most one batch call and two calls for each of its texts. *)
Theorem X23_remote_calls_are_bounded :
  forall (RT : Runtime),
    (forall text, asks_at_most 2 (Ollama.analyze_sentiment text))
    /\ (forall text source_lang target_lang,
           asks_at_most 1 (Ollama.translate_text text source_lang target_lang))
    /\ (forall texts,
           asks_at_most (1 + 2 * length texts) (Ollama.batch_analyze_sentiment texts)).
Proof.
  intros RT. split; [|split].
  - apply analyze_sentiment_asks.
  - apply translate_text_asks.
  - apply batch_analyze_sentiment_asks.
Qed.

(** ** The chunker: statistics *)

Lemma fold_min_bounds (l : list nat) (a : nat) :
  fold_left Nat.min l a <= a /\ Forall (fun x => fold_left Nat.min l a <= x) l.
Proof.
  revert a. induction l as [|x l IH]; intros a; cbn [fold_left]; [split; [lia|constructor]|].
  destruct (IH (Nat.min a x)) as [Ha Hl]. split; [lia|].
  constructor; [lia|exact Hl].
Qed.

Lemma fold_max_bounds (l : list nat) (a : nat) :
  a <= fold_left Nat.max l a /\ Forall (fun x => x <= fold_left Nat.max l a) l.
Proof.
  revert a. induction l as [|x l IH]; intros a; cbn [fold_left]; [split; [lia|constructor]|].
  destruct (IH (Nat.max a x)) as [Ha Hl]. split; [lia|].
  constructor; [lia|exact Hl].
Qed.

Lemma sum_bounds (l : list nat) (lo hi : nat) :
  Forall (fun x => lo <= x <= hi) l ->
  lo * length l <= list_sum l <= hi * length l.
Proof.
  induction 1 as [|x l Hx _ IH]; cbn [list_sum length map fold_right] in *; [lia|].
  unfold list_sum in *. cbn [fold_right]. nia.
Qed.

(** X24.  The statistics of [get_chunk_statistics] agree with the
    chunks: [total_chunks] is their number, [total_characters] the sum
    of the lengths of their texts, every text is at least
    [min_chunk_size] and at most [max_chunk_size] long, and for at
    least one chunk the average lies between the two. *)
Theorem X24_chunk_statistics_agree :
  forall chunks : list Chunking.chunk,
    Chunking.Statistics.total_chunks (Chunking.get_chunk_statistics chunks) = length chunks
    /\ Chunking.Statistics.total_characters (Chunking.get_chunk_statistics chunks)
       = list_sum (map (fun c => String.length (Chunking.text c)) chunks)
    /\ Forall (fun c =>
                 Chunking.Statistics.min_chunk_size (Chunking.get_chunk_statistics chunks)
                 <= String.length (Chunking.text c)
                 <= Chunking.Statistics.max_chunk_size (Chunking.get_chunk_statistics chunks))
              chunks
    /\ (chunks <> [] ->
        Py.fle (Py.Fin (inject_Z (Z.of_nat (Chunking.Statistics.min_chunk_size
                                              (Chunking.get_chunk_statistics chunks)))))
               (Chunking.Statistics.avg_chunk_size (Chunking.get_chunk_statistics chunks))
        = true
        /\ Py.fle (Chunking.Statistics.avg_chunk_size (Chunking.get_chunk_statistics chunks))
                  (Py.Fin (inject_Z (Z.of_nat (Chunking.Statistics.max_chunk_size
                                                 (Chunking.get_chunk_statistics chunks)))))
           = true).
Proof.
  intros [|first rest].
  - split; [reflexivity|]. split; [reflexivity|]. split; [constructor|congruence].
  - unfold Chunking.get_chunk_statistics. cbv zeta.
    cbn [Chunking.Statistics.total_chunks Chunking.Statistics.total_characters
         Chunking.Statistics.min_chunk_size Chunking.Statistics.max_chunk_size
         Chunking.Statistics.avg_chunk_size].
    pose (size := fun c => String.length (Chunking.text c)).
    destruct (fold_min_bounds (map size rest) (size first)) as [Hlo Hlos].
    destruct (fold_max_bounds (map size rest) (size first)) as [Hhi Hhis].
    change (fun chunk => String.length (Chunking.text chunk)) with size.
    change (String.length (Chunking.text first)) with (size first).
    set (lo := fold_left Nat.min (map size rest) (size first)) in *.
    set (hi := fold_left Nat.max (map size rest) (size first)) in *.
    assert (Hall : Forall (fun c => lo <= size c <= hi) (first :: rest)).
    { constructor; [lia|].
      apply List.Forall_forall. intros c Hc.
      rewrite List.Forall_forall in Hlos, Hhis.
      split; [apply Hlos|apply Hhis]; apply in_map, Hc. }
    split; [reflexivity|]. split; [reflexivity|]. split; [exact Hall|].
    intros _.
    assert (Hsum : lo * length (map size (first :: rest))
                   <= list_sum (map size (first :: rest))
                   <= hi * length (map size (first :: rest))).
    { apply sum_bounds. apply List.Forall_forall. intros x Hx.
      apply in_map_iff in Hx as (c & <- & Hc).
      rewrite List.Forall_forall in Hall. apply Hall, Hc. }
    set (total := list_sum (map size (first :: rest))) in *.
    set (n := length (map size (first :: rest))) in *.
    assert (Hn : 1 <= n) by (unfold n; cbn; lia).
    assert (Hpos : Z.pos (Pos.of_nat n) = Z.of_nat n).
    { rewrite <- (Nat2Pos.id n) at 2 by lia. symmetry. apply positive_nat_Z. }
    clear Hlo Hlos Hhi Hhis Hall. clearbody lo hi total n.
    unfold Py.fle. split.
    + destruct (Qlt_le_dec _ _) as [Hlt|_]; [|reflexivity].
      exfalso. unfold Qlt in Hlt. cbn [Qnum Qden inject_Z] in Hlt.
      rewrite Hpos in Hlt. nia.
    + destruct (Qlt_le_dec _ _) as [Hlt|_]; [|reflexivity].
      exfalso. unfold Qlt in Hlt. cbn [Qnum Qden inject_Z] in Hlt.
      rewrite Hpos in Hlt. nia.
Qed.
